(** * Flow-Tracking-Production: the task-transition engine

    A shallow embedding of [sg_file_operations.copy], [Publish.publish] and
    [Review.update_version], and the properties of the specification that
    concern them.

    Python code is embedded as computations in a state-and-exception monad:
    local variables and accumulators that survive a raised exception live in
    the state, an exception is a value [inl e] that skips the rest of a
    block until a [try_catch] handles it. *)

From stdpp Require Import base strings list gmap pretty.
From Stdlib Require Import ZArith Lia Ascii String.

Open Scope Z_scope.

(** ** State-and-exception monad *)

(** An exception is represented by its text, [str(e)]. *)
Definition exn := string.

Definition SE (S A : Type) : Type := S -> S * (exn + A).

Definition ret {S A} (a : A) : SE S A := fun s => (s, inr a).

Definition bind {S A B} (m : SE S A) (f : A -> SE S B) : SE S B :=
  fun s =>
    match m s with
    | (s', inl e) => (s', inl e)
    | (s', inr a) => f a s'
    end.

Notation "'do' x <- m ; k" := (bind m (fun x => k))
  (at level 10, x name, m at level 100, k at level 200).
Notation "'run' m ; k" := (bind m (fun _ => k))
  (at level 10, m at level 100, k at level 200).

Definition raise {S A} (e : exn) : SE S A := fun s => (s, inl e).

Definition get_state {S} : SE S S := fun s => (s, inr s).

Definition modify {S} (f : S -> S) : SE S unit := fun s => (f s, inr tt).

(** [try: body except Exception as e: handler e]. *)
Definition try_catch {S A} (body : SE S A) (handler : exn -> SE S A) : SE S A :=
  fun s =>
    match body s with
    | (s', inl e) => handler e s'
    | (s', inr a) => (s', inr a)
    end.

(** [for x in l: body x]. *)
Fixpoint for_each {S A} (l : list A) (body : A -> SE S unit) : SE S unit :=
  match l with
  | [] => ret tt
  | x :: rest => run body x; for_each rest body
  end.

(** [for x in l: acc = body acc x], for loops that update local variables. *)
Fixpoint for_fold {S A B} (l : list A) (acc : B) (body : B -> A -> SE S B) : SE S B :=
  match l with
  | [] => ret acc
  | x :: rest => do acc' <- body acc x; for_fold rest acc' body
  end.

(** A computation leaves a component of the state as it found it. *)
Definition keeps {S A X} (f : S -> X) (m : SE S A) : Prop :=
  forall s, f (fst (m s)) = f s.

(** Python truthiness of a string and of a list. *)
Definition truthy_str (s : string) : bool := negb (bool_decide (s = "")).
Definition truthy_list {A} (l : list A) : bool :=
  match l with [] => false | _ => true end.

(** [x in l] for a list of strings. *)
Definition str_in (x : string) (l : list string) : bool := bool_decide (x ∈ l).

(** ** sg_file_operations.py *)

Module FileOps.

(** The calls of [copy] that change the file system, as they appear in the
    log of a run. *)
Inductive os_call :=
| Chmod (path : string) (mode : Z)
| CopyFile (metadata : bool) (src dst : string)
| Rmtree (path : string)
| Copytree (src dst : string) (ignore : option (list string))
| Mkdir (path : string)
| Logon (login password : string)
| Impersonate
| Revert.

(** A call with its outcome: [None] when it returned, [Some e] when it
    raised [e]. *)
Record event := Ev { ev_call : os_call; ev_error : option exn }.

(** The operating system as [copy] sees it. Every call may raise; a call
    that changes the file system returns the new file system even when it
    raises. [W] is the state of the file system. *)
Record OS (W : Type) := {
  (* convert_to_unc(path, logger): depends on win32wnet and os.path *)
  os_unc : string -> W -> exn + string;
  (* pathlib.Path(p).exists() *)
  os_exists : string -> W -> exn + bool;
  (* pathlib.Path(p).is_file() *)
  os_is_file : string -> W -> exn + bool;
  (* os.access(p, os.W_OK) *)
  os_access_w : string -> W -> exn + bool;
  (* pathlib.Path(p).stat().st_mode *)
  os_st_mode : string -> W -> exn + Z;
  (* pathlib.Path(p).suffix and str(pathlib.Path(p).parent) *)
  os_suffix : string -> string;
  os_parent : string -> string;
  (* pathlib.Path(p).chmod(mode) *)
  os_chmod : string -> Z -> W -> W * option exn;
  (* shutil.copy2(src, dst) when metadata, else shutil.copy(src, dst) *)
  os_copy : bool -> string -> string -> W -> W * option exn;
  (* shutil.rmtree(p) *)
  os_rmtree : string -> W -> W * option exn;
  (* shutil.copytree(src, dst, ignore=...) *)
  os_copytree : string -> string -> option (list string) -> W -> W * option exn;
  (* pathlib.Path(p).mkdir(parents=True, exist_ok=True) *)
  os_mkdir : string -> W -> W * option exn;
  (* win32security.LogonUser(login, domain, password, ...) *)
  os_logon : string -> string -> W -> W * option exn;
  (* win32security.ImpersonateLoggedOnUser(handle) *)
  os_impersonate : W -> W * option exn;
  (* win32security.RevertToSelf(); handle.Close() *)
  os_revert : W -> W * option exn;
}.
Arguments os_unc {W}.
Arguments os_exists {W}.
Arguments os_is_file {W}.
Arguments os_access_w {W}.
Arguments os_st_mode {W}.
Arguments os_suffix {W}.
Arguments os_parent {W}.
Arguments os_chmod {W}.
Arguments os_copy {W}.
Arguments os_rmtree {W}.
Arguments os_copytree {W}.
Arguments os_mkdir {W}.
Arguments os_logon {W}.
Arguments os_impersonate {W}.
Arguments os_revert {W}.

(** stat.S_IWRITE and stat.S_IMODE. *)
Definition S_IWRITE : Z := 128.
Definition S_IMODE (mode : Z) : Z := Z.land mode 4095.

(** The local variables of a call of [copy] that the function reads back:
    [status], [msg], and [original_mode], which is bound only on the path
    that assigns it. *)
Record frame := {
  status : bool;
  msg : string;
  original_mode : option Z;
}.

(** [locals()]: the names bound in the frame where the restore test reads
    it. The parameters and the variables assigned on every path to that
    point are always there; [original_mode] once it is assigned. *)
Definition locals (f : frame) : list string :=
  ["source"; "destination"; "logger"; "ignores"; "overwrite"; "buffer";
   "metadata"; "status"; "msg"; "source_path"; "destination_path";
   "copy_func"; "_copy_file_obj"; "ignore_func"]
  ++ match original_mode f with Some _ => ["original_mode"] | None => [] end.

Record cstate (W : Type) := {
  world : W;
  trace : list event;
  fr : frame;
}.
Arguments world {W}.
Arguments trace {W}.
Arguments fr {W}.

Definition fresh_frame : frame :=
  {| status := false; msg := ""; original_mode := None |}.

Section Copy.
Context {W : Type} (os : OS W).

Abbreviation M := (SE (cstate W)).

(** A call that only reads the file system. *)
Definition query {A} (q : W -> exn + A) : M A :=
  fun s => (s, q (world s)).

(** A call that changes the file system; it is logged with its outcome. *)
Definition effect (c : os_call) (f : W -> W * option exn) : M unit :=
  fun s =>
    let '(w', r) := f (world s) in
    ({| world := w'; trace := trace s ++ [Ev c r]; fr := fr s |},
     match r with Some e => inl e | None => inr tt end).

Definition set_frame (f : frame -> frame) : M unit :=
  modify (fun s => {| world := world s; trace := trace s; fr := f (fr s) |}).

Definition set_status (b : bool) : M unit :=
  set_frame (fun f => {| status := b; msg := msg f; original_mode := original_mode f |}).

Definition set_msg (m : string) : M unit :=
  set_frame (fun f => {| status := status f; msg := m; original_mode := original_mode f |}).

Definition set_original_mode (m : Z) : M unit :=
  set_frame (fun f => {| status := status f; msg := msg f; original_mode := Some m |}).

Definition get_frame : M frame := do s <- get_state; ret (fr s).

(** [msg = msg + text; logger.error(msg); raise ValueError(msg)] *)
Definition fail_with (text : string) : M unit :=
  do f <- get_frame;
  run set_msg (msg f +:+ text);
  raise (msg f +:+ text).

(** The patterns handed to [shutil.ignore_patterns] when [ignores] is
    truthy, else [None]. *)
Definition ignore_func (ignores : option (list string)) : option (list string) :=
  match ignores with
  | Some l => if truthy_list l then Some l else None
  | None => None
  end.

(** [copy_func(source, destination); status = True] *)
Definition copy_file (metadata : bool) (source destination : string) : M unit :=
  run effect (CopyFile metadata source destination)
             (os_copy os metadata source destination);
  set_status true.

(** [shutil.copytree(source, destination, ignore=ignore_func); status = True] *)
Definition copy_tree (source destination : string)
    (ignores : option (list string)) : M unit :=
  run effect (Copytree source destination (ignore_func ignores))
             (os_copytree os source destination (ignore_func ignores));
  set_status true.

(** The branch of an existing destination. *)
Definition copy_existing (source destination : string)
    (ignores : option (list string)) (overwrite metadata : bool) : M unit :=
  run (if negb overwrite
       then fail_with "Destination already exists. Overwrite is set to False."
       else ret tt);
  do writable <- query (os_access_w os destination);
  run (if negb writable then
         do st_mode <- query (os_st_mode os destination);
         run set_original_mode (S_IMODE st_mode);
         effect (Chmod destination (Z.lor (S_IMODE st_mode) S_IWRITE))
                (os_chmod os destination (Z.lor (S_IMODE st_mode) S_IWRITE))
       else ret tt);
  do src_is_file <- query (os_is_file os source);
  run (if src_is_file then copy_file metadata source destination
       else
         run effect (Rmtree destination) (os_rmtree os destination);
         copy_tree source destination ignores);
  do f <- get_frame;
  if str_in "originalMode" (locals f) then
    match original_mode f with
    | Some m => effect (Chmod destination m) (os_chmod os destination m)
    | None => raise "UnboundLocalError: original_mode"
    end
  else ret tt.

(** The branch of a destination that does not exist. *)
Definition copy_fresh (source destination : string)
    (ignores : option (list string)) (metadata : bool) : M unit :=
  do src_is_file <- query (os_is_file os source);
  if src_is_file then
    run (if truthy_str (os_suffix os destination)
         then effect (Mkdir (os_parent os destination))
                     (os_mkdir os (os_parent os destination))
         else effect (Mkdir destination) (os_mkdir os destination));
    copy_file metadata source destination
  else
    do dst_is_file <- query (os_is_file os destination);
    if dst_is_file then
      fail_with "Source is a directory and destination is a file. Please check."
    else copy_tree source destination ignores.

(** The body of the [try] block of [copy]. *)
Definition copy_body (source destination : string)
    (ignores : option (list string)) (overwrite metadata : bool) : M unit :=
  do source <- query (os_unc os source);
  do destination <- query (os_unc os destination);
  do src_exists <- query (os_exists os source);
  run (if negb src_exists then fail_with "Source path does not exist." else ret tt);
  do dst_exists <- query (os_exists os destination);
  if dst_exists
  then copy_existing source destination ignores overwrite metadata
  else copy_fresh source destination ignores metadata.

(** The function [copy] before decoration: a fresh frame, the [try]
    block, the handler [msg = str(e)], and [return status, msg]. *)
Definition copy_undecorated (source destination : string)
    (ignores : option (list string)) (overwrite metadata : bool)
    : M (bool * string) :=
  run set_frame (fun _ => fresh_frame);
  run try_catch (copy_body source destination ignores overwrite metadata)
                (fun e => set_msg e);
  do f <- get_frame;
  ret (status f, msg f).

(** The decorator [impersonate]: [wrapper_func] sets [login] and
    [password] to the empty string, so the impersonated branch is never
    taken. In that branch [result] stays [None] when the logon, the
    impersonation or the function raises, and the [finally] block reverts
    when [handle] was set. *)
Definition impersonate {A} (func : M A) : M (option A) :=
  let login := "" in
  let password := "" in
  if truthy_str login && truthy_str password then
    do handle_result <-
      try_catch
        (run effect (Logon login password) (os_logon os login password);
         try_catch
           (run effect Impersonate (os_impersonate os);
            do r <- func;
            ret (true, Some r))
           (fun _ => ret (true, None)))
        (fun _ => ret (false, None));
    let '(handle, result) := handle_result in
    run (if handle : bool
         then try_catch (effect Revert (os_revert os)) (fun _ => ret tt)
         else ret tt);
    ret result
  else
    do r <- func; ret (Some r).

(** [sg_file_operations.copy], as its callers see it. *)
Definition copy (source destination : string)
    (ignores : option (list string)) (overwrite metadata : bool)
    : M (option (bool * string)) :=
  impersonate (copy_undecorated source destination ignores overwrite metadata).

(** Whether a logged call is the copy of the file or of the tree. *)
Definition is_copy_call (c : os_call) : bool :=
  match c with
  | CopyFile _ _ _ | Copytree _ _ _ => true
  | _ => false
  end.

End Copy.

(** *** A small file system for concrete runs

    Paths are keys of a flat map; a node is a regular file with its
    permission bits and content, or a directory with its permission bits.
    The calls behave as on the platform of the program: a file without the
    owner-write bit cannot be overwritten, [shutil.copy2] and [shutil.copy]
    carry the permission bits of the source over to the destination,
    [shutil.rmtree] refuses a regular file, [shutil.copytree] refuses an
    existing destination. *)

Inductive node :=
| File (mode : Z) (content : string)
| Dir (mode : Z).

Definition node_mode (n : node) : Z :=
  match n with File m _ => m | Dir m => m end.

Definition node_chmod (n : node) (m : Z) : node :=
  match n with File _ c => File m c | Dir _ => Dir m end.

(** stat.S_IFREG and stat.S_IFDIR, the file-type bits of [st_mode]. *)
Definition S_IFREG : Z := 32768.
Definition S_IFDIR : Z := 16384.

Definition node_st_mode (n : node) : Z :=
  match n with
  | File m _ => Z.lor S_IFREG m
  | Dir m => Z.lor S_IFDIR m
  end.

Definition node_writable (n : node) : bool := Z.testbit (node_mode n) 7.

(** Split at the last occurrence of a character. *)
Fixpoint rsplit (c : Ascii.ascii) (s : string) : option (string * string) :=
  match s with
  | EmptyString => None
  | String a rest =>
      match rsplit c rest with
      | Some (p, q) => Some (String a p, q)
      | None => if Ascii.eqb a c then Some (EmptyString, rest) else None
      end
  end.

Definition path_name (p : string) : string :=
  match rsplit "/" p with Some (_, n) => n | None => p end.

Definition path_parent (p : string) : string :=
  match rsplit "/" p with Some (d, _) => d | None => "." end.

Definition path_suffix (p : string) : string :=
  match rsplit "." (path_name p) with
  | Some (stem, ext) =>
      if truthy_str stem && truthy_str ext then "." +:+ ext else ""
  | None => ""
  end.

(** [Some rest] when [p] is [dir/rest]. *)
Fixpoint strip_prefix (pre s : string) : option string :=
  match pre, s with
  | EmptyString, _ => Some s
  | String a pre', String b s' =>
      if Ascii.eqb a b then strip_prefix pre' s' else None
  | String _ _, EmptyString => None
  end.

Definition under (dir p : string) : option string :=
  strip_prefix (dir +:+ "/") p.

Definition fs_rmtree (p : string) (w : gmap string node) : gmap string node :=
  filter (fun kv => kv.1 <> p /\ under p kv.1 = None) w.

Definition fs_copytree (src dst : string) (ignore : option (list string))
    (w : gmap string node) : gmap string node :=
  let skip name := match ignore with Some l => str_in name l | None => false end in
  let moved :=
    omap (fun kv : string * node =>
            match under src kv.1 with
            | Some rest =>
                if skip (path_name rest) then None
                else Some (dst +:+ "/" +:+ rest, kv.2)
            | None => None
            end) (map_to_list w) in
  list_to_map moved ∪ w.

Definition mini_os : OS (gmap string node) := {|
  os_unc := fun p _ => inr p;
  os_exists := fun p w => inr (bool_decide (is_Some (w !! p)));
  os_is_file := fun p w =>
    inr (match w !! p with Some (File _ _) => true | _ => false end);
  os_access_w := fun p w =>
    inr (match w !! p with Some n => node_writable n | None => false end);
  os_st_mode := fun p w =>
    match w !! p with
    | Some n => inr (node_st_mode n)
    | None => inl "FileNotFoundError"
    end;
  os_suffix := path_suffix;
  os_parent := path_parent;
  os_chmod := fun p m w =>
    match w !! p with
    | Some n => (<[p := node_chmod n m]> w, None)
    | None => (w, Some "FileNotFoundError")
    end;
  os_copy := fun _ src dst w =>
    match w !! src with
    | Some (File m c) =>
        match w !! dst with
        | Some (Dir _) => (<[dst +:+ "/" +:+ path_name src := File m c]> w, None)
        | Some (File dm _) =>
            if Z.testbit dm 7 then (<[dst := File m c]> w, None)
            else (w, Some "PermissionError")
        | None => (<[dst := File m c]> w, None)
        end
    | Some (Dir _) => (w, Some "IsADirectoryError")
    | None => (w, Some "FileNotFoundError")
    end;
  os_rmtree := fun p w =>
    match w !! p with
    | Some (Dir _) => (fs_rmtree p w, None)
    | Some (File _ _) => (w, Some "NotADirectoryError")
    | None => (w, Some "FileNotFoundError")
    end;
  os_copytree := fun src dst ignore w =>
    match w !! src, w !! dst with
    | Some (Dir m), None => (<[dst := Dir m]> (fs_copytree src dst ignore w), None)
    | Some (Dir _), Some _ => (w, Some "FileExistsError")
    | Some (File _ _), _ => (w, Some "NotADirectoryError")
    | None, _ => (w, Some "FileNotFoundError")
    end;
  os_mkdir := fun p w =>
    match w !! p with
    | Some (File _ _) => (w, Some "FileExistsError")
    | Some (Dir _) => (w, None)
    | None => (<[p := Dir 511]> w, None)
    end;
  os_logon := fun _ _ w => (w, None);
  os_impersonate := fun w => (w, None);
  os_revert := fun w => (w, None);
|}.

Definition start {W} (w : W) : cstate W :=
  {| world := w; trace := []; fr := fresh_frame |}.

(** The state in which the [try] block of a call starts. *)
Definition entered {W} (s : cstate W) : cstate W :=
  {| world := world s; trace := trace s; fr := fresh_frame |}.

(** A state in which the copy of the file or of the tree has completed:
    [status] is [True] and the last call logged is that copy, returned
    without error. *)
Definition completed {W} (s : cstate W) : Prop :=
  status (fr s) = true /\
  exists c, last (trace s) = Some (Ev c None) /\ is_copy_call c = true.

(** The state in which [copy] returns after the handler ran for [e]. *)
Definition handled {W} (s : cstate W) (e : exn) : cstate W :=
  {| world := world s; trace := trace s;
     fr := {| status := status (fr s); msg := e;
              original_mode := original_mode (fr s) |} |}.

End FileOps.

(** ** Records of the tracking service, shared by publish.py and review.py *)

Module Shotgrid.

(** An entity link as the store returns it: [{"type", "id", "name"}]. *)
Record entity_ref := {
  ref_type : string;
  ref_id : Z;
  ref_name : string;
}.

(** A Task record. [task_team_lead] and [task_supervisor] are the ids of
    the linked users, [None] when the field is empty. *)
Record task := {
  task_id : Z;
  task_project : string;
  task_link : entity_ref;
  task_step : string;
  task_status : string;
  task_name : string;
  task_split_type : option string;
  task_team_lead : option Z;
  task_supervisor : option Z;
  task_client_version : option Z;
}.

(** A Shot or Asset record. *)
Record entity := {
  ent_type : string;
  ent_id : Z;
  ent_code : string;
  ent_project : string;
  ent_asset_type : string;
}.

(** A TechFixData record (CustomEntity04). *)
Record techfix := {
  tf_id : Z;
  tf_task : option Z;
  tf_from : option entity_ref;
  tf_project : Z;
  tf_status : string;
}.

(** A Version record. *)
Record version := {
  ver_id : Z;
  ver_name : string;
  ver_status : string;
  ver_task : Z;
}.

(** A field holding a string-encoded literal, as [ast.literal_eval] sees
    it: empty or [None], not a literal, or the value it denotes. *)
Inductive literal (A : Type) :=
| LitNone
| LitBad
| Lit (a : A).
Arguments LitNone {A}.
Arguments LitBad {A}.
Arguments Lit {A}.

(** One slot of a file configuration:
    [{"filter", "mandatory", "workarea", tag: template, ...}]. *)
Record slot := {
  slot_workarea : string;
  slot_filter : string;
  slot_mandatory : bool;
  slot_tags : gmap string string;
}.

(** A TransitionConfig record (CustomEntity24). [cfg_templates] holds the
    path-template fields, keyed as the file configuration names them. *)
Record transition_config := {
  cfg_entity_type : string;
  cfg_path_sheet_name : string;
  cfg_task_name : string;
  cfg_status_config : literal (gmap string (gmap string string));
  cfg_file_config : literal (gmap string (list (string * slot)));
  cfg_qc_process : bool;
  cfg_templates : gmap string string;
}.

(** The data of a PublishedFile create request. *)
Record published_file := {
  pf_project : Z;
  pf_name : string;
  pf_code : string;
  pf_status : string;
  pf_version_number : Z;
  pf_type : option string;
  pf_entity : string * Z;
  pf_task : Z;
  pf_version : option Z;
  pf_path : string;
}.

(** A request of a batch. The data of every update of this program is the
    one field [{status: value}], and [value] is [None] where Python has
    [None]. *)
Inductive batch_op :=
| Update (entity_type : string) (entity_id : Z) (new_status : option string)
| Create (data : published_file).

(** One row of the report: [{"Shot/Asset" | "Version", "Task", "Success",
    "Reason"}]. *)
Record row := {
  row_label : string;
  row_task : string;
  row_success : string;
  row_reason : string;
}.

Definition with_reason (r : row) (reason : string) : row :=
  {| row_label := row_label r; row_task := row_task r;
     row_success := row_success r; row_reason := reason |}.

Definition fatal_row (traceback : string) : row :=
  {| row_label := ""; row_task := ""; row_success := "NO";
     row_reason := traceback |}.

(** The configuration of the action, [config_data[sa_obj.action]]. *)
Record action_config := {
  valid_roles : list string;
  client_qc_steps : list string;
  publish_tags : list string;
  ignores : list string;
  valid_lead_status : list string;
  valid_lead_ver_status : list string;
  valid_sup_status : list string;
  valid_sup_ver_status : list string;
}.

(** The records of the store that the program queries. *)
Record store := {
  st_entities : list entity;
  st_tasks : list task;
  st_techfix : list techfix;
}.

(** Modelled from the spec: [sg_global_utils.get_entity_data] is not among
    the sources; the Record Store contract says
    [find(entityType, filters, ...)] returns the records that satisfy a
    conjunctive list of (field, operator, value) triples. A triple is a test
    on a record; a query keeps the records that pass every test, in the
    order of the store. *)
Definition get_entity_data {A} (table : list A) (filters : list (A -> bool)) : list A :=
  List.filter (fun r => forallb (fun f => f r) filters) table.

(** The value of a literal field under [ast.literal_eval(field) if field
    else None], where that does not raise. *)
Definition lit_value {A} (field : literal A) : option A :=
  match field with Lit a => Some a | _ => None end.

(** The triples the program uses. An entity link matches by type and id. *)
Definition same_ref (a b : entity_ref) : bool :=
  bool_decide (ref_type a = ref_type b) && bool_decide (ref_id a = ref_id b).

Definition code_is (name : string) (e : entity) : bool :=
  bool_decide (ent_code e = name).
Definition type_is (ty : string) (e : entity) : bool :=
  bool_decide (ent_type e = ty).
Definition project_name_is (name : string) (e : entity) : bool :=
  bool_decide (ent_project e = name).

Definition id_is (id : Z) (t : task) : bool := bool_decide (task_id t = id).
Definition task_project_name_is (name : string) (t : task) : bool :=
  bool_decide (task_project t = name).
Definition step_name_is (name : string) (t : task) : bool :=
  bool_decide (task_step t = name).
Definition link_is (r : entity_ref) (t : task) : bool := same_ref (task_link t) r.

Definition tf_task_is (id : Z) (r : techfix) : bool :=
  bool_decide (tf_task r = Some id).
Definition tf_task_is_not (id : Z) (r : techfix) : bool :=
  negb (bool_decide (tf_task r = Some id)).
Definition tf_from_is (from : entity_ref) (r : techfix) : bool :=
  match tf_from r with Some f => same_ref f from | None => false end.
Definition tf_project_is (id : Z) (r : techfix) : bool :=
  bool_decide (tf_project r = id).
Definition tf_status_not_in (l : list string) (r : techfix) : bool :=
  negb (str_in (tf_status r) l).

(** [s.endswith(suffix)] *)
Fixpoint ends_with (suffix s : string) : bool :=
  String.eqb suffix s ||
  match s with
  | EmptyString => false
  | String _ rest => ends_with suffix rest
  end.

(** [s.split(sep, maxsplit=1)[0]] for a separator of one character. *)
Fixpoint split_first (sep : Ascii.ascii) (s : string) : string :=
  match s with
  | EmptyString => EmptyString
  | String a rest =>
      if Ascii.eqb a sep then EmptyString else String a (split_first sep rest)
  end.

(** The task-name key of the configuration lookup, and the techfix marker. *)
Definition is_techfix_name (task_name : string) : bool :=
  ends_with "_TechFix" task_name.

Definition config_task_name (t : task) : string :=
  let name := task_name t in
  let key := if is_techfix_name name then split_first "_" name else name in
  if bool_decide (task_split_type t = Some "SPLIT")
  then split_first "_" name else key.

(** The list comprehension that selects the configuration records of a
    task. *)
Definition matching_configs (configs : list transition_config) (t : task)
    : list transition_config :=
  List.filter (fun i =>
    bool_decide (cfg_entity_type i = ref_type (task_link t)) &&
    bool_decide (cfg_path_sheet_name i = task_step t) &&
    bool_decide (cfg_task_name i = config_task_name t)) configs.

(** Python truthiness of a dict that may be [None]. *)
Definition truthy_dict {V} (d : option (gmap string V)) : bool :=
  match d with
  | Some m => negb (bool_decide (m = ∅))
  | None => false
  end.

(** [d[key]] for a dict that may be [None]. *)
Definition subscript {S V} (d : option (gmap string V)) (key : string) : SE S V :=
  match d with
  | None => raise "TypeError: 'NoneType' object is not subscriptable"
  | Some m =>
      match m !! key with
      | Some v => ret v
      | None => raise ("KeyError: " +:+ key)
      end
  end.

(** A pure call that may raise. *)
Definition lift {S A} (r : exn + A) : SE S A :=
  match r with inl e => raise e | inr a => ret a end.

End Shotgrid.

(** ** publish.py *)

Module Publish.
Import Shotgrid.
Import FileOps.

(** Word characters of the pattern [\w], for ASCII text. *)
Definition is_word_char (a : Ascii.ascii) : bool :=
  let n := Ascii.nat_of_ascii a in
  ((48 <=? n) && (n <=? 57) || (65 <=? n) && (n <=? 90) ||
   (97 <=? n) && (n <=? 122) || (n =? 95))%nat.

Fixpoint take_word (s : string) : string :=
  match s with
  | String a rest => if is_word_char a then String a (take_word rest) else EmptyString
  | EmptyString => EmptyString
  end.

(** [re.search(r"\*\.(\w+)", filter)], then [group(1)] or the empty string. *)
Fixpoint search_extension (s : string) : string :=
  match s with
  | EmptyString => EmptyString
  | String a rest =>
      match a, rest with
      | "*"%char, String "."%char after =>
          if truthy_str (take_word after) then take_word after
          else search_extension rest
      | _, _ => search_extension rest
      end
  end.

(** [s.replace(old, "")]: the occurrences of [old] are removed from left
    to right; [skip] counts the characters of an occurrence still to drop. *)
Fixpoint remove_from (skip : nat) (old s : string) : string :=
  match s with
  | EmptyString => EmptyString
  | String a rest =>
      match skip with
      | S k => remove_from k old rest
      | O =>
          if truthy_str old && String.prefix old s
          then remove_from (String.length old - 1) old rest
          else String a (remove_from O old rest)
      end
  end.

Definition remove_all (old s : string) : string := remove_from O old s.

(** [s.zfill(width)] for the decimal text of a number. *)
Definition zfill (width : nat) (s : string) : string :=
  let pad body n := String.concat "" (replicate (n - String.length body) "0") +:+ body in
  match s with
  | String "-"%char body => String "-"%char (pad body (width - 1)%nat)
  | String "+"%char body => String "+"%char (pad body (width - 1)%nat)
  | _ => pad s width
  end.

(** What the run reads besides the file system: the records it was handed,
    the configuration, the store, and the collaborators that are not among
    the sources. *)
Record context := {
  action : string;
  project_name : string;
  project_id : Z;
  config_data : action_config;
  selected_tasks_data : list task;
  publish_types : list string;
  task_config_data : list transition_config;
  sg : store;
  (* sg_global_utils.validate_role_assignments(sg, sa, logger, task, roles) *)
  validate_role_assignments : task -> list string -> exn + (bool * string);
  (* sg_global_utils.build_template_path(sg, sa, logger, template, ext,
     task, entity, True) *)
  build_template_path : string -> string -> task -> entity -> exn + string;
  (* sg_obj.find("Version", [entity is, task is, status in ["qcap"]],
     ["code"], order by created_at): the ids of the versions found *)
  find_versions : string * Z -> Z -> exn + list Z;
  (* os.path.basename *)
  basename : string -> string;
  (* whether sg_obj.batch(operations) raises *)
  batch_reply : list batch_op -> option exn;
}.

(** The state of a run: the file system with the log of [copy], the three
    lists that [publish] creates before its loop, and the calls of the
    batch endpoint. *)
Record pstate (W : Type) := {
  fs : cstate W;
  report_list : list row;
  batch_data : list batch_op;
  publish_batch_data : list batch_op;
  batch_calls : list (list batch_op);
}.
Arguments fs {W}.
Arguments report_list {W}.
Arguments batch_data {W}.
Arguments publish_batch_data {W}.
Arguments batch_calls {W}.

Section Run.
Context {W : Type} (os : OS W) (ctx : context).

Abbreviation M := (SE (pstate W)).

(** A computation on the file system, run inside the publish state. *)
Definition on_fs {A} (m : SE (cstate W) A) : M A :=
  fun s =>
    let '(c, r) := m (fs s) in
    ({| fs := c; report_list := report_list s; batch_data := batch_data s;
        publish_batch_data := publish_batch_data s;
        batch_calls := batch_calls s |}, r).

(** [report_list.append(row)] *)
Definition append_report (r : row) : M unit :=
  modify (fun s =>
    {| fs := fs s; report_list := report_list s ++ [r];
       batch_data := batch_data s;
       publish_batch_data := publish_batch_data s;
       batch_calls := batch_calls s |}).

(** [batch_data.append(op)] and [batch_data.extend(ops)] *)
Definition extend_batch (ops : list batch_op) : M unit :=
  modify (fun s =>
    {| fs := fs s; report_list := report_list s;
       batch_data := batch_data s ++ ops;
       publish_batch_data := publish_batch_data s;
       batch_calls := batch_calls s |}).

(** [publish_batch_data.append(op)] *)
Definition append_publish (op : batch_op) : M unit :=
  modify (fun s =>
    {| fs := fs s; report_list := report_list s;
       batch_data := batch_data s;
       publish_batch_data := publish_batch_data s ++ [op];
       batch_calls := batch_calls s |}).

(** [self.sg_obj.batch(ops)] *)
Definition sg_batch (ops : list batch_op) : M unit :=
  fun s =>
    ({| fs := fs s; report_list := report_list s;
        batch_data := batch_data s;
        publish_batch_data := publish_batch_data s;
        batch_calls := batch_calls s ++ [ops] |},
     match batch_reply ctx ops with Some e => inl e | None => inr tt end).

(** [os.path.exists] and [os.path.isfile] answer [False] where the
    underlying call fails. *)
Definition path_exists (p : string) : M bool :=
  on_fs (fun c => (c, inr (match os_exists os p (world c) with
                           | inr b => b | inl _ => false end))).

Definition path_isfile (p : string) : M bool :=
  on_fs (fun c => (c, inr (match os_is_file os p (world c) with
                           | inr b => b | inl _ => false end))).

(** [get_published_file_data]: the data of the PublishedFile to create, or
    the empty dict ([None]) when anything in its [try] block raises. *)
Definition get_published_file_data (task_data : task) (file_type path : string)
    : M (option published_file) :=
  let client_pass :=
    match task_client_version task_data with
    | Some v => if bool_decide (v = 0) then 0 else v
    | None => 0
    end in
  let link := task_link task_data in
  let publish_code :=
    ref_name link +:+ "_" +:+ task_step task_data +:+ "_v"
      +:+ zfill 3 (pretty client_pass) in
  let publish_file_type :=
    List.filter (fun code => str_in code [file_type]) (publish_types ctx) in
  match find_versions ctx (ref_type link, ref_id link) (task_id task_data) with
  | inl _ => ret None
  | inr versions =>
      do isfile <- path_isfile path;
      let code := if isfile then basename ctx path else publish_code in
      ret (Some {|
        pf_project := project_id ctx;
        pf_name := publish_code;
        pf_code := code;
        pf_status := "cmpt";
        pf_version_number := client_pass;
        pf_type := last publish_file_type;
        pf_entity := (ref_type link, ref_id link);
        pf_task := task_id task_data;
        pf_version := last versions;
        pf_path := path;
      |})
  end.

(** The path-shape exception for props assets of the Texture step on the
    server tag. *)
Definition adjust_destination (entity_data : entity) (each_tag pipeline_step : string)
    (destination : string) : string :=
  if str_in (ent_type entity_data) ["Asset"]
     && str_in (ent_asset_type entity_data) ["props"]
     && str_in each_tag ["server"]
     && str_in pipeline_step ["Texture"]
  then
    remove_all "/texture" (remove_all "\texture"
      (remove_all "/workarea" (remove_all "\workarea" destination)))
  else destination.

(** [task_config[FIELDS["CustomEntity24"][key]]] *)
Definition template_of (task_config : transition_config) (key : string) : M string :=
  match cfg_templates task_config !! key with
  | Some t => ret t
  | None => raise ("KeyError: " +:+ key)
  end.

(** The body of the loop over [publishTags] for one slot; [acc] is the
    pair of [overall_status] and [overall_msg]. *)
Definition copy_tag (t : task) (entity_data : entity)
    (task_config : transition_config) (each : string) (sl : slot)
    (extension source : string) (acc : bool * string) (each_tag : string)
    : M (bool * string) :=
  let '(overall_status, overall_msg) := acc in
  do tag_template <-
    match slot_tags sl !! each_tag with
    | Some v => ret v
    | None => raise ("KeyError: " +:+ each_tag)
    end;
  if negb (truthy_str tag_template) then ret acc else
  do template <- template_of task_config tag_template;
  do destination <- lift (build_template_path ctx template extension t entity_data);
  let destination := adjust_destination entity_data each_tag (task_step t) destination in
  let ignore := if bool_decide (each = "Unreal Folder")
                then ignores (config_data ctx) else [] in
  do result <- on_fs (copy os source destination (Some ignore) true true);
  do status_msg <-
    match result with
    | Some r => ret r
    | None => raise "TypeError: cannot unpack non-iterable NoneType object"
    end;
  let '(copy_status, msg) := status_msg in
  let overall_status := overall_status && copy_status in
  if copy_status then
    do publish_data <- get_published_file_data t each destination;
    match publish_data with
    | Some data =>
        run append_publish (Create data);
        ret (overall_status, overall_msg)
    | None =>
        ret (overall_status && false,
             overall_msg +:+ "Error During creating PublishFile Record in ShotGrid; ")
    end
  else ret (overall_status, msg +:+ overall_msg).

(** The body of the loop over the slots of the file configuration. *)
Definition copy_slot (t : task) (entity_data : entity)
    (task_config : transition_config) (acc : bool * string)
    (item : string * slot) : M (bool * string) :=
  let '(each, sl) := item in
  if negb (truthy_str (slot_workarea sl)) then ret acc else
  let extension := search_extension (slot_filter sl) in
  do template <- template_of task_config (slot_workarea sl);
  do source <- lift (build_template_path ctx template extension t entity_data);
  do source_exists <- path_exists source;
  if negb source_exists && negb (slot_mandatory sl) then ret acc else
  for_fold (publish_tags (config_data ctx)) acc
    (copy_tag t entity_data task_config each sl extension source).

(** The techfix part of the cascade. It answers [false] where the source
    has [continue], after the report row is appended. *)
Definition techfix_cascade (t : task) (update_data : string) (report_dict : row)
    : M bool :=
  let tech_data_entry :=
    get_entity_data (st_techfix (sg ctx))
      [tf_task_is (task_id t); tf_project_is (project_id ctx)] in
  match last tech_data_entry with
  | None =>
      run append_report (with_reason report_dict
            "Selected Task TechFixData Record is not available in SG");
      ret false
  | Some tech_data_entry =>
      run extend_batch
            [Update "CustomEntity04" (tf_id tech_data_entry) (Some update_data)];
      match tf_from tech_data_entry with
      | None =>
          run append_report (with_reason report_dict
                ("Selected Task TechFixData Record is not having"
                 +:+ "Source Task Data to update as TechFix Done,"
                 +:+ "Please check with SG Team"));
          ret false
      | Some tech_from_task =>
          let tech_from_task_data :=
            get_entity_data (st_tasks (sg ctx)) [id_is (ref_id tech_from_task)] in
          do from_task <-
            match last tech_from_task_data with
            | Some ft => ret ft
            | None => raise "IndexError: list index out of range"
            end;
          run (if str_in (task_status from_task) ["tfhl"] then
                 let from_task_wip_techfixes :=
                   get_entity_data (st_techfix (sg ctx))
                     [tf_from_is tech_from_task;
                      tf_task_is_not (task_id t);
                      tf_project_is (project_id ctx);
                      tf_status_not_in ["pub"; "omt"; "reject"]] in
                 if negb (truthy_list from_task_wip_techfixes) then
                   extend_batch [Update "Task" (ref_id tech_from_task) (Some "thdn")]
                 else ret tt
               else ret tt);
          ret true
      end
  end.

(** The records that count as other pending techfixes of an originating
    task when task [t] is published, in the words of the specification:
    same originating task, same project, a status outside the terminal set,
    and not the record of [t] itself. *)
Definition other_pending (t : task) (from : entity_ref) (r : techfix) : bool :=
  match tf_from r with Some f => same_ref f from | None => false end
  && bool_decide (tf_project r = project_id ctx)
  && negb (str_in (tf_status r) ["pub"; "omt"; "reject"])
  && negb (bool_decide (tf_task r = Some (task_id t))).

(** The lookup of the paired client-QC task of an asset. *)
Definition paired_qc_task (t : task) (step : string) : list task :=
  get_entity_data (st_tasks (sg ctx))
    [task_project_name_is (project_name ctx); step_name_is step;
     link_is (task_link t)].

(** The asset part of the cascade; [false] where the source has
    [continue]. *)
Definition asset_cascade (t : task) (entity_data : entity) (next_status : string)
    (report_dict : row) : M bool :=
  if negb (str_in (ent_type entity_data) ["Asset"]) then ret true else
  let pipeline_step := task_step t in
  let paired step missing :=
    match last (paired_qc_task t step) with
    | None => inl missing
    | Some qc_task =>
        inr (if str_in next_status ["pub"] && str_in (task_status qc_task) ["pub"]
             then Some "rfp" else None)
    end in
  let asset_data : string + option string :=
    if str_in pipeline_step ["Rig"] then inr (Some "rfa")
    else if str_in pipeline_step ["LooknFeel"; "Texture"] then inr (Some "rflgt")
    else if str_in pipeline_step ["RigClientQC"]
      then paired "LgtClientQC" "LgtClientQC Task is not available in SG"
    else if str_in pipeline_step ["LgtClientQC"]
      then paired "RigClientQC" "RigClientQC Task is not available in SG"
    else inr None in
  match asset_data with
  | inl missing =>
      run append_report (with_reason report_dict missing);
      ret false
  | inr (Some status) =>
      run extend_batch
            [Update (ent_type entity_data) (ent_id entity_data) (Some status)];
      ret true
  | inr None => ret true
  end.

(** From [if overall_status:] to the end of the loop body. *)
Definition commit_item (t : task) (entity_data : entity) (is_techfix : bool)
    (next_status : string) (report_dict : row)
    (overall_status : bool) (overall_msg : string) : M unit :=
  if overall_status then
    do go_on <- (if is_techfix then techfix_cascade t next_status report_dict
                 else ret true);
    if negb go_on then ret tt else
    do go_on <- asset_cascade t entity_data next_status report_dict;
    if negb go_on then ret tt else
    run extend_batch [Update "Task" (task_id t) (Some next_status)];
    do s <- get_state;
    run extend_batch (publish_batch_data s);
    append_report
      {| row_label := row_label report_dict; row_task := row_task report_dict;
         row_success := "YES"; row_reason := "Task is Successfully Published" |}
  else
    append_report (with_reason report_dict overall_msg).

(** [ast.literal_eval(field) if field else None] *)
Definition literal_eval_if {A} (field : literal A) : M (option A) :=
  match field with
  | LitNone => ret None
  | LitBad => raise "ValueError: malformed node or string"
  | Lit a => ret (Some a)
  end.

(** [status_config.update({"tlapr": "pub", "movapr": "pub"})] for a
    techfix task or a configuration without QC process. *)
Definition override_status_config (is_techfix qc_process : bool)
    (status_config : gmap string string) : gmap string string :=
  if is_techfix || negb qc_process
  then <["movapr" := "pub"]> (<["tlapr" := "pub"]> status_config)
  else status_config.

(** [d.get(key)] for a dict that is known to be truthy when it is read. *)
Definition dict_get {V} (d : option (gmap string V)) (key : string) : option V :=
  match d with Some m => m !! key | None => None end.

(** The file configuration of the next status, with its fallbacks; [None]
    where Python has [None]. *)
Definition file_configs_for (pipeline_step next_status : string)
    (task_file_configs : option (gmap string (list (string * slot))))
    : option (list (string * slot)) :=
  let file_configs :=
    if truthy_dict task_file_configs
    then dict_get task_file_configs next_status
    else Some [] in
  if truthy_dict task_file_configs
     && negb (match file_configs with Some l => truthy_list l | None => false end)
  then
    if str_in pipeline_step ["Lighting"]
    then dict_get task_file_configs "movcpt"
    else Some (default [] (dict_get task_file_configs "cmpt"))
  else file_configs.

(** From the choice of the file configuration to the end of the loop
    body. *)
Definition publish_files (t : task) (entity_data : entity)
    (task_config : transition_config) (is_techfix : bool) (next_status : string)
    (task_file_configs : option (gmap string (list (string * slot))))
    (report_dict : row) : M unit :=
  do file_configs <-
    match file_configs_for (task_step t) next_status task_file_configs with
    | Some slots => ret slots
    | None => raise "TypeError: 'NoneType' object is not iterable"
    end;
  do overall <- for_fold file_configs (true, "") (copy_slot t entity_data task_config);
  let '(overall_status, overall_msg) := overall in
  commit_item t entity_data is_techfix next_status report_dict
    overall_status overall_msg.

(** From the validation of the role assignments to the end of the loop
    body. [status_config] is the map of the action after the override. *)
Definition publish_checked (t : task) (entity_data : entity)
    (task_config : transition_config) (is_techfix : bool)
    (status_config : gmap string string)
    (task_file_configs : option (gmap string (list (string * slot))))
    (report_dict : row) : M unit :=
  do valid <- lift (validate_role_assignments ctx t (valid_roles (config_data ctx)));
  let '(valid_role_assignments, valid_role_assignment_msg) := valid in
  if negb valid_role_assignments
  then append_report (with_reason report_dict valid_role_assignment_msg) else
  do next_status <- subscript (Some status_config) (task_status t);
  publish_files t entity_data task_config is_techfix next_status
    task_file_configs report_dict.

(** From the parsing of the configuration record to the end of the loop
    body. *)
Definition publish_configured (t : task) (entity_data : entity)
    (task_config : transition_config) (report_dict : row) : M unit :=
  let pipeline_step := task_step t in
  let current_status := task_status t in
  let is_techfix := is_techfix_name (task_name t) in
  do status_config <- literal_eval_if (cfg_status_config task_config);
  do task_file_configs <- literal_eval_if (cfg_file_config task_config);
  let qc_process := cfg_qc_process task_config in
  if negb (str_in pipeline_step (client_qc_steps (config_data ctx)))
     && (negb (truthy_dict status_config) || negb (truthy_dict task_file_configs))
  then append_report (with_reason report_dict
         "Shotgrid Config is Empty for this Task, Please check with SG Team")
  else
  do status_config <- subscript status_config (action ctx);
  let status_config := override_status_config is_techfix qc_process status_config in
  if negb (str_in pipeline_step (client_qc_steps (config_data ctx)))
     && negb (bool_decide (is_Some (status_config !! current_status)))
  then append_report (with_reason report_dict
         "Selected Task current status is not valid for this Action in SG")
  else
  publish_checked t entity_data task_config is_techfix status_config
    task_file_configs report_dict.

(** An item is past the parsing of its configuration record: the status
    configuration is a dict [sc] whose entry for the action is [m], the
    file configuration is not malformed, and the test of an empty
    configuration does not fire. *)
Definition reaches_status_check (t : task) (task_config : transition_config)
    (sc : gmap string (gmap string string)) (m : gmap string string) : Prop :=
  cfg_status_config task_config = Lit sc
  /\ cfg_file_config task_config <> LitBad
  /\ sc !! action ctx = Some m
  /\ negb (str_in (task_step t) (client_qc_steps (config_data ctx)))
     && (negb (truthy_dict (Some sc))
         || negb (truthy_dict (lit_value (cfg_file_config task_config)))) = false.

(** The row of a task as the loop body first fills it. *)
Definition initial_row (t : task) : row :=
  {| row_label := ref_name (task_link t); row_task := task_step t;
     row_success := "NO"; row_reason := "" |}.

(** The lookup of the Shot or Asset of a task. *)
Definition find_entity (t : task) : list entity :=
  let task_entity := task_link t in
  get_entity_data (st_entities (sg ctx))
    [type_is (ref_type task_entity); code_is (ref_name task_entity);
     project_name_is (project_name ctx)].

(** The body of the loop over the selected tasks. *)
Definition publish_item (t : task) : M unit :=
  let report_dict := initial_row t in
  match last (find_entity t) with
  | None =>
      append_report (with_reason report_dict
        "Selected Shot/Asset data is not found in SG")
  | Some entity_data =>
      match last (matching_configs (task_config_data ctx) t) with
      | None =>
          append_report (with_reason report_dict
            "Valid config is not available in SG, please reach out to SG team!")
      | Some task_config =>
          publish_configured t entity_data task_config report_dict
      end
  end.

(** [report_list = []; batch_data = []; publish_batch_data = []] *)
Definition init_lists : M unit :=
  modify (fun s =>
    {| fs := fs s; report_list := []; batch_data := [];
       publish_batch_data := []; batch_calls := batch_calls s |}).

(** The handler of the [try] block of [publish]. *)
Definition fatal (e : exn) : M unit :=
  modify (fun s =>
    {| fs := fs s; report_list := [fatal_row e]; batch_data := batch_data s;
       publish_batch_data := publish_batch_data s;
       batch_calls := batch_calls s |}).

(** The loop of [publish] and the flush after it. *)
Definition publish_loop : M unit :=
  for_each (selected_tasks_data ctx) publish_item.

Definition flush : M unit :=
  do s <- get_state;
  if truthy_list (batch_data s) then sg_batch (batch_data s) else ret tt.

(** [Publish.publish] *)
Definition publish : M (list row) :=
  run init_lists;
  run try_catch (run publish_loop; flush) fatal;
  do s <- get_state;
  ret (report_list s).

End Run.

Definition start {W} (w : W) : pstate W :=
  {| fs := FileOps.start w; report_list := []; batch_data := [];
     publish_batch_data := []; batch_calls := [] |}.

End Publish.

(** ** review.py *)

Module Review.
Import Shotgrid.

(** The current user: [current_user["id"]] and the name of the permission
    role. *)
Record user := {
  user_id : Z;
  user_role : string;
}.

Record context := {
  action : string;
  project_id : Z;
  config_data : action_config;
  current_user : user;
  task_config_data : list transition_config;
  (* self.versions, in the order of the dict, and self.tasks *)
  versions : list (Z * version);
  tasks : gmap Z task;
  sg : store;
  (* sg_global_utils.validate_role_assignments(sg, sa, logger, task, roles) *)
  validate_role_assignments : task -> list string -> exn + (bool * string);
  (* whether sg_obj.batch(operations) raises *)
  batch_reply : list batch_op -> option exn;
}.

(** The state of a run: the report, the batch under construction, and the
    calls of the batch endpoint. *)
Record rstate := {
  report_list : list row;
  batch_data : list batch_op;
  batch_calls : list (list batch_op);
}.

Inductive verdict :=
| Allowed
| Denied (reason : string).

Section Run.
Context (ctx : context).

Abbreviation M := (SE rstate).

Definition append_report (r : row) : M unit :=
  modify (fun s =>
    {| report_list := report_list s ++ [r]; batch_data := batch_data s;
       batch_calls := batch_calls s |}).

Definition extend_batch (ops : list batch_op) : M unit :=
  modify (fun s =>
    {| report_list := report_list s; batch_data := batch_data s ++ ops;
       batch_calls := batch_calls s |}).

Definition sg_batch (ops : list batch_op) : M unit :=
  fun s =>
    ({| report_list := report_list s; batch_data := batch_data s;
        batch_calls := batch_calls s ++ [ops] |},
     match batch_reply ctx ops with Some e => inl e | None => inr tt end).

(** [task[field]["id"]] for a link that may be [None]. *)
Definition link_id (link : option Z) : exn + Z :=
  match link with
  | Some id => inr id
  | None => inl "TypeError: 'NoneType' object is not subscriptable"
  end.

(** The condition of the lead path; [and] reads the link only when the
    role is in the list. *)
Definition lead_path (u : user) (t : task) : exn + bool :=
  if str_in (user_role u) ["Lead"; "Team Lead"; "Admin"; "Manager"]
  then match link_id (task_team_lead t) with
       | inr id => inr (bool_decide (user_id u = id))
       | inl e => inl e
       end
  else inr false.

(** The condition of the supervisor path. *)
Definition supervisor_path (u : user) (t : task) : exn + bool :=
  if str_in (user_role u) ["Supervisor"; "Admin"; "Team Lead"; "Lead"; "Manager"]
  then match link_id (task_supervisor t) with
       | inr id => inr (bool_decide (user_id u = id))
       | inl e => inl e
       end
  else inr false.

(** The status checks of the lead path. *)
Definition lead_checks (t : task) (ver_status : string) : verdict :=
  if negb (str_in (task_status t) (valid_lead_status (config_data ctx)))
  then Denied "Task status is not valid for the Lead review"
  else if negb (str_in ver_status (valid_lead_ver_status (config_data ctx)))
  then Denied "Version status is not valid for the Lead review"
  else Allowed.

(** The status checks of the supervisor path. *)
Definition supervisor_checks (t : task) (ver_status : string) : verdict :=
  if negb (str_in (task_status t) (valid_sup_status (config_data ctx)))
  then Denied "Task status is not valid for the Supervisor review"
  else if negb (str_in ver_status (valid_sup_ver_status (config_data ctx)))
  then Denied "Version status is not valid for the Supervisor review"
  else Allowed.

Definition not_authorized : string :=
  "User is not valid to review the task, "
  +:+ "Please check the Team Lead or Supervisor field and update accordingly!!".

(** The [if] / [elif] / [else] that authorizes the user for a task. *)
Definition authorize (t : task) (ver_status : string) : exn + verdict :=
  match lead_path (current_user ctx) t with
  | inl e => inl e
  | inr true => inr (lead_checks t ver_status)
  | inr false =>
      match supervisor_path (current_user ctx) t with
      | inl e => inl e
      | inr true => inr (supervisor_checks t ver_status)
      | inr false => inr (Denied not_authorized)
      end
  end.

(** From [data_to_update] to the end of the loop body. *)
Definition review_commit (version_id : Z) (t : task)
    (status_config : gmap string string) (report_dict : row) : M unit :=
  let data_to_update := status_config !! task_status t in
  let is_techfix := is_techfix_name (task_name t) in
  do go_on <-
    (if is_techfix then
       let tech_data_entry :=
         get_entity_data (st_techfix (sg ctx))
           [tf_task_is (task_id t); tf_project_is (project_id ctx)] in
       match last tech_data_entry with
       | None =>
           run append_report (with_reason report_dict
                 "Selected Task TechFixData Record is not available in SG");
           ret false
       | Some tech_data_entry =>
           run extend_batch
                 [Update "CustomEntity04" (tf_id tech_data_entry) data_to_update];
           ret true
       end
     else ret true);
  if negb go_on then ret tt else
  run extend_batch [Update "Task" (task_id t) data_to_update];
  run extend_batch [Update "Version" version_id data_to_update];
  append_report
    {| row_label := row_label report_dict; row_task := row_task report_dict;
       row_success := "YES"; row_reason := row_reason report_dict |}.

(** From the authorization of the user to the end of the loop body. *)
Definition review_authorized (version_id : Z) (ver : version) (t : task)
    (status_config : gmap string string) (report_dict : row) : M unit :=
  do v <- lift (authorize t (ver_status ver));
  match v with
  | Denied reason => append_report (with_reason report_dict reason)
  | Allowed => review_commit version_id t status_config report_dict
  end.

(** From the parsing of the status configuration to the end of the loop
    body. *)
Definition review_configured (version_id : Z) (ver : version) (t : task)
    (task_config : transition_config) (report_dict : row) : M unit :=
  do status_config <-
    match cfg_status_config task_config with
    | Lit a => ret a
    | _ => raise "ValueError: malformed node or string"
    end;
  if negb (truthy_dict (Some status_config))
  then append_report (with_reason report_dict
         "Valid status not updated in SG Status Config, please reach out to SG team!")
  else
  do status_config <- subscript (Some status_config) (action ctx);
  do valid <- lift (validate_role_assignments ctx t (valid_roles (config_data ctx)));
  let '(valid_role_assignments, valid_role_assignment_msg) := valid in
  if negb valid_role_assignments
  then append_report (with_reason report_dict valid_role_assignment_msg)
  else review_authorized version_id ver t status_config report_dict.

(** The row of a version and its task as the loop body first fills it. *)
Definition initial_row (ver : version) (t : task) : row :=
  {| row_label := ver_name ver; row_task := task_step t;
     row_success := "NO"; row_reason := "" |}.

(** The body of the loop over the selected versions. *)
Definition review_item (item : Z * version) : M unit :=
  let '(version_id, ver) := item in
  match tasks ctx !! ver_task ver with
  | None => raise "TypeError: 'NoneType' object is not subscriptable"
  | Some t =>
      let report_dict := initial_row ver t in
      match last (matching_configs (task_config_data ctx) t) with
      | None =>
          append_report (with_reason report_dict
            "Valid config is not available in SG, please reach out to SG team!")
      | Some task_config =>
          review_configured version_id ver t task_config report_dict
      end
  end.

(** A version is past the checks that come before the authorization: its
    task is found, a configuration record matches, the status configuration
    is a non-empty dict whose entry for the action is [m], and the role
    assignments are valid. *)
Definition reaches_authorization (ver : version) (t : task)
    (m : gmap string string) : Prop :=
  tasks ctx !! ver_task ver = Some t
  /\ exists task_config sc msg,
      last (matching_configs (task_config_data ctx) t) = Some task_config
      /\ cfg_status_config task_config = Lit sc
      /\ truthy_dict (Some sc) = true
      /\ sc !! action ctx = Some m
      /\ validate_role_assignments ctx t (valid_roles (config_data ctx))
         = inr (true, msg).

Definition fatal (e : exn) : M unit :=
  modify (fun s =>
    {| report_list := [fatal_row e]; batch_data := batch_data s;
       batch_calls := batch_calls s |}).

Definition review_loop : M unit :=
  for_each (versions ctx) review_item.

Definition flush : M unit :=
  do s <- get_state;
  if truthy_list (batch_data s) then sg_batch (batch_data s) else ret tt.

(** [report_list = []] before the [try] block, [batch_data = []] inside. *)
Definition init_report : M unit :=
  modify (fun s =>
    {| report_list := []; batch_data := batch_data s;
       batch_calls := batch_calls s |}).

Definition init_batch : M unit :=
  modify (fun s =>
    {| report_list := report_list s; batch_data := [];
       batch_calls := batch_calls s |}).

(** [Review.update_version] *)
Definition update_version : M (list row) :=
  run init_report;
  run try_catch (run init_batch; run review_loop; flush) fatal;
  do s <- get_state;
  ret (report_list s).

End Run.

Definition start : rstate :=
  {| report_list := []; batch_data := []; batch_calls := [] |}.

End Review.

(** ** Concrete runs

    A project with shots, one transition configuration of two mandatory
    slots, collaborators that answer without failing. The path template
    service joins the template, the code of the entity and the extension. *)

Module Scenario.
Import Shotgrid.

Definition shot (id : Z) (code : string) : entity :=
  {| ent_type := "Shot"; ent_id := id; ent_code := code;
     ent_project := "Demo"; ent_asset_type := "" |}.

Definition shot_task (id shot_id : Z) (code step status name : string) : task :=
  {| task_id := id; task_project := "Demo";
     task_link := {| ref_type := "Shot"; ref_id := shot_id; ref_name := code |};
     task_step := step; task_status := status; task_name := name;
     task_split_type := None; task_team_lead := Some 7;
     task_supervisor := Some 8; task_client_version := Some 2 |}.

Definition maya_slot : slot :=
  {| slot_workarea := "mayaWork"; slot_filter := "Maya Files(*.ma)";
     slot_mandatory := true; slot_tags := {["server" := "mayaPublish"]} |}.

Definition mov_slot : slot :=
  {| slot_workarea := "movWork"; slot_filter := "Mov Files(*.mov)";
     slot_mandatory := true; slot_tags := {["server" := "movPublish"]} |}.

Definition templates : gmap string string :=
  <["mayaWork" := "/work/maya"]> (<["mayaPublish" := "/pub/maya"]>
  (<["movWork" := "/work/mov"]> {["movPublish" := "/pub/mov"]})).

Definition shot_config (step : string) (status_map : gmap string string)
    : transition_config :=
  {| cfg_entity_type := "Shot"; cfg_path_sheet_name := step;
     cfg_task_name := step;
     cfg_status_config :=
       Lit (<["publish" := status_map]> {["approve" := status_map]});
     cfg_file_config :=
       Lit {["pub" := [("Maya File", maya_slot); ("Mov File", mov_slot)]]};
     cfg_qc_process := true;
     cfg_templates := templates |}.

Definition anim_config : transition_config :=
  shot_config "Animation" {["apr" := "pub"]}.

Definition qc_config : transition_config :=
  shot_config "RigClientQC" {["apr" := "pub"]}.

Definition actions : action_config :=
  {| valid_roles := ["Artist"];
     client_qc_steps := ["RigClientQC"; "LgtClientQC"];
     publish_tags := ["server"];
     ignores := [];
     valid_lead_status := ["rev"];
     valid_lead_ver_status := ["rev"];
     valid_sup_status := ["tlapr"];
     valid_sup_ver_status := ["tlapr"] |}.

Definition the_store (techfixes : list techfix) (more_tasks : list task) : store :=
  {| st_entities := [shot 20 "sh010"; shot 21 "sh020"; shot 22 "sh030"];
     st_tasks := more_tasks;
     st_techfix := techfixes |}.

Definition publish_context (selected : list task) (configs : list transition_config)
    (st : store) : Publish.context :=
  {| Publish.action := "publish";
     Publish.project_name := "Demo";
     Publish.project_id := 1;
     Publish.config_data := actions;
     Publish.selected_tasks_data := selected;
     Publish.publish_types := ["Maya File"; "Mov File"];
     Publish.task_config_data := configs;
     Publish.sg := st;
     Publish.validate_role_assignments := fun _ _ => inr (true, "");
     Publish.build_template_path := fun template ext _ e =>
       inr (template +:+ "/" +:+ ent_code e +:+ "." +:+ ext);
     Publish.find_versions := fun _ _ => inr [];
     Publish.basename := FileOps.path_name;
     Publish.batch_reply := fun _ => None |}.

(** The work area: the scene of sh010 without its movie, and both files of
    sh020 and of sh030. *)
Definition work_area : gmap string FileOps.node :=
  <["/work/maya/sh010.ma" := FileOps.File 438 "scene 010"]>
  (<["/work/maya/sh020.ma" := FileOps.File 438 "scene 020"]>
  (<["/work/mov/sh020.mov" := FileOps.File 438 "movie 020"]>
  (<["/work/maya/sh030.ma" := FileOps.File 438 "scene 030"]>
  {["/work/mov/sh030.mov" := FileOps.File 438 "movie 030"]}))).

(** A published file that is read-only (mode 0o444) and a newer scene in
    the work area (mode 0o666). *)
Definition read_only_publish : gmap string FileOps.node :=
  <["/pub/a.ma" := FileOps.File 292 "old"]>
  {["/work/a.ma" := FileOps.File 438 "new"]}.


Definition review_context (selected : list (Z * version)) (task_list : list task)
    (configs : list transition_config) (st : store) (u : Review.user)
    : Review.context :=
  {| Review.action := "approve";
     Review.project_id := 1;
     Review.config_data := actions;
     Review.current_user := u;
     Review.task_config_data := configs;
     Review.versions := selected;
     Review.tasks := list_to_map (map (fun t => (task_id t, t)) task_list);
     Review.sg := st;
     Review.validate_role_assignments := fun _ _ => inr (true, "");
     Review.batch_reply := fun _ => None |}.

Definition version_of (id task_id : Z) (status : string) : version :=
  {| ver_id := id; ver_name := "v" +:+ pretty id; ver_status := status;
     ver_task := task_id |}.

(** The team lead of the tasks of [shot_task]. *)
Definition the_lead : Review.user :=
  {| Review.user_id := 7; Review.user_role := "Lead" |}.

(** A task whose shot is not in the store. *)
Definition task_orphan : task :=
  shot_task 103 99 "sh999" "Animation" "apr" "Animation".

(** A techfix task in status "tlapr", and a configuration that sends
    "tlapr" to "rev". *)
Definition task_fix : task :=
  shot_task 104 21 "sh020" "Animation" "tlapr" "Animation_TechFix".

Definition lead_review_config : transition_config :=
  shot_config "Animation" {["tlapr" := "rev"]}.

(** A task of a client-QC step whose status "wip" is not in the status map
    of its configuration. *)
Definition task_qc : task :=
  shot_task 105 21 "sh020" "RigClientQC" "wip" "RigClientQC".

(** A configuration whose status configuration is not a literal, and a
    task it applies to. *)
Definition broken_config : transition_config :=
  {| cfg_entity_type := "Shot"; cfg_path_sheet_name := "Layout";
     cfg_task_name := "Layout"; cfg_status_config := LitBad;
     cfg_file_config := LitNone; cfg_qc_process := true;
     cfg_templates := templates |}.

Definition task_layout : task :=
  shot_task 106 20 "sh010" "Layout" "apr" "Layout".

Definition task_c : task := shot_task 107 22 "sh030" "Animation" "apr" "Animation".

(** The PublishedFile data of a slot of a task of [shot_task]. *)
Definition published (task_id shot_id : Z) (code file_type folder ext : string)
    : published_file :=
  {| pf_project := 1; pf_name := code +:+ "_Animation_v002";
     pf_code := code +:+ "." +:+ ext; pf_status := "cmpt";
     pf_version_number := 2; pf_type := Some file_type;
     pf_entity := ("Shot", shot_id); pf_task := task_id; pf_version := None;
     pf_path := "/pub/" +:+ folder +:+ "/" +:+ code +:+ "." +:+ ext |}.

(** The originating task 200, on hold for techfix, and techfix records: the
    record of [task_fix], records of other techfix tasks raised from task
    200, and records that do not count (published, of another project, of
    another originating task). *)
Definition origin_ref : entity_ref :=
  {| ref_type := "Task"; ref_id := 200; ref_name := "Animation" |}.

Definition origin_task : task :=
  shot_task 200 20 "sh010" "Animation" "tfhl" "Animation".

Definition techfix_record (id task project : Z) (from : Z) (status : string)
    : techfix :=
  {| tf_id := id; tf_task := Some task;
     tf_from := Some {| ref_type := "Task"; ref_id := from; ref_name := "Animation" |};
     tf_project := project; tf_status := status |}.

Definition own_record : techfix := techfix_record 501 104 1 200 "tlapr".

Definition decoys : list techfix :=
  [techfix_record 510 310 1 200 "pub";
   techfix_record 511 311 2 200 "wip";
   techfix_record 512 312 1 201 "wip"].

Definition pending (n : nat) : list techfix :=
  imap (fun i _ => techfix_record (520 + Z.of_nat i) (320 + Z.of_nat i) 1 200 "wip")
       (replicate n tt).

Definition techfix_store (n : nat) : store :=
  the_store (pending n ++ decoys ++ [own_record]) [origin_task].

(** A techfix task in review whose status "rev" is not in the status map
    of its configuration, and its version. *)
Definition task_fix_in_review : task :=
  shot_task 108 21 "sh020" "Animation" "rev" "Animation_TechFix".

Definition task_in_review : task :=
  shot_task 109 21 "sh020" "Animation" "rev" "Animation".

Definition task_a : task := shot_task 101 20 "sh010" "Animation" "apr" "Animation".
Definition task_b : task := shot_task 102 21 "sh020" "Animation" "apr" "Animation".

End Scenario.

(** ** sg_file_operations.py: [convert_to_unc] and [delete_path] *)

Module Paths.
Import FileOps.

(** [s.replace(old, new)] for single characters. *)
Fixpoint replace_char (old new : Ascii.ascii) (s : string) : string :=
  match s with
  | EmptyString => EmptyString
  | String a rest =>
      String (if Ascii.eqb a old then new else a) (replace_char old new rest)
  end.

(** [s.lstrip(c)] for a single character. *)
Fixpoint lstrip (c : Ascii.ascii) (s : string) : string :=
  match s with
  | String a rest => if Ascii.eqb a c then lstrip c rest else s
  | EmptyString => EmptyString
  end.

(** [os.path.splitdrive] on the paths that reach it in [convert_to_unc]: a
    path whose second character is the colon is split after the colon, a
    path of fewer than two characters has no drive. (A path of two or more
    characters without the colon in second place does not raise in the
    [try] block, so it reaches neither call.) *)
Definition splitdrive (p : string) : string * string :=
  match p with
  | String a (String ":"%char rest) => (String a (String ":"%char EmptyString), rest)
  | _ => (EmptyString, p)
  end.

(** [path[i]] *)
Definition char_at {S} (p : string) (i : nat) : SE S Ascii.ascii :=
  match String.get i p with
  | Some a => ret a
  | None => raise "IndexError: string index out of range"
  end.

Definition local_drives : list Ascii.ascii :=
  ["c"%char; "C"%char; "d"%char; "D"%char].

Definition fallback_share : string := "//saffstorage03/saffstoran/Disney/MMCH".

Section Unc.
(* win32wnet.WNetGetUniversalName(drive) and os.path.join(a, b) *)
Context (WNetGetUniversalName : string -> exn + string)
        (join : string -> string -> string).

(** The [try] block; the state is the variable [path], which keeps the
    value assigned before an exception. *)
Definition convert_body : SE string unit :=
  do path <- get_state;
  do second <- char_at path 1;
  do mapped <-
    (if Ascii.eqb second ":"
     then do first <- char_at path 0;
          ret (negb (bool_decide (first ∈ local_drives)))
     else ret false);
  if mapped : bool then
    run modify (replace_char "\" "/");
    do path <- get_state;
    let '(drive, tail) := splitdrive path in
    run (if negb (truthy_str drive)
         then raise ("Invalid mapped drive path. "
                     +:+ "Ensure the path includes a drive letter.")
         else ret tt);
    do unc_drive <- Shotgrid.lift (WNetGetUniversalName drive);
    let unc_drive := replace_char "\" "/" unc_drive in
    modify (fun _ => replace_char "\" "/" (join unc_drive (lstrip "/" tail)))
  else ret tt.

(** The handler: the fallback for drive J, then the log. *)
Definition convert_handler (e : exn) : SE string unit :=
  do path <- get_state;
  let '(drive, tail) := splitdrive path in
  if bool_decide (drive = "J:")
  then modify (fun _ =>
         replace_char "\" "/" (join fallback_share (lstrip "/" tail)))
  else ret tt.

(** [convert_to_unc(path, logger)]: the value of [path] at [return]. *)
Definition convert_to_unc (path : string) : string :=
  fst (try_catch convert_body convert_handler path).

End Unc.

Section Delete.
Context {W : Type} (os : OS W).
(* pathlib.Path(p).is_dir() and pathlib.Path(p).unlink() *)
Context (os_is_dir : string -> W -> exn + bool)
        (os_unlink : string -> W -> W * option exn).

(** A call that changes the file system; the log of [copy] is not
    extended. *)
Definition change (f : W -> W * option exn) : SE (cstate W) unit :=
  fun s =>
    let '(w', r) := f (world s) in
    ({| world := w'; trace := trace s; fr := fr s |},
     match r with Some e => inl e | None => inr tt end).

(** The [try] block of [delete_path]. *)
Definition delete_body (path : string) : SE (cstate W) unit :=
  do path <- query (os_unc os path);
  do is_file <- query (os_is_file os path);
  if is_file then
    run change (os_unlink path);
    set_status true
  else
    do is_dir <- query (os_is_dir path);
    if is_dir then
      run change (os_rmtree os path);
      set_status true
    else ret tt.

(** The function before decoration: the three [except] clauses only
    log. *)
Definition delete_path_undecorated (path : string) : SE (cstate W) bool :=
  run set_frame (fun _ => fresh_frame);
  run try_catch (delete_body path) (fun _ => ret tt);
  do f <- get_frame;
  ret (status f).

(** [sg_file_operations.delete_path], as its callers see it. *)
Definition delete_path (path : string) : SE (cstate W) (option bool) :=
  impersonate os (delete_path_undecorated path).

End Delete.

End Paths.

(** ** action_menu_parsing.py: [ShotgunAction._parse_url] *)

Module ActionMenu.

(** [s.split(sep, 1)] unpacked into two names: [None] where the unpacking
    raises because the separator is absent. *)
Fixpoint split_once (sep : Ascii.ascii) (s : string) : option (string * string) :=
  match s with
  | EmptyString => None
  | String a rest =>
      if Ascii.eqb a sep then Some (EmptyString, rest)
      else match split_once sep rest with
           | Some (before, after) => Some (String a before, after)
           | None => None
           end
  end.

(** [s.split(sep)] *)
Fixpoint split (sep : Ascii.ascii) (s : string) : list string :=
  match s with
  | EmptyString => [EmptyString]
  | String a rest =>
      if Ascii.eqb a sep then EmptyString :: split sep rest
      else match split sep rest with
           | head :: others => String a head :: others
           | [] => [String a EmptyString]
           end
  end.

(** [s.strip(c)] for a single character. *)
Fixpoint rstrip (c : Ascii.ascii) (s : string) : string :=
  match s with
  | EmptyString => EmptyString
  | String a rest =>
      match rstrip c rest with
      | EmptyString => if Ascii.eqb a c then EmptyString else String a EmptyString
      | kept => String a kept
      end
  end.

Definition strip (c : Ascii.ascii) (s : string) : string :=
  rstrip c (Paths.lstrip c s).

(** A value of the parameter dict: a string, or the list of the two column
    keys. *)
Inductive param :=
| PStr (value : string)
| PList (values : list string).

Definition column_keys : list string := ["column_display_names"; "cols"].

Definition not_enough_values : exn :=
  "ValueError: not enough values to unpack (expected 2, got 1)".

Section Parse.
(* six.moves.urllib.parse.unquote *)
Context (unquote : string -> string).

(** The body of the loop over the arguments; the state is the dict [p]. *)
Definition parse_arg (arg : string) : SE (gmap string param) unit :=
  match split_once "=" arg with
  | None => raise not_enough_values
  | Some (key, value) =>
      let key := unquote key in
      let value := unquote value in
      if str_in key column_keys then
        do p <- get_state;
        match p !! key with
        | Some (PList values) => modify (<[key := PList (values ++ [value])]>)
        | Some (PStr _) => raise "AttributeError: 'str' object has no attribute 'append'"
        | None => raise ("KeyError: " +:+ key)
        end
      else modify (<[key := PStr value]>)
  end.

Definition initial_params : gmap string param :=
  <["column_display_names" := PList []]> {["cols" := PList []]}.

(** [_parse_url]: the protocol, the action and the parameters. *)
Definition _parse_url (url : string) : exn + (string * string * gmap string param) :=
  match split_once ":" url with
  | None => inl not_enough_values
  | Some (protocol, path) =>
      match split_once "?" path with
      | None => inl not_enough_values
      | Some (action, params) =>
          let action := strip "/" action in
          match for_each (split "&" params) parse_arg initial_params with
          | (_, inl e) => inl e
          | (p, inr _) => inr (protocol, action, p)
          end
      end
  end.

End Parse.

End ActionMenu.

(** ** More concrete inputs *)

Module Cases.
Import Shotgrid.

(** A published folder, and a folder inside it. *)
Definition nested : gmap string FileOps.node :=
  <["/pub/a" := FileOps.Dir 511]>
  (<["/pub/a/sub" := FileOps.Dir 511]>
  {["/pub/a/sub/x.txt" := FileOps.File 438 "x"]}).

(** A configuration with a status configuration and no file
    configuration. *)
Definition unfiled_config : transition_config :=
  {| cfg_entity_type := "Shot"; cfg_path_sheet_name := "Layout";
     cfg_task_name := "Layout";
     cfg_status_config := Lit {["publish" := {["apr" := "pub"]}]};
     cfg_file_config := LitNone; cfg_qc_process := true;
     cfg_templates := Scenario.templates |}.


(** The context of [Scenario.publish_context] with a validation of the
    role assignments that refuses every task, and with a query of the
    versions that fails. *)
Definition refusing_context (selected : list task)
    (configs : list transition_config) (st : store) : Publish.context :=
  let ctx := Scenario.publish_context selected configs st in
  {| Publish.action := Publish.action ctx;
     Publish.project_name := Publish.project_name ctx;
     Publish.project_id := Publish.project_id ctx;
     Publish.config_data := Publish.config_data ctx;
     Publish.selected_tasks_data := Publish.selected_tasks_data ctx;
     Publish.publish_types := Publish.publish_types ctx;
     Publish.task_config_data := Publish.task_config_data ctx;
     Publish.sg := Publish.sg ctx;
     Publish.validate_role_assignments :=
       fun _ _ => inr (false, "Artist is not assigned to the task");
     Publish.build_template_path := Publish.build_template_path ctx;
     Publish.find_versions := Publish.find_versions ctx;
     Publish.basename := Publish.basename ctx;
     Publish.batch_reply := Publish.batch_reply ctx |}.

Definition offline_context (selected : list task)
    (configs : list transition_config) (st : store) : Publish.context :=
  let ctx := Scenario.publish_context selected configs st in
  {| Publish.action := Publish.action ctx;
     Publish.project_name := Publish.project_name ctx;
     Publish.project_id := Publish.project_id ctx;
     Publish.config_data := Publish.config_data ctx;
     Publish.selected_tasks_data := Publish.selected_tasks_data ctx;
     Publish.publish_types := Publish.publish_types ctx;
     Publish.task_config_data := Publish.task_config_data ctx;
     Publish.sg := Publish.sg ctx;
     Publish.validate_role_assignments := Publish.validate_role_assignments ctx;
     Publish.build_template_path := Publish.build_template_path ctx;
     Publish.find_versions := fun _ _ => inl "Fault: connection lost";
     Publish.basename := Publish.basename ctx;
     Publish.batch_reply := Publish.batch_reply ctx |}.

(** A slot that is not mandatory. *)
Definition optional_mov_slot : slot :=
  {| slot_workarea := "movWork"; slot_filter := "Mov Files(*.mov)";
     slot_mandatory := false; slot_tags := {["server" := "movPublish"]} |}.

(** The TechFixData record of [Scenario.task_fix] without originating
    task. *)
Definition orphan_record : techfix :=
  {| tf_id := 530; tf_task := Some 104; tf_from := None; tf_project := 1;
     tf_status := "tlapr" |}.




(** A configuration of the review of the Animation step. *)
Definition review_config : transition_config :=
  Scenario.shot_config "Animation" {["rev" := "tlapr"]}.

(** A network that does not answer, and a join of two path components
    with a slash. *)
Definition no_network (drive : string) : exn + string :=
  inl "error: (2250, 'WNetGetUniversalName', 'This network connection does not exist.')".

Definition join_slash (a b : string) : string := a +:+ "/" +:+ b.

(** A task in review whose team lead is another user and whose Supervisor
    field is empty. *)
Definition task_unsupervised : task :=
  {| task_id := 110; task_project := "Demo";
     task_link := {| ref_type := "Shot"; ref_id := 21; ref_name := "sh020" |};
     task_step := "Animation"; task_status := "rev"; task_name := "Animation";
     task_split_type := None; task_team_lead := Some 5;
     task_supervisor := None; task_client_version := Some 2 |}.

(** A configuration with an empty status configuration and a file
    configuration that is not a literal. *)
Definition malformed_file_config : transition_config :=
  {| cfg_entity_type := "Shot"; cfg_path_sheet_name := "Layout";
     cfg_task_name := "Layout"; cfg_status_config := LitNone;
     cfg_file_config := LitBad; cfg_qc_process := true;
     cfg_templates := Scenario.templates |}.

End Cases.

(** * Properties *)

Import FileOps.


(** ** sg_file_operations.copy *)

Section CopyFacts.
Context {W : Type} (os : OS W).

Lemma originalMode_not_in_locals (f : frame) :
  str_in "originalMode" (locals f) = false.
Proof. unfold locals. destruct (original_mode f); reflexivity. Qed.

Ltac crunch :=
  repeat (simpl in *;
    match goal with
    | H : (_, _) = (_, _) |- _ => inversion H; subst; clear H
    | H : str_in "originalMode" (locals _) = true |- _ =>
        rewrite originalMode_not_in_locals in H; discriminate H
    | H : context [match ?x with _ => _ end] |- _ => destruct x eqn:?
    | H : context [if ?x then _ else _] |- _ => destruct x eqn:?
    | H : context [let '(_, _) := ?x in _] |- _ => destruct x eqn:?
    end).

Lemma copy_body_outcome source destination ignores overwrite metadata s s' r :
  status (fr s) = false ->
  copy_body os source destination ignores overwrite metadata s = (s', r) ->
  match r with
  | inl _ => status (fr s') = false
  | inr _ => completed s' /\ msg (fr s') = msg (fr s)
  end.
Proof.
  intros Hs H.
  unfold copy_body, copy_existing, copy_fresh, copy_file, copy_tree,
    fail_with, get_frame, query, effect, set_status, set_msg,
    set_original_mode, set_frame, modify, get_state, bind, ret, raise in H.
  rewrite ?originalMode_not_in_locals in H.
  crunch; try assumption; try discriminate;
    (split; [split; [reflexivity | eexists; cbn [trace]; rewrite last_snoc; split; reflexivity] | reflexivity]).
Qed.

End CopyFacts.

Section CopyTheorems.
Context {W : Type} (os : OS W).

Lemma copy_unfold source destination ignores overwrite metadata (s : cstate W) :
  copy os source destination ignores overwrite metadata s =
  match copy_body os source destination ignores overwrite metadata (entered s) with
  | (s1, inl e) => (handled s1 e, inr (Some (status (fr s1), e)))
  | (s1, inr _) => (s1, inr (Some (status (fr s1), msg (fr s1))))
  end.
Proof.
  unfold copy, impersonate, copy_undecorated, try_catch, get_frame, set_msg,
    set_frame, modify, get_state, bind, ret, entered, handled.
  simpl.
  destruct (copy_body _ _ _ _ _ _ _) as [s1 [e | []]]; destruct s1; reflexivity.
Qed.


End CopyTheorems.


(** On every operating system: when the destination exists and is not
    writable, [overwrite] is set and every call succeeds, the calls that
    [copy] logs are the [chmod] that adds the write bit and the copy of the
    file; no [chmod] to the mode that was read follows. *)
Lemma copy_logs_no_restore {W} (os : OS W) source destination ignores metadata
    (s : cstate W) src dst mode w1 w2 :
  os_unc os source (world s) = inr src ->
  os_unc os destination (world s) = inr dst ->
  os_exists os src (world s) = inr true ->
  os_exists os dst (world s) = inr true ->
  os_access_w os dst (world s) = inr false ->
  os_st_mode os dst (world s) = inr mode ->
  os_chmod os dst (Z.lor (S_IMODE mode) S_IWRITE) (world s) = (w1, None) ->
  os_is_file os src w1 = inr true ->
  os_copy os metadata src dst w1 = (w2, None) ->
  copy os source destination ignores true metadata s
  = ({| world := w2;
        trace := trace s
                 ++ [Ev (Chmod dst (Z.lor (S_IMODE mode) S_IWRITE)) None;
                     Ev (CopyFile metadata src dst) None];
        fr := {| status := true; msg := "";
                 original_mode := Some (S_IMODE mode) |} |},
     inr (Some (true, ""))).
Proof.
  intros Hs Hd Hes Hed Hw Hm Hch Hf Hc. rewrite copy_unfold.
  unfold copy_body, copy_existing, copy_file, fail_with, get_frame, query,
    effect, set_status, set_msg, set_original_mode, set_frame, modify,
    get_state, bind, ret, raise, entered.
  simpl. rewrite Hs, Hd. simpl. rewrite Hes. simpl. rewrite Hed. simpl.
  rewrite Hw. simpl. rewrite Hm. simpl. rewrite Hch. simpl.
  rewrite Hf. simpl. rewrite Hc. simpl.
  rewrite <- app_assoc. reflexivity.
Qed.

(** C7. The code at the failing input: the destination exists with mode
    0o444, [copy] with [overwrite=True] makes it writable (0o644), copies,
    and returns [True]; the log of the run ends with the copy, no second
    [chmod] follows, and the mode of the destination is not 0o444 again. *)
Theorem read_only_destination_mode_is_not_restored :
  let r := copy mini_os "/work/a.ma" "/pub/a.ma" (Some []) true true
             (start Scenario.read_only_publish) in
  Scenario.read_only_publish !! "/pub/a.ma" = Some (File 292 "old")
  /\ snd r = inr (Some (true, ""))
  /\ trace (fst r)
     = [Ev (Chmod "/pub/a.ma" 420) None;
        Ev (CopyFile true "/work/a.ma" "/pub/a.ma") None]
  /\ world (fst r) !! "/pub/a.ma" = Some (File 438 "new").
Proof. vm_compute. repeat split; reflexivity. Qed.

(** ** Publish.publish and Review.update_version *)

Import Shotgrid.

(** The loop goes on to the next item after a body that returns. *)
Lemma for_each_step {S A} (x : A) (rest : list A) (body : A -> SE S unit) (s : S) :
  snd (body x s) = inr tt ->
  for_each (x :: rest) body s = for_each rest body (fst (body x s)).
Proof.
  intros H. simpl. unfold bind. destruct (body x s) as [s' [e | []]];
    [discriminate | reflexivity].
Qed.

(** C8, counterexample. A task of [Publish.publish] for which no
    configuration record matches, whose shot is not found in the store:
    the reason of its row is not the missing configuration. *)
Lemma missing_config_counterexample :
  let ctx := Scenario.publish_context [Scenario.task_orphan] []
               (Scenario.the_store [] []) in
  let r := Publish.publish mini_os ctx (Publish.start Scenario.work_area) in
  matching_configs (Publish.task_config_data ctx) Scenario.task_orphan = []
  /\ snd r = inr [ {| row_label := "sh999"; row_task := "Animation";
                      row_success := "NO";
                      row_reason := "Selected Shot/Asset data is not found in SG" |} ]
  /\ "Selected Shot/Asset data is not found in SG"
     <> "Valid config is not available in SG, please reach out to SG team!".
Proof. vm_compute. repeat split; try reflexivity. discriminate. Qed.

(** C8, amended. In [Publish.publish], an item whose Shot/Asset record is
    not found is reported with Success "NO" and that reason, whether or not
    a configuration record matches it; an item whose Shot/Asset record is
    found and that no configuration record matches is reported with Success
    "NO" and the reason of the missing configuration. In
    [Review.update_version], a version whose task is among the fetched tasks
    and that no configuration record matches is reported with Success "NO"
    and the reason of the missing configuration; a version whose task was
    not fetched raises before the configuration is looked up. In the three
    reported cases nothing is added to the batch and the loop goes on with
    the next item. *)
Theorem missing_config_is_reported_and_skipped
    {W} (os : OS W) (pctx : Publish.context) (t : task) (rest : list task)
    (s : Publish.pstate W)
    (rctx : Review.context) (version_id : Z) (ver : version)
    (vrest : list (Z * version)) (rs : Review.rstate) :
  let reported reason :=
    Publish.publish_item os pctx t s
    = Publish.append_report
        {| row_label := ref_name (task_link t); row_task := task_step t;
           row_success := "NO"; row_reason := reason |} s
    /\ Publish.batch_data (fst (Publish.publish_item os pctx t s))
       = Publish.batch_data s
    /\ Publish.publish_batch_data (fst (Publish.publish_item os pctx t s))
       = Publish.publish_batch_data s
    /\ for_each (t :: rest) (Publish.publish_item os pctx) s
       = for_each rest (Publish.publish_item os pctx)
           (fst (Publish.publish_item os pctx t s)) in
  (last (Publish.find_entity pctx t) = None ->
   reported "Selected Shot/Asset data is not found in SG")
  /\ (forall entity_data,
      last (Publish.find_entity pctx t) = Some entity_data ->
      matching_configs (Publish.task_config_data pctx) t = [] ->
      reported "Valid config is not available in SG, please reach out to SG team!")
  /\ (forall rt,
      Review.tasks rctx !! ver_task ver = Some rt ->
      matching_configs (Review.task_config_data rctx) rt = [] ->
      Review.review_item rctx (version_id, ver) rs
      = Review.append_report
          {| row_label := ver_name ver; row_task := task_step rt;
             row_success := "NO";
             row_reason :=
               "Valid config is not available in SG, please reach out to SG team!" |}
          rs
      /\ Review.batch_data (fst (Review.review_item rctx (version_id, ver) rs))
         = Review.batch_data rs
      /\ for_each ((version_id, ver) :: vrest) (Review.review_item rctx) rs
         = for_each vrest (Review.review_item rctx)
             (fst (Review.review_item rctx (version_id, ver) rs)))
  /\ (Review.tasks rctx !! ver_task ver = None ->
      Review.review_item rctx (version_id, ver) rs
      = (rs, inl "TypeError: 'NoneType' object is not subscriptable")).
Proof.
  intros reported.
  assert (Hrow : forall reason,
    Publish.publish_item os pctx t s
    = Publish.append_report
        {| row_label := ref_name (task_link t); row_task := task_step t;
           row_success := "NO"; row_reason := reason |} s ->
    reported reason).
  { intros reason Heq. subst reported. cbv beta.
    split; [exact Heq |].
    split; [rewrite Heq; reflexivity |].
    split; [rewrite Heq; reflexivity |].
    apply for_each_step. rewrite Heq. reflexivity. }
  split; [| split; [| split]].
  - intros He. apply Hrow. unfold Publish.publish_item. rewrite He. reflexivity.
  - intros entity_data He Hc. apply Hrow. unfold Publish.publish_item.
    rewrite He, Hc. reflexivity.
  - intros rt Ht Hc.
    assert (Heq : Review.review_item rctx (version_id, ver) rs
      = Review.append_report
          {| row_label := ver_name ver; row_task := task_step rt;
             row_success := "NO";
             row_reason :=
               "Valid config is not available in SG, please reach out to SG team!" |}
          rs).
    { unfold Review.review_item. rewrite Ht, Hc. reflexivity. }
    split; [exact Heq |].
    split; [rewrite Heq; reflexivity |].
    apply for_each_step. rewrite Heq. reflexivity.
  - intros Ht. unfold Review.review_item. rewrite Ht. reflexivity.
Qed.

(** C8 at a task whose shot is not in the store while a configuration
    record matches it, at a task of a shot that is in the store with no
    configuration record, at a version whose task was fetched with no
    configuration record, and at a version whose task was not fetched. *)
Lemma missing_config_is_reported_and_skipped_witness :
  let orphan_ctx := Scenario.publish_context [Scenario.task_orphan]
                      [Scenario.anim_config] (Scenario.the_store [] []) in
  let pctx := Scenario.publish_context [Scenario.task_a] []
                (Scenario.the_store [] []) in
  let rctx := Scenario.review_context [(1, Scenario.version_of 1 101 "rev")]
                [Scenario.task_a] [] (Scenario.the_store [] [])
                Scenario.the_lead in
  matching_configs (Publish.task_config_data orphan_ctx) Scenario.task_orphan
    = [Scenario.anim_config]
  /\ Publish.report_list
       (fst (Publish.publish_item mini_os orphan_ctx Scenario.task_orphan
               (Publish.start Scenario.work_area)))
     = [ {| row_label := "sh999"; row_task := "Animation"; row_success := "NO";
            row_reason := "Selected Shot/Asset data is not found in SG" |} ]
  /\ Publish.report_list
       (fst (Publish.publish_item mini_os pctx Scenario.task_a
               (Publish.start Scenario.work_area)))
     = [ {| row_label := "sh010"; row_task := "Animation"; row_success := "NO";
            row_reason :=
              "Valid config is not available in SG, please reach out to SG team!" |} ]
  /\ Review.report_list
       (fst (Review.review_item rctx (1, Scenario.version_of 1 101 "rev")
               Review.start))
     = [ {| row_label := "v1"; row_task := "Animation"; row_success := "NO";
            row_reason :=
              "Valid config is not available in SG, please reach out to SG team!" |} ]
  /\ Review.review_item rctx (2, Scenario.version_of 2 999 "rev") Review.start
     = (Review.start, inl "TypeError: 'NoneType' object is not subscriptable").
Proof.
  intros orphan_ctx pctx rctx.
  split; [reflexivity |].
  split; [| split; [| split]].
  - destruct (missing_config_is_reported_and_skipped mini_os orphan_ctx
                Scenario.task_orphan [] (Publish.start Scenario.work_area)
                rctx 1 (Scenario.version_of 1 101 "rev") [] Review.start)
      as (Hmissing & _).
    destruct (Hmissing eq_refl) as [Heq _]. rewrite Heq. reflexivity.
  - destruct (missing_config_is_reported_and_skipped mini_os pctx
                Scenario.task_a [] (Publish.start Scenario.work_area)
                rctx 1 (Scenario.version_of 1 101 "rev") [] Review.start)
      as (_ & Hconfig & _).
    destruct (Hconfig (Scenario.shot 20 "sh010") eq_refl eq_refl) as [Heq _].
    rewrite Heq. reflexivity.
  - destruct (missing_config_is_reported_and_skipped mini_os pctx
                Scenario.task_a [] (Publish.start Scenario.work_area)
                rctx 1 (Scenario.version_of 1 101 "rev") [] Review.start)
      as (_ & _ & Hreview & _).
    destruct (Hreview Scenario.task_a eq_refl eq_refl) as [Heq _].
    rewrite Heq. reflexivity.
  - exact (proj2 (proj2 (proj2
      (missing_config_is_reported_and_skipped mini_os pctx
         Scenario.task_a [] (Publish.start Scenario.work_area)
         rctx 2 (Scenario.version_of 2 999 "rev") [] Review.start))) eq_refl).
Defined.

(** *** Status resolution of [Publish.publish] *)

Section StatusResolution.
Context {W : Type} (os : OS W) (ctx : Publish.context).
Context (t : task) (entity_data : entity) (task_config : transition_config).
Context (report_dict : row).
Context (sc : gmap string (gmap string string)) (m : gmap string string).

Lemma publish_configured_status_check (s : Publish.pstate W) :
  Publish.reaches_status_check ctx t task_config sc m ->
  Publish.publish_configured os ctx t entity_data task_config report_dict s
  = let merged :=
      Publish.override_status_config (is_techfix_name (task_name t))
        (cfg_qc_process task_config) m in
    if negb (str_in (task_step t) (client_qc_steps (Publish.config_data ctx)))
       && negb (bool_decide (is_Some (merged !! task_status t)))
    then Publish.append_report (with_reason report_dict
           "Selected Task current status is not valid for this Action in SG") s
    else Publish.publish_checked os ctx t entity_data task_config
           (is_techfix_name (task_name t)) merged
           (lit_value (cfg_file_config task_config)) report_dict s.
Proof.
  intros (Hsc & Hfc & Hact & Hgate).
  unfold Publish.publish_configured.
  rewrite Hsc. unfold Publish.literal_eval_if at 1. unfold bind at 1. unfold ret at 1.
  destruct (cfg_file_config task_config) as [| | fc] eqn:Hf; [| congruence |];
    unfold Publish.literal_eval_if, bind at 1, ret at 1;
    cbn [lit_value] in *; rewrite Hgate;
    unfold subscript; rewrite Hact; unfold bind, ret; cbv zeta;
    match goal with |- context [if ?c then _ else _] => destruct c end;
    reflexivity.
Qed.

End StatusResolution.

(** C4. For an item that is a techfix task or whose configuration has no
    QC process, the entries "tlapr" -> "pub" and "movapr" -> "pub" are merged
    into the status map of the action before the current status is looked
    up: the merged map answers "pub" for both keys whatever the map held,
    the other keys are unchanged, the membership test and the lookup of the
    next status both read the merged map, and a current status "tlapr" or
    "movapr" goes on to the files of "pub". *)
Theorem override_is_merged_before_lookup
    {W} (os : OS W) (ctx : Publish.context) (t : task) (entity_data : entity)
    (task_config : transition_config) (report_dict : row)
    (sc : gmap string (gmap string string)) (m : gmap string string)
    (s : Publish.pstate W) :
  is_techfix_name (task_name t) || negb (cfg_qc_process task_config) = true ->
  Publish.reaches_status_check ctx t task_config sc m ->
  let merged := <["movapr" := "pub"]> (<["tlapr" := "pub"]> m) in
  merged !! "tlapr" = Some "pub"
  /\ merged !! "movapr" = Some "pub"
  /\ (forall k, k <> "tlapr" -> k <> "movapr" -> merged !! k = m !! k)
  /\ Publish.publish_configured os ctx t entity_data task_config report_dict s
     = (if negb (str_in (task_step t) (client_qc_steps (Publish.config_data ctx)))
           && negb (bool_decide (is_Some (merged !! task_status t)))
        then Publish.append_report (with_reason report_dict
               "Selected Task current status is not valid for this Action in SG") s
        else Publish.publish_checked os ctx t entity_data task_config
               (is_techfix_name (task_name t)) merged
               (lit_value (cfg_file_config task_config)) report_dict s)
  /\ (forall msg,
      task_status t = "tlapr" \/ task_status t = "movapr" ->
      Publish.validate_role_assignments ctx t (valid_roles (Publish.config_data ctx))
        = inr (true, msg) ->
      Publish.publish_configured os ctx t entity_data task_config report_dict s
      = Publish.publish_files os ctx t entity_data task_config
          (is_techfix_name (task_name t)) "pub"
          (lit_value (cfg_file_config task_config)) report_dict s).
Proof.
  intros Hover Hreach merged.
  assert (Htl : merged !! "tlapr" = Some "pub").
  { unfold merged. rewrite lookup_insert_ne by discriminate.
    apply lookup_insert_eq. }
  assert (Hmov : merged !! "movapr" = Some "pub").
  { unfold merged. apply lookup_insert_eq. }
  assert (Hcfg := publish_configured_status_check os ctx t entity_data
                    task_config report_dict sc m s Hreach).
  unfold Publish.override_status_config in Hcfg. rewrite Hover in Hcfg.
  cbv zeta in Hcfg. fold merged in Hcfg.
  split; [exact Htl |]. split; [exact Hmov |].
  split.
  { intros k H1 H2. unfold merged.
    rewrite lookup_insert_ne by congruence.
    rewrite lookup_insert_ne by congruence. reflexivity. }
  split; [exact Hcfg |].
  intros msg Hst Hval. rewrite Hcfg.
  assert (Hlk : merged !! task_status t = Some "pub")
    by (destruct Hst as [-> | ->]; assumption).
  rewrite Hlk.
  rewrite (bool_decide_eq_true_2 _ (mk_is_Some _ _ eq_refl)).
  rewrite andb_false_r.
  unfold Publish.publish_checked. rewrite Hval.
  unfold lift, subscript, bind, ret. simpl. rewrite Hlk. reflexivity.
Qed.

(** C4 at a techfix task in status "tlapr" whose configuration maps
    "tlapr" to "rev": the item goes on to the files of "pub". *)
Lemma override_is_merged_before_lookup_witness :
  let ctx := Scenario.publish_context [Scenario.task_fix]
               [Scenario.lead_review_config] (Scenario.the_store [] []) in
  Publish.publish_configured mini_os ctx Scenario.task_fix
    (Scenario.shot 21 "sh020") Scenario.lead_review_config
    (Publish.initial_row Scenario.task_fix) (Publish.start Scenario.work_area)
  = Publish.publish_files mini_os ctx Scenario.task_fix
      (Scenario.shot 21 "sh020") Scenario.lead_review_config true "pub"
      (lit_value (cfg_file_config Scenario.lead_review_config))
      (Publish.initial_row Scenario.task_fix) (Publish.start Scenario.work_area).
Proof.
  intros ctx.
  refine (proj2 (proj2 (proj2 (proj2
    (override_is_merged_before_lookup mini_os ctx Scenario.task_fix
       (Scenario.shot 21 "sh020") Scenario.lead_review_config
       (Publish.initial_row Scenario.task_fix)
       (<["publish" := {["tlapr" := "rev"]}]> {["approve" := {["tlapr" := "rev"]}]})
       {["tlapr" := "rev"]} (Publish.start Scenario.work_area) _ _)))) "" _ _).
  - reflexivity.
  - repeat split; try reflexivity. discriminate.
  - left. reflexivity.
  - reflexivity.
Defined.

(** The first half of C5: outside the client-QC steps, a current status
    that is not in the map of the action is reported as invalid, and
    nothing else is done for the item. *)
Lemma absent_status_is_reported
    {W} (os : OS W) (ctx : Publish.context) (t : task) (entity_data : entity)
    (task_config : transition_config) (report_dict : row)
    (sc : gmap string (gmap string string)) (m : gmap string string)
    (s : Publish.pstate W) :
  Publish.reaches_status_check ctx t task_config sc m ->
  str_in (task_step t) (client_qc_steps (Publish.config_data ctx)) = false ->
  Publish.override_status_config (is_techfix_name (task_name t))
    (cfg_qc_process task_config) m !! task_status t = None ->
  Publish.publish_configured os ctx t entity_data task_config report_dict s
  = Publish.append_report (with_reason report_dict
      "Selected Task current status is not valid for this Action in SG") s.
Proof.
  intros Hreach Hstep Hnone.
  rewrite (publish_configured_status_check os ctx t entity_data task_config
             report_dict sc m s Hreach).
  cbv zeta. rewrite Hstep, Hnone. reflexivity.
Qed.

(** The second half of C5 as the code has it: in a client-QC step the
    test is skipped, and once the role assignments are valid the lookup of
    the next status raises [KeyError]. *)
Lemma absent_status_in_client_qc_step_raises
    {W} (os : OS W) (ctx : Publish.context) (t : task) (entity_data : entity)
    (task_config : transition_config) (report_dict : row)
    (sc : gmap string (gmap string string)) (m : gmap string string)
    (s : Publish.pstate W) (msg : string) :
  Publish.reaches_status_check ctx t task_config sc m ->
  str_in (task_step t) (client_qc_steps (Publish.config_data ctx)) = true ->
  Publish.override_status_config (is_techfix_name (task_name t))
    (cfg_qc_process task_config) m !! task_status t = None ->
  Publish.validate_role_assignments ctx t (valid_roles (Publish.config_data ctx))
    = inr (true, msg) ->
  Publish.publish_configured os ctx t entity_data task_config report_dict s
  = (s, inl ("KeyError: " +:+ task_status t)).
Proof.
  intros Hreach Hstep Hnone Hval.
  rewrite (publish_configured_status_check os ctx t entity_data task_config
             report_dict sc m s Hreach).
  cbv zeta. rewrite Hstep. simpl.
  unfold Publish.publish_checked. rewrite Hval.
  unfold lift, subscript, bind, ret, raise. simpl. rewrite Hnone. reflexivity.
Qed.

(** C5. The code at the failing input: a task of the client-QC step
    "RigClientQC" in status "wip", which its status map does not hold, after a
    task that publishes well. The run ends in the handler of [publish]: the
    report is the one row of the error, the row of the first task is gone,
    and the batch is never sent. *)
Theorem client_qc_absent_status_aborts_run :
  let ctx := Scenario.publish_context [Scenario.task_b; Scenario.task_qc]
               [Scenario.anim_config; Scenario.qc_config]
               (Scenario.the_store [] []) in
  let r := Publish.publish mini_os ctx (Publish.start Scenario.work_area) in
  str_in (task_step Scenario.task_qc) (client_qc_steps (Publish.config_data ctx))
    = true
  /\ snd r = inr [fatal_row "KeyError: wip"]
  /\ Publish.batch_data (fst r) <> []
  /\ Publish.batch_calls (fst r) = [].
Proof. vm_compute. repeat split; try reflexivity. discriminate. Qed.

(** *** Components of the state that a computation does not touch *)

Lemma keeps_ret {S A X} (f : S -> X) (a : A) : keeps f (ret a).
Proof. intros s. reflexivity. Qed.

Lemma keeps_raise {S A X} (f : S -> X) (e : exn) : keeps f (@raise S A e).
Proof. intros s. reflexivity. Qed.

Lemma keeps_lift {S A X} (f : S -> X) (r : exn + A) : keeps f (@lift S A r).
Proof. intros s. destruct r; reflexivity. Qed.

Lemma keeps_get_state {S X} (f : S -> X) : keeps f get_state.
Proof. intros s. reflexivity. Qed.

Lemma keeps_bind {S A B X} (f : S -> X) (m : SE S A) (k : A -> SE S B) :
  keeps f m -> (forall a, keeps f (k a)) -> keeps f (bind m k).
Proof.
  intros Hm Hk s. unfold bind. specialize (Hm s).
  destruct (m s) as [s' [e | a]]; simpl in *; [assumption |].
  rewrite Hk. assumption.
Qed.

Lemma keeps_try_catch {S A X} (f : S -> X) (m : SE S A) (h : exn -> SE S A) :
  keeps f m -> (forall e, keeps f (h e)) -> keeps f (try_catch m h).
Proof.
  intros Hm Hh s. unfold try_catch. specialize (Hm s).
  destruct (m s) as [s' [e | a]]; simpl in *; [| assumption].
  rewrite Hh. assumption.
Qed.

Lemma keeps_for_each {S A X} (f : S -> X) (l : list A) (body : A -> SE S unit) :
  (forall x, keeps f (body x)) -> keeps f (for_each l body).
Proof.
  intros Hb. induction l as [| x rest IH]; simpl.
  - apply keeps_ret.
  - apply keeps_bind; [apply Hb | intros _; exact IH].
Qed.

Lemma keeps_for_fold {S A B X} (f : S -> X) (l : list A) (acc : B)
    (body : B -> A -> SE S B) :
  (forall b x, keeps f (body b x)) -> keeps f (for_fold l acc body).
Proof.
  intros Hb. revert acc. induction l as [| x rest IH]; intros acc; simpl.
  - apply keeps_ret.
  - apply keeps_bind; [apply Hb | intros b; apply IH].
Qed.

Lemma keeps_subscript {S V X} (f : S -> X) (d : option (gmap string V)) key :
  keeps f (@subscript S V d key).
Proof. intros s. unfold subscript. destruct d as [m |]; [destruct (m !! key) |]; reflexivity. Qed.

Ltac keeps_step :=
  lazymatch goal with
  | |- keeps _ (bind _ _) => apply keeps_bind; [| intros ?]
  | |- keeps _ (ret _) => apply keeps_ret
  | |- keeps _ (raise _) => apply keeps_raise
  | |- keeps _ (lift _) => apply keeps_lift
  | |- keeps _ get_state => apply keeps_get_state
  | |- keeps _ (subscript _ _) => apply keeps_subscript
  | |- keeps _ (try_catch _ _) => apply keeps_try_catch; [| intros ?]
  | |- keeps _ (for_each _ _) => apply keeps_for_each; intros ?
  | |- keeps _ (for_fold _ _ _) => apply keeps_for_fold; intros ? ?
  | |- keeps _ (match ?x with _ => _ end) => destruct x
  | |- keeps _ (if ?x then _ else _) => destruct x
  | |- keeps _ (let '(_, _) := ?x in _) => destruct x
  end.

Section PublishKeepsCalls.
Context {W : Type} (os : OS W) (ctx : Publish.context).

Lemma keeps_calls_on_fs {A} (m : SE (cstate W) A) :
  keeps Publish.batch_calls (Publish.on_fs m).
Proof. intros s. unfold Publish.on_fs. destruct (m (Publish.fs s)). reflexivity. Qed.

Lemma keeps_calls_append_report r :
  keeps (@Publish.batch_calls W) (Publish.append_report r).
Proof. intros s. reflexivity. Qed.

Lemma keeps_calls_extend_batch ops :
  keeps (@Publish.batch_calls W) (Publish.extend_batch ops).
Proof. intros s. reflexivity. Qed.

Lemma keeps_calls_append_publish op :
  keeps (@Publish.batch_calls W) (Publish.append_publish op).
Proof. intros s. reflexivity. Qed.

Ltac publish_keeps :=
  repeat first
    [ apply keeps_calls_on_fs
    | apply keeps_calls_append_report
    | apply keeps_calls_extend_batch
    | apply keeps_calls_append_publish
    | keeps_step ].

Lemma keeps_calls_publish_item t :
  keeps Publish.batch_calls (Publish.publish_item os ctx t).
Proof.
  unfold Publish.publish_item, Publish.publish_configured,
    Publish.publish_checked, Publish.publish_files, Publish.commit_item,
    Publish.techfix_cascade, Publish.asset_cascade, Publish.literal_eval_if.
  publish_keeps.
  all: unfold Publish.copy_slot, Publish.copy_tag, Publish.template_of,
    Publish.get_published_file_data, Publish.path_exists, Publish.path_isfile.
  all: publish_keeps.
Qed.

End PublishKeepsCalls.

Lemma keeps_calls_review_item (ctx : Review.context) item :
  keeps Review.batch_calls (Review.review_item ctx item).
Proof.
  assert (Hr : forall r, keeps Review.batch_calls (Review.append_report r))
    by (intros r s; reflexivity).
  assert (He : forall ops, keeps Review.batch_calls (Review.extend_batch ops))
    by (intros ops s; reflexivity).
  unfold Review.review_item, Review.review_configured, Review.review_authorized,
    Review.review_commit.
  repeat first [ apply Hr | apply He | keeps_step ].
Qed.

(** C6, counterexample. A run of [Publish.publish] whose first task is
    published and whose second task has a status configuration that is not
    a literal: the batch holds operations, and the batch endpoint is never
    called. *)
Lemma batch_flush_counterexample :
  let ctx := Scenario.publish_context [Scenario.task_b; Scenario.task_layout]
               [Scenario.anim_config; Scenario.broken_config]
               (Scenario.the_store [] []) in
  let r := Publish.publish mini_os ctx (Publish.start Scenario.work_area) in
  Publish.batch_data (fst r) <> []
  /\ Publish.batch_calls (fst r) = []
  /\ snd r = inr [fatal_row "ValueError: malformed node or string"].
Proof. vm_compute. repeat split; try reflexivity. discriminate. Qed.

(** C6, amended. In every run of [Publish.publish] and of
    [Review.update_version] no item of the loop calls the batch endpoint;
    when the loop has run over all items without an exception, the endpoint
    is called once with the accumulated batch if that list is not empty,
    and not at all if it is empty; when an exception ends the loop, the
    endpoint is not called, whatever the batch holds. So every run calls it
    at most once. *)
Theorem batch_is_sent_once_after_a_completed_loop
    {W} (os : OS W) (pctx : Publish.context) (s : Publish.pstate W)
    (rctx : Review.context) (rs : Review.rstate) :
  (forall items s0,
     Publish.batch_calls (fst (for_each items (Publish.publish_item os pctx) s0))
     = Publish.batch_calls s0)
  /\ Publish.batch_calls (fst (Publish.publish os pctx s))
     = Publish.batch_calls s ++
       match Publish.publish_loop os pctx (fst (Publish.init_lists s)) with
       | (s1, inr _) =>
           if truthy_list (Publish.batch_data s1)
           then [Publish.batch_data s1] else []
       | (_, inl _) => []
       end
  /\ (forall items s0,
      Review.batch_calls (fst (for_each items (Review.review_item rctx) s0))
      = Review.batch_calls s0)
  /\ Review.batch_calls (fst (Review.update_version rctx rs))
     = Review.batch_calls rs ++
       match Review.review_loop rctx
               (fst (Review.init_batch (fst (Review.init_report rs)))) with
       | (s1, inr _) =>
           if truthy_list (Review.batch_data s1)
           then [Review.batch_data s1] else []
       | (_, inl _) => []
       end.
Proof.
  assert (Hp : forall items s0,
     Publish.batch_calls (fst (for_each items (Publish.publish_item os pctx) s0))
     = Publish.batch_calls s0).
  { intros items. apply keeps_for_each. intros t.
    apply keeps_calls_publish_item. }
  assert (Hr : forall items s0,
      Review.batch_calls (fst (for_each items (Review.review_item rctx) s0))
      = Review.batch_calls s0).
  { intros items. apply keeps_for_each. intros t.
    apply keeps_calls_review_item. }
  split; [exact Hp |]. split; [| split; [exact Hr |]].
  - unfold Publish.publish, Publish.publish_loop, Publish.flush,
      Publish.sg_batch, Publish.fatal, try_catch, bind, ret, get_state, modify.
    simpl.
    specialize (Hp (Publish.selected_tasks_data pctx)
                  (fst (Publish.init_lists s))).
    destruct (for_each _ _ _) as [s1 [e | []]]; simpl in *.
    + rewrite Hp, app_nil_r. reflexivity.
    + destruct (truthy_list (Publish.batch_data s1)); simpl.
      * destruct (Publish.batch_reply pctx _); simpl; rewrite Hp; reflexivity.
      * rewrite Hp, app_nil_r. reflexivity.
  - unfold Review.update_version, Review.review_loop, Review.flush,
      Review.sg_batch, Review.fatal, try_catch, bind, ret, get_state, modify.
    simpl.
    specialize (Hr (Review.versions rctx)
                  (fst (Review.init_batch (fst (Review.init_report rs))))).
    destruct (for_each _ _ _) as [s1 [e | []]]; simpl in *.
    + rewrite Hr, app_nil_r. reflexivity.
    + destruct (truthy_list (Review.batch_data s1)); simpl.
      * destruct (Review.batch_reply rctx _); simpl; rewrite Hr; reflexivity.
      * rewrite Hr, app_nil_r. reflexivity.
Qed.

(** The part of C1 that the code keeps: an item whose overall status is
    false gets its row with the accumulated message, and nothing of it goes
    to [batch_data]. *)
Lemma failed_item_queues_no_update
    {W} (ctx : Publish.context) (t : task) (entity_data : entity)
    (is_techfix : bool) (next_status : string) (report_dict : row)
    (overall_msg : string) (s : Publish.pstate W) :
  Publish.commit_item ctx t entity_data is_techfix next_status report_dict
    false overall_msg s
  = Publish.append_report (with_reason report_dict overall_msg) s
  /\ Publish.batch_data
       (fst (Publish.commit_item ctx t entity_data is_techfix next_status
               report_dict false overall_msg s))
     = Publish.batch_data s.
Proof. split; reflexivity. Qed.

(** C1. The code at the failing input: task 101 (sh010) has its scene but
    not its mandatory movie, task 102 (sh020) has both. The row of sh010 is
    unsuccessful with the message of the failed copy and no status update
    of task 101 is sent, but the batch that is sent holds the PublishedFile
    create of the scene of sh010, copied before the movie failed. *)
Theorem failed_item_create_reaches_the_batch :
  let ctx := Scenario.publish_context [Scenario.task_a; Scenario.task_b]
               [Scenario.anim_config] (Scenario.the_store [] []) in
  let r := Publish.publish mini_os ctx (Publish.start Scenario.work_area) in
  snd r
  = inr [ {| row_label := "sh010"; row_task := "Animation"; row_success := "NO";
             row_reason := "Source path does not exist." |};
          {| row_label := "sh020"; row_task := "Animation"; row_success := "YES";
             row_reason := "Task is Successfully Published" |} ]
  /\ Publish.batch_calls (fst r)
     = [ [ Update "Task" 102 (Some "pub");
           Create (Scenario.published 101 20 "sh010" "Maya File" "maya" "ma");
           Create (Scenario.published 102 21 "sh020" "Maya File" "maya" "ma");
           Create (Scenario.published 102 21 "sh020" "Mov File" "mov" "mov") ] ].
Proof. vm_compute. split; reflexivity. Qed.

(** The same slip with two tasks that both publish well: the creates of the
    first task are sent twice. *)
Lemma earlier_creates_are_sent_again :
  let ctx := Scenario.publish_context [Scenario.task_b; Scenario.task_c]
               [Scenario.anim_config] (Scenario.the_store [] []) in
  let r := Publish.publish mini_os ctx (Publish.start Scenario.work_area) in
  Publish.batch_calls (fst r)
  = [ [ Update "Task" 102 (Some "pub");
        Create (Scenario.published 102 21 "sh020" "Maya File" "maya" "ma");
        Create (Scenario.published 102 21 "sh020" "Mov File" "mov" "mov");
        Update "Task" 107 (Some "pub");
        Create (Scenario.published 102 21 "sh020" "Maya File" "maya" "ma");
        Create (Scenario.published 102 21 "sh020" "Mov File" "mov" "mov");
        Create (Scenario.published 107 22 "sh030" "Maya File" "maya" "ma");
        Create (Scenario.published 107 22 "sh030" "Mov File" "mov" "mov") ] ].
Proof. vm_compute. reflexivity. Qed.

(** *** The techfix cascade of [Publish.publish] *)

Section TechfixCascade.
Context {W : Type} (os : OS W) (ctx : Publish.context).

(** The query for the other pending techfixes keeps the records that the
    specification describes. *)
Lemma pending_query_is_other_pending (t : task) (from : entity_ref) :
  get_entity_data (st_techfix (Publish.sg ctx))
    [tf_from_is from; tf_task_is_not (task_id t);
     tf_project_is (Publish.project_id ctx);
     tf_status_not_in ["pub"; "omt"; "reject"]]
  = List.filter (Publish.other_pending ctx t from) (st_techfix (Publish.sg ctx)).
Proof.
  unfold get_entity_data. apply List.filter_ext. intros r.
  unfold Publish.other_pending, tf_from_is, tf_task_is_not, tf_project_is,
    tf_status_not_in. simpl.
  destruct (match tf_from r with Some f => same_ref f from | None => false end),
    (bool_decide (tf_task r = Some (task_id t))),
    (bool_decide (tf_project r = Publish.project_id ctx)),
    (str_in (tf_status r) ["pub"; "omt"; "reject"]); reflexivity.
Qed.

(** The asset part of the cascade adds at most one update, of the asset,
    or ends the item with a row. *)
Lemma asset_cascade_cases (t : task) (entity_data : entity) next_status
    report_dict (s : Publish.pstate W) :
  Publish.asset_cascade ctx t entity_data next_status report_dict s = (s, inr true)
  \/ (exists status,
       Publish.asset_cascade ctx t entity_data next_status report_dict s
       = (fst (Publish.extend_batch
                 [Update (ent_type entity_data) (ent_id entity_data) (Some status)] s),
          inr true))
  \/ (exists r,
       Publish.asset_cascade ctx t entity_data next_status report_dict s
       = (fst (Publish.append_report r s), inr false)).
Proof.
  unfold Publish.asset_cascade.
  destruct (negb (str_in (ent_type entity_data) ["Asset"])); [left; reflexivity |].
  repeat match goal with
  | |- context [if ?c then _ else _] => destruct c
  | |- context [match last ?l with _ => _ end] => destruct (last l)
  end;
  first [ left; reflexivity
        | right; left; eexists; reflexivity
        | right; right; eexists; reflexivity ].
Qed.

End TechfixCascade.

(** C2. For a techfix item whose copies succeeded, whose techfix record
    names an originating task in status "tfhl": with N the number of other
    pending techfix records (same originating task, same project, status not
    "pub", "omt" or "reject", not the record of the item's task), the
    cascade queues the update of the techfix record and, exactly when N is
    zero, the update of the originating task to "thdn"; what the item queues
    after that is at most an update of its asset, the update of its own
    task and the published files. *)
Theorem origin_task_advances_iff_no_other_techfix_pending
    {W} (ctx : Publish.context) (t : task) (entity_data : entity)
    (next_status : string) (report_dict : row) (overall_msg : string)
    (s : Publish.pstate W) (record : techfix) (from : entity_ref)
    (from_task : task) :
  last (get_entity_data (st_techfix (Publish.sg ctx))
          [tf_task_is (task_id t); tf_project_is (Publish.project_id ctx)])
    = Some record ->
  tf_from record = Some from ->
  last (get_entity_data (st_tasks (Publish.sg ctx)) [id_is (ref_id from)])
    = Some from_task ->
  task_status from_task = "tfhl" ->
  let N := List.length (List.filter (Publish.other_pending ctx t from)
                     (st_techfix (Publish.sg ctx))) in
  let queued :=
    Update "CustomEntity04" (tf_id record) (Some next_status)
    :: (if bool_decide (N = 0%nat)
        then [Update "Task" (ref_id from) (Some "thdn")] else []) in
  Publish.techfix_cascade ctx t next_status report_dict s
  = (fst (Publish.extend_batch queued s), inr true)
  /\ (In (Update "Task" (ref_id from) (Some "thdn")) queued <-> N = 0%nat)
  /\ exists tail,
      Publish.batch_data
        (fst (Publish.commit_item ctx t entity_data true next_status
                report_dict true overall_msg s))
      = Publish.batch_data s ++ queued ++ tail
      /\ (tail = []
          \/ exists asset_ops,
              tail = asset_ops
                     ++ Update "Task" (task_id t) (Some next_status)
                        :: Publish.publish_batch_data s
              /\ (asset_ops = []
                  \/ exists status,
                      asset_ops = [Update (ent_type entity_data)
                                     (ent_id entity_data) (Some status)])).
Proof.
  intros Hrec Hfrom Htask Hst N queued.
  assert (Hcascade :
    Publish.techfix_cascade ctx t next_status report_dict s
    = (fst (Publish.extend_batch queued s), inr true)).
  { unfold Publish.techfix_cascade. rewrite Hrec.
    unfold bind at 1. simpl Publish.extend_batch at 1.
    unfold Publish.extend_batch at 1, modify at 1. rewrite Hfrom, Htask.
    unfold bind at 1, ret at 1. rewrite Hst.
    change (str_in "tfhl" ["tfhl"]) with true. cbv iota.
    rewrite pending_query_is_other_pending.
    subst queued N.
    destruct (List.filter _ _) as [| x l]; simpl;
      unfold bind, ret, Publish.extend_batch, modify; simpl;
      [rewrite <- app_assoc |]; reflexivity. }
  split; [exact Hcascade |].
  split.
  { subst queued. simpl. destruct (bool_decide_reflect (N = 0%nat)) as [H0 | H0].
    - split; [intros _; exact H0 | intros _; right; left; reflexivity].
    - split; [| intros H; contradiction].
      intros [H | []]. discriminate H. }
  unfold Publish.commit_item. unfold bind at 1. rewrite Hcascade.
  change (negb true) with false. cbv iota.
  set (s1 := fst (Publish.extend_batch queued s)).
  unfold bind at 1. cbv beta.
  destruct (asset_cascade_cases ctx t entity_data next_status report_dict s1)
    as [H | [[status H] | [r H]]]; rewrite H; simpl.
  - exists (Update "Task" (task_id t) (Some next_status)
            :: Publish.publish_batch_data s).
    split.
    + subst s1. simpl. rewrite <- ?app_assoc. reflexivity.
    + right. exists []. split; [reflexivity | left; reflexivity].
  - exists ([Update (ent_type entity_data) (ent_id entity_data) (Some status)]
            ++ Update "Task" (task_id t) (Some next_status)
               :: Publish.publish_batch_data s).
    split.
    + subst s1. simpl. rewrite <- ?app_assoc. reflexivity.
    + right. eexists. split; [reflexivity | right; eexists; reflexivity].
  - exists []. split; [| left; reflexivity].
    subst s1. simpl. rewrite app_nil_r. reflexivity.
Qed.

(** C2 at the techfix task 104 raised from task 200: with no other pending
    record the originating task is advanced, with three it is not. *)
Lemma origin_task_advances_iff_no_other_techfix_pending_witness :
  let ctx n := Scenario.publish_context [Scenario.task_fix]
                 [Scenario.lead_review_config] (Scenario.techfix_store n) in
  let s := Publish.start Scenario.work_area in
  Publish.techfix_cascade (ctx 0%nat) Scenario.task_fix "pub"
    (Publish.initial_row Scenario.task_fix) s
  = (fst (Publish.extend_batch
            [Update "CustomEntity04" 501 (Some "pub");
             Update "Task" 200 (Some "thdn")] s), inr true)
  /\ Publish.techfix_cascade (ctx 3%nat) Scenario.task_fix "pub"
       (Publish.initial_row Scenario.task_fix) s
     = (fst (Publish.extend_batch
               [Update "CustomEntity04" 501 (Some "pub")] s), inr true).
Proof.
  intros ctx s. split.
  - exact (proj1 (origin_task_advances_iff_no_other_techfix_pending
      (ctx 0%nat) Scenario.task_fix (Scenario.shot 21 "sh020") "pub"
      (Publish.initial_row Scenario.task_fix) "" s
      Scenario.own_record Scenario.origin_ref Scenario.origin_task
      eq_refl eq_refl eq_refl eq_refl)).
  - exact (proj1 (origin_task_advances_iff_no_other_techfix_pending
      (ctx 3%nat) Scenario.task_fix (Scenario.shot 21 "sh020") "pub"
      (Publish.initial_row Scenario.task_fix) "" s
      Scenario.own_record Scenario.origin_ref Scenario.origin_task
      eq_refl eq_refl eq_refl eq_refl)).
Defined.

(** Whole runs of [Publish.publish] on the techfix task 104 with 0, 1 and 3
    other pending techfix records: the batch that is sent. *)
Lemma techfix_runs :
  let sent n :=
    Publish.batch_calls
      (fst (Publish.publish mini_os
              (Scenario.publish_context [Scenario.task_fix]
                 [Scenario.lead_review_config] (Scenario.techfix_store n))
              (Publish.start Scenario.work_area))) in
  let files :=
    [ Create (Scenario.published 104 21 "sh020" "Maya File" "maya" "ma");
      Create (Scenario.published 104 21 "sh020" "Mov File" "mov" "mov") ] in
  sent 0%nat
  = [ Update "CustomEntity04" 501 (Some "pub")
      :: Update "Task" 200 (Some "thdn")
      :: Update "Task" 104 (Some "pub") :: files ]
  /\ sent 1%nat
     = [ Update "CustomEntity04" 501 (Some "pub")
         :: Update "Task" 104 (Some "pub") :: files ]
  /\ sent 3%nat
     = [ Update "CustomEntity04" 501 (Some "pub")
         :: Update "Task" 104 (Some "pub") :: files ].
Proof. vm_compute. repeat split; reflexivity. Qed.

(** *** Authorization in [Review.update_version] *)

Section ReviewAuthorization.
Context (ctx : Review.context).

Lemma review_item_at_authorization (version_id : Z) (ver : version) (t : task)
    (m : gmap string string) (s : Review.rstate) :
  Review.reaches_authorization ctx ver t m ->
  Review.review_item ctx (version_id, ver) s
  = Review.review_authorized ctx version_id ver t m (Review.initial_row ver t) s.
Proof.
  intros (Ht & cfg & sc & msg & Hcfg & Hsc & Htruthy & Hact & Hval).
  unfold Review.review_item. rewrite Ht, Hcfg.
  unfold Review.review_configured. rewrite Hsc.
  unfold bind at 1, ret at 1. rewrite Htruthy. simpl negb. cbv iota.
  unfold subscript. rewrite Hact. unfold bind at 1, ret at 1.
  rewrite Hval. reflexivity.
Qed.

(** The part of C3 that the code keeps. At the authorization of the user
    for a version and its task, where the conditions of the two paths can
    be evaluated: when the condition of the lead path holds, the verdict is
    that of the checks of the lead path alone (the task status against
    validLeadStatus, then
    the version status against validLeadVerStatus), whether or not the
    condition of the supervisor path holds as well; the checks of the
    supervisor path give the verdict only when the lead condition is false
    and the supervisor condition holds; when both are false the verdict is
    the not-authorized reason. A refusal is the row of the item and nothing
    else; and this authorization is what the loop body runs for a version
    that is past the configuration and role-assignment checks. *)
Theorem lead_path_is_evaluated_first (version_id : Z) (ver : version) (t : task)
    (m : gmap string string) (report_dict : row) (s : Review.rstate) :
  let u := Review.current_user ctx in
  let cfg := Review.config_data ctx in
  let deny reason := Review.append_report (with_reason report_dict reason) s in
  let go_on := Review.review_commit ctx version_id t m report_dict s in
  let decided := Review.review_authorized ctx version_id ver t m report_dict s in
  (Review.lead_path u t = inr true ->
   Review.authorize ctx t (ver_status ver)
   = inr (Review.lead_checks ctx t (ver_status ver))
   /\ decided
      = if negb (str_in (task_status t) (valid_lead_status cfg))
        then deny "Task status is not valid for the Lead review"
        else if negb (str_in (ver_status ver) (valid_lead_ver_status cfg))
        then deny "Version status is not valid for the Lead review"
        else go_on)
  /\ (Review.lead_path u t = inr false ->
      Review.supervisor_path u t = inr true ->
      Review.authorize ctx t (ver_status ver)
      = inr (Review.supervisor_checks ctx t (ver_status ver))
      /\ decided
         = if negb (str_in (task_status t) (valid_sup_status cfg))
           then deny "Task status is not valid for the Supervisor review"
           else if negb (str_in (ver_status ver) (valid_sup_ver_status cfg))
           then deny "Version status is not valid for the Supervisor review"
           else go_on)
  /\ (Review.lead_path u t = inr false ->
      Review.supervisor_path u t = inr false ->
      Review.authorize ctx t (ver_status ver)
      = inr (Review.Denied
               ("User is not valid to review the task, "
                +:+ "Please check the Team Lead or Supervisor field and update accordingly!!"))
      /\ decided
         = deny ("User is not valid to review the task, "
                 +:+ "Please check the Team Lead or Supervisor field and update accordingly!!"))
  /\ (Review.reaches_authorization ctx ver t m ->
      Review.review_item ctx (version_id, ver) s
      = Review.review_authorized ctx version_id ver t m
          (Review.initial_row ver t) s).
Proof.
  intros u cfg deny go_on decided.
  subst decided. unfold Review.review_authorized, Review.authorize, bind, lift.
  fold u.
  split; [| split; [| split]].
  - intros Hl. rewrite Hl. split; [reflexivity |].
    unfold Review.lead_checks. fold cfg.
    destruct (negb (str_in (task_status t) (valid_lead_status cfg)));
      [reflexivity |].
    destruct (negb (str_in (ver_status ver) (valid_lead_ver_status cfg)));
      reflexivity.
  - intros Hl Hs. rewrite Hl, Hs. split; [reflexivity |].
    unfold Review.supervisor_checks. fold cfg.
    destruct (negb (str_in (task_status t) (valid_sup_status cfg)));
      [reflexivity |].
    destruct (negb (str_in (ver_status ver) (valid_sup_ver_status cfg)));
      reflexivity.
  - intros Hl Hs. rewrite Hl, Hs. split; reflexivity.
  - apply review_item_at_authorization.
Qed.

End ReviewAuthorization.

(** The precedence at a user who is the team lead and, as a lead, also the supervisor
    of the task: the task status "apr" is valid for the supervisor review,
    not for the lead review, and the row says so for the lead. *)
Lemma lead_path_is_evaluated_first_witness :
  let t := {| task_id := 110; task_project := "Demo";
              task_link := {| ref_type := "Shot"; ref_id := 21; ref_name := "sh020" |};
              task_step := "Animation"; task_status := "tlapr";
              task_name := "Animation"; task_split_type := None;
              task_team_lead := Some 7; task_supervisor := Some 7;
              task_client_version := None |} in
  let ver := Scenario.version_of 1 110 "tlapr" in
  let ctx := Scenario.review_context [(1, ver)] [t] [Scenario.anim_config]
               (Scenario.the_store [] []) Scenario.the_lead in
  Review.lead_path Scenario.the_lead t = inr true
  /\ Review.supervisor_path Scenario.the_lead t = inr true
  /\ Review.supervisor_checks ctx t "tlapr" = Review.Allowed
  /\ Review.review_item ctx (1, ver) Review.start
     = Review.append_report
         {| row_label := "v1"; row_task := "Animation"; row_success := "NO";
            row_reason := "Task status is not valid for the Lead review" |}
         Review.start.
Proof.
  intros t ver ctx.
  split; [reflexivity |]. split; [reflexivity |]. split; [reflexivity |].
  destruct (lead_path_is_evaluated_first ctx 1 ver t {["apr" := "pub"]}
              (Review.initial_row ver t) Review.start)
    as (Hlead & _ & _ & Hitem).
  rewrite Hitem.
  - exact (proj2 (Hlead eq_refl)).
  - split; [reflexivity |].
    exists Scenario.anim_config,
      (<["publish" := {["apr" := "pub"]}]> {["approve" := {["apr" := "pub"]}]}), "".
    repeat split; reflexivity.
Defined.

(** Where a condition cannot be evaluated: it reads the link of the task
    only when the role of the user is in its list, and an empty link raises
    there. The supervisor condition is read only when the lead condition is
    false. *)
Lemma empty_link_raises_in_authorize (ctx : Review.context) (t : task)
    (ver_status : string) :
  let u := Review.current_user ctx in
  (str_in (Review.user_role u) ["Lead"; "Team Lead"; "Admin"; "Manager"] = true ->
   task_team_lead t = None ->
   Review.authorize ctx t ver_status
   = inl "TypeError: 'NoneType' object is not subscriptable")
  /\ (Review.lead_path u t = inr false ->
      str_in (Review.user_role u)
        ["Supervisor"; "Admin"; "Team Lead"; "Lead"; "Manager"] = true ->
      task_supervisor t = None ->
      Review.authorize ctx t ver_status
      = inl "TypeError: 'NoneType' object is not subscriptable").
Proof.
  intros u. unfold Review.authorize. fold u. split.
  - intros Hrole Hlink. unfold Review.lead_path. rewrite Hrole, Hlink. reflexivity.
  - intros Hlead Hrole Hlink. rewrite Hlead.
    unfold Review.supervisor_path. rewrite Hrole, Hlink. reflexivity.
Qed.

(** C3. The code at the failing input: a user of role Lead reviews two
    versions; he is the team lead of the task of the first one, and the
    task of the second one has another team lead and an empty Supervisor
    field. For the second task neither condition holds (the lead condition
    is false, the supervisor condition has no supervisor to compare with),
    but the item is not denied with the not-authorized reason: reading the
    empty link raises, the report is the single row of the exception, and
    the updates queued for the first version are never sent. *)
Theorem empty_supervisor_link_aborts_review :
  let ver1 := Scenario.version_of 1 109 "rev" in
  let ver2 := Scenario.version_of 2 110 "rev" in
  let ctx := Scenario.review_context [(1, ver1); (2, ver2)]
               [Scenario.task_in_review; Cases.task_unsupervised]
               [Cases.review_config] (Scenario.the_store [] [])
               Scenario.the_lead in
  let r := Review.update_version ctx Review.start in
  Review.lead_path Scenario.the_lead Cases.task_unsupervised = inr false
  /\ Review.supervisor_path Scenario.the_lead Cases.task_unsupervised
     = inl "TypeError: 'NoneType' object is not subscriptable"
  /\ snd r = inr [fatal_row "TypeError: 'NoneType' object is not subscriptable"]
  /\ Review.batch_data (fst r)
     = [Update "Task" 109 (Some "tlapr"); Update "Version" 1 (Some "tlapr")]
  /\ Review.batch_calls (fst r) = [].
Proof. vm_compute. repeat split; reflexivity. Qed.

(** *** The status map on the review path *)

(** C10, counterexample. A version of a techfix task that passes the
    role-assignment check and the lead checks, whose status "rev" is not a
    key of the status map of the action, and whose techfix record is not in
    the store: the row has Success "NO" and no update is queued. *)
Lemma review_status_counterexample :
  let ver := Scenario.version_of 1 108 "rev" in
  let ctx := Scenario.review_context [(1, ver)] [Scenario.task_fix_in_review]
               [Scenario.anim_config] (Scenario.the_store [] [])
               Scenario.the_lead in
  let r := Review.update_version ctx Review.start in
  Review.reaches_authorization ctx ver Scenario.task_fix_in_review
    {["apr" := "pub"]}
  /\ Review.authorize ctx Scenario.task_fix_in_review "rev" = inr Review.Allowed
  /\ ({["apr" := "pub"]} : gmap string string) !! "rev" = None
  /\ snd r
     = inr [ {| row_label := "v1"; row_task := "Animation"; row_success := "NO";
                row_reason :=
                  "Selected Task TechFixData Record is not available in SG" |} ]
  /\ Review.batch_data (fst r) = []
  /\ Review.batch_calls (fst r) = [].
Proof.
  intros ver ctx r. split.
  { split; [reflexivity |].
    exists Scenario.anim_config,
      (<["publish" := {["apr" := "pub"]}]> {["approve" := {["apr" := "pub"]}]}), "".
    repeat split; reflexivity. }
  vm_compute. repeat split; reflexivity.
Qed.

(** C10, amended. For a version that passes the role-assignment check and
    the lead or supervisor checks, whose task status is not a key of the
    status map of the action: no status-invalid failure occurs. When the
    task is not a techfix task, or its techfix record is found, the row has
    Success "YES" and the updates of the Task and of the Version (and of the
    techfix record) are queued with the status value [None]. When the task
    is a techfix task without a techfix record, the row has Success "NO"
    with that reason and nothing is queued. *)
Theorem review_does_not_validate_current_status
    (ctx : Review.context) (version_id : Z) (ver : version) (t : task)
    (m : gmap string string) (s : Review.rstate) :
  Review.reaches_authorization ctx ver t m ->
  Review.authorize ctx t (ver_status ver) = inr Review.Allowed ->
  m !! task_status t = None ->
  let records :=
    get_entity_data (st_techfix (Review.sg ctx))
      [tf_task_is (task_id t); tf_project_is (Review.project_id ctx)] in
  let yes :=
    {| row_label := ver_name ver; row_task := task_step t;
       row_success := "YES"; row_reason := "" |} in
  let updates :=
    [Update "Task" (task_id t) None; Update "Version" version_id None] in
  (is_techfix_name (task_name t) = false ->
   Review.review_item ctx (version_id, ver) s
   = Review.append_report yes (fst (Review.extend_batch updates s)))
  /\ (forall record,
      is_techfix_name (task_name t) = true ->
      last records = Some record ->
      Review.review_item ctx (version_id, ver) s
      = Review.append_report yes
          (fst (Review.extend_batch
                  (Update "CustomEntity04" (tf_id record) None :: updates) s)))
  /\ (is_techfix_name (task_name t) = true ->
      last records = None ->
      Review.review_item ctx (version_id, ver) s
      = Review.append_report
          {| row_label := ver_name ver; row_task := task_step t;
             row_success := "NO";
             row_reason :=
               "Selected Task TechFixData Record is not available in SG" |} s).
Proof.
  intros Hreach Hauth Hnone records yes updates.
  rewrite (review_item_at_authorization ctx version_id ver t m s Hreach).
  unfold Review.review_authorized, bind at 1, lift. rewrite Hauth.
  unfold raise, ret. cbv beta iota.
  unfold Review.review_commit. rewrite Hnone. fold records.
  split; [| split].
  - intros Htf. rewrite Htf.
    unfold bind, ret, Review.extend_batch, Review.append_report, modify. simpl.
    rewrite <- app_assoc. reflexivity.
  - intros record Htf Hrec. rewrite Htf, Hrec.
    unfold bind, ret, Review.extend_batch, Review.append_report, modify. simpl.
    rewrite <- !app_assoc. reflexivity.
  - intros Htf Hrec. rewrite Htf, Hrec. reflexivity.
Qed.

(** C10 at a version of a task that is not a techfix task, reviewed by its
    team lead. *)
Lemma review_does_not_validate_current_status_witness :
  let ver := Scenario.version_of 1 109 "rev" in
  let ctx := Scenario.review_context [(1, ver)] [Scenario.task_in_review]
               [Scenario.anim_config] (Scenario.the_store [] [])
               Scenario.the_lead in
  Review.review_item ctx (1, ver) Review.start
  = Review.append_report
      {| row_label := "v1"; row_task := "Animation"; row_success := "YES";
         row_reason := "" |}
      (fst (Review.extend_batch
              [Update "Task" 109 None; Update "Version" 1 None] Review.start)).
Proof.
  intros ver ctx.
  refine (proj1 (review_does_not_validate_current_status ctx 1 ver
                   Scenario.task_in_review {["apr" := "pub"]} Review.start
                   _ eq_refl eq_refl) eq_refl).
  split; [reflexivity |].
  exists Scenario.anim_config,
    (<["publish" := {["apr" := "pub"]}]> {["approve" := {["apr" := "pub"]}]}), "".
  repeat split; reflexivity.
Defined.

(** * Further properties of the code *)

(** ** sg_file_operations.copy: what it leaves alone and in what order it
    calls *)

Section CopyOrder.
Context {W : Type} (os : OS W).

Ltac run_copy :=
  rewrite copy_unfold;
  unfold copy_body, copy_existing, copy_fresh, copy_file, copy_tree,
    fail_with, get_frame, query, effect, set_status, set_msg,
    set_original_mode, set_frame, modify, get_state, bind, ret, raise,
    entered, handled.

(** X1. With [overwrite=False], a destination that exists is refused before
    anything is touched: the answer is [False] with the message of the
    refusal, the file system is as it was and no call is logged. *)
Theorem existing_destination_is_refused_untouched
    source destination ignores metadata (s : cstate W) src dst :
  os_unc os source (world s) = inr src ->
  os_unc os destination (world s) = inr dst ->
  os_exists os src (world s) = inr true ->
  os_exists os dst (world s) = inr true ->
  let r := copy os source destination ignores false metadata s in
  snd r = inr (Some (false, "Destination already exists. Overwrite is set to False."))
  /\ world (fst r) = world s
  /\ trace (fst r) = trace s.
Proof.
  intros Hs Hd Hes Hed. run_copy. simpl.
  rewrite Hs, Hd. simpl. rewrite Hes. simpl. rewrite Hed. simpl.
  repeat split.
Qed.

(** X3. A folder copied over an existing writable destination: the
    destination is removed first, and when the copy of the tree then raises,
    [copy] answers [False] with that error while the destination stays
    removed (the calls logged are the successful [rmtree] and the failed
    [copytree]; nothing puts the old content back). *)
Theorem failed_tree_copy_leaves_destination_removed
    source destination ignores metadata (s : cstate W) src dst w1 w2 e :
  os_unc os source (world s) = inr src ->
  os_unc os destination (world s) = inr dst ->
  os_exists os src (world s) = inr true ->
  os_exists os dst (world s) = inr true ->
  os_access_w os dst (world s) = inr true ->
  os_is_file os src (world s) = inr false ->
  os_rmtree os dst (world s) = (w1, None) ->
  os_copytree os src dst (ignore_func ignores) w1 = (w2, Some e) ->
  let r := copy os source destination ignores true metadata s in
  snd r = inr (Some (false, e))
  /\ world (fst r) = w2
  /\ trace (fst r)
     = trace s ++ [Ev (Rmtree dst) None;
                   Ev (Copytree src dst (ignore_func ignores)) (Some e)].
Proof.
  intros Hs Hd Hes Hed Hw Hf Hrm Hct. run_copy. simpl.
  rewrite Hs, Hd. simpl. rewrite Hes. simpl. rewrite Hed. simpl.
  rewrite Hw. simpl. rewrite Hf. simpl. rewrite Hrm. simpl. rewrite Hct. simpl.
  rewrite <- app_assoc. repeat split.
Qed.

(** X4. A file copied to a destination that does not exist: the folder is
    made first, the parent of the destination when the destination has a
    suffix and the destination itself when it has none; the file is copied
    only if that succeeded, and the answer is [True] only if both did. *)
Theorem fresh_destination_folder_is_made_first
    source destination ignores overwrite metadata (s : cstate W)
    src dst w1 r1 w2 r2 :
  os_unc os source (world s) = inr src ->
  os_unc os destination (world s) = inr dst ->
  os_exists os src (world s) = inr true ->
  os_exists os dst (world s) = inr false ->
  os_is_file os src (world s) = inr true ->
  let folder := if truthy_str (os_suffix os dst) then os_parent os dst else dst in
  os_mkdir os folder (world s) = (w1, r1) ->
  os_copy os metadata src dst w1 = (w2, r2) ->
  let r := copy os source destination ignores overwrite metadata s in
  trace (fst r)
  = trace s ++ Ev (Mkdir folder) r1
               :: match r1 with
                  | None => [Ev (CopyFile metadata src dst) r2]
                  | Some _ => []
                  end
  /\ snd r
     = inr (Some match r1, r2 with
                 | None, None => (true, "")
                 | None, Some e => (false, e)
                 | Some e, _ => (false, e)
                 end).
Proof.
  intros Hs Hd Hes Hed Hf folder Hmk Hc. run_copy. simpl.
  rewrite Hs, Hd. simpl. rewrite Hes. simpl. rewrite Hed. simpl.
  rewrite Hf. simpl. subst folder.
  destruct (truthy_str (os_suffix os dst)); simpl; rewrite Hmk;
    destruct r1 as [e1 |]; simpl; try (split; reflexivity);
    rewrite Hc; destruct r2 as [e2 |]; simpl; rewrite <- app_assoc;
    split; reflexivity.
Qed.

End CopyOrder.

Section CopyLog.
Context {W : Type} (os : OS W).

Ltac split_cases :=
  repeat (simpl in *;
    match goal with
    | H : (_, _) = (_, _) |- _ => inversion H; subst; clear H
    | H : str_in "originalMode" (locals _) = true |- _ =>
        rewrite originalMode_not_in_locals in H; discriminate H
    | H : context [match ?x with _ => _ end] |- _ => destruct x eqn:?
    | H : context [if ?x then _ else _] |- _ => destruct x eqn:?
    | H : context [let '(_, _) := ?x in _] |- _ => destruct x eqn:?
    end).

Lemma copy_body_log source destination ignores overwrite metadata
    (s s' : cstate W) r :
  copy_body os source destination ignores overwrite metadata s = (s', r) ->
  exists calls,
    trace s' = trace s ++ calls
    /\ Forall (fun ev => ev_error ev = None) (removelast calls)
    /\ match r with
       | inr _ => Forall (fun ev => ev_error ev = None) calls
       | inl _ => True
       end.
Proof.
  intros H.
  unfold copy_body, copy_existing, copy_fresh, copy_file, copy_tree,
    fail_with, get_frame, query, effect, set_status, set_msg,
    set_original_mode, set_frame, modify, get_state, bind, ret, raise in H.
  split_cases; try discriminate;
    first
      [ exists []; rewrite app_nil_r; repeat split; constructor
      | rewrite <- ?app_assoc; simpl; eexists; split; [reflexivity |];
        split; simpl; repeat constructor ].
Qed.

(** X2. Whatever the operating system does, [copy] stops at the first call
    that raises: of the calls it logs, every one but the last returned
    without error, and when it answers [True] the last one did too. *)
Theorem copy_stops_at_the_first_failed_call
    source destination ignores overwrite metadata (s : cstate W) :
  let r := copy os source destination ignores overwrite metadata s in
  exists calls,
    trace (fst r) = trace s ++ calls
    /\ Forall (fun ev => ev_error ev = None) (removelast calls)
    /\ match snd r with
       | inr (Some (true, _)) => Forall (fun ev => ev_error ev = None) calls
       | _ => True
       end.
Proof.
  cbv zeta. rewrite copy_unfold.
  destruct (copy_body _ _ _ _ _ _ _) as [s1 res] eqn:Hb.
  pose proof (copy_body_log _ _ _ _ _ _ _ _ Hb) as (calls & Ht & Hinit & Hall).
  assert (Hfresh : status (fr (entered s)) = false) by reflexivity.
  pose proof (copy_body_outcome os _ _ _ _ _ _ _ _ Hfresh Hb) as Hout.
  exists calls. destruct res as [e | u]; simpl in *.
  - rewrite Hout. repeat split; assumption.
  - destruct Hout as [[Hst _] _]. rewrite Hst. repeat split; assumption.
Qed.

End CopyLog.

(** X1 on the small file system. *)
Lemma existing_destination_is_refused_untouched_witness :
  let r := copy mini_os "/work/a.ma" "/pub/a.ma" (Some []) false true
             (start Scenario.read_only_publish) in
  snd r = inr (Some (false, "Destination already exists. Overwrite is set to False."))
  /\ world (fst r) = Scenario.read_only_publish
  /\ trace (fst r) = [].
Proof.
  exact (existing_destination_is_refused_untouched mini_os
           "/work/a.ma" "/pub/a.ma" (Some []) true
           (start Scenario.read_only_publish) "/work/a.ma" "/pub/a.ma"
           eq_refl eq_refl eq_refl eq_refl).
Defined.

(** X3 on the small file system: a folder copied onto the folder that holds
    it is removed with it. *)
Lemma failed_tree_copy_leaves_destination_removed_witness :
  let r := copy mini_os "/pub/a/sub" "/pub/a" (Some []) true true
             (start Cases.nested) in
  snd r = inr (Some (false, "FileNotFoundError"))
  /\ world (fst r) !! "/pub/a" = None
  /\ world (fst r) !! "/pub/a/sub/x.txt" = None.
Proof.
  destruct (failed_tree_copy_leaves_destination_removed mini_os
              "/pub/a/sub" "/pub/a" (Some []) true (start Cases.nested)
              "/pub/a/sub" "/pub/a"
              (fst (os_rmtree mini_os "/pub/a" Cases.nested))
              (fst (os_rmtree mini_os "/pub/a" Cases.nested))
              "FileNotFoundError"
              eq_refl eq_refl eq_refl eq_refl eq_refl eq_refl eq_refl eq_refl)
    as (Hr & Hw & _).
  split; [exact Hr |]. rewrite Hw. split; reflexivity.
Defined.

(** X4 on the small file system: the destination has the suffix ".ma", so
    its parent folder is made. *)
Lemma fresh_destination_folder_is_made_first_witness :
  let r := copy mini_os "/work/maya/sh010.ma" "/pub/maya/sh010.ma" (Some [])
             true true (start Scenario.work_area) in
  trace (fst r)
  = [Ev (Mkdir "/pub/maya") None;
     Ev (CopyFile true "/work/maya/sh010.ma" "/pub/maya/sh010.ma") None]
  /\ snd r = inr (Some (true, "")).
Proof.
  exact (fresh_destination_folder_is_made_first mini_os
           "/work/maya/sh010.ma" "/pub/maya/sh010.ma" (Some []) true true
           (start Scenario.work_area)
           "/work/maya/sh010.ma" "/pub/maya/sh010.ma"
           (<["/pub/maya" := Dir 511]> Scenario.work_area) None
           (<["/pub/maya/sh010.ma" := File 438 "scene 010"]>
              (<["/pub/maya" := Dir 511]> Scenario.work_area)) None
           eq_refl eq_refl eq_refl eq_refl eq_refl eq_refl eq_refl).
Defined.

(** ** Publish.publish: the checks before the copies *)

Section PublishGates.
Context {W : Type} (os : OS W) (ctx : Publish.context).

Lemma publish_item_at_config (t : task) (entity_data : entity)
    (task_config : transition_config) (s : Publish.pstate W) :
  last (Publish.find_entity ctx t) = Some entity_data ->
  last (matching_configs (Publish.task_config_data ctx) t) = Some task_config ->
  Publish.publish_item os ctx t s
  = Publish.publish_configured os ctx t entity_data task_config
      (Publish.initial_row t) s.
Proof.
  intros He Hc. unfold Publish.publish_item. rewrite He, Hc. reflexivity.
Qed.

Lemma literal_eval_if_value {A} (field : literal A) (s : Publish.pstate W) :
  field <> LitBad ->
  Publish.literal_eval_if field s = (s, inr (lit_value field)).
Proof. destruct field; intros H; try congruence; reflexivity. Qed.

(** X5. The two configuration fields of the matched record are evaluated
    before anything is tested. When both evaluate (each is empty or a
    literal) and, outside the client-QC steps, the status configuration or
    the file configuration is empty ([None], an empty string or an empty
    dict), the item is reported with the empty-configuration reason; nothing
    is queued and no file is touched. When one of the two fields is not a
    literal, the evaluation raises and the item gets no row, also when the
    other field is empty and whatever the step is. *)
Theorem empty_configuration_is_reported
    (t : task) (entity_data : entity) (task_config : transition_config)
    (s : Publish.pstate W) :
  last (Publish.find_entity ctx t) = Some entity_data ->
  last (matching_configs (Publish.task_config_data ctx) t) = Some task_config ->
  (str_in (task_step t) (client_qc_steps (Publish.config_data ctx)) = false ->
   cfg_status_config task_config <> LitBad ->
   cfg_file_config task_config <> LitBad ->
   truthy_dict (lit_value (cfg_status_config task_config)) = false
   \/ truthy_dict (lit_value (cfg_file_config task_config)) = false ->
   Publish.publish_item os ctx t s
   = ({| Publish.fs := Publish.fs s;
         Publish.report_list :=
           Publish.report_list s
           ++ [ {| row_label := ref_name (task_link t); row_task := task_step t;
                   row_success := "NO";
                   row_reason :=
                     "Shotgrid Config is Empty for this Task, Please check with SG Team" |} ];
         Publish.batch_data := Publish.batch_data s;
         Publish.publish_batch_data := Publish.publish_batch_data s;
         Publish.batch_calls := Publish.batch_calls s |}, inr tt))
  /\ (cfg_status_config task_config = LitBad
      \/ cfg_file_config task_config = LitBad ->
      Publish.publish_item os ctx t s
      = (s, inl "ValueError: malformed node or string")).
Proof.
  intros He Hc.
  rewrite (publish_item_at_config t entity_data task_config s He Hc).
  split.
  - intros Hstep Hsb Hfb Hempty.
    unfold Publish.publish_configured, bind.
    rewrite (literal_eval_if_value _ s Hsb), (literal_eval_if_value _ s Hfb).
    rewrite Hstep.
    assert (Hgate :
      negb false
      && (negb (truthy_dict (lit_value (cfg_status_config task_config)))
          || negb (truthy_dict (lit_value (cfg_file_config task_config)))) = true).
    { destruct Hempty as [H | H]; rewrite H; [reflexivity |].
      rewrite orb_true_r. reflexivity. }
    rewrite Hgate. reflexivity.
  - intros Hbad. unfold Publish.publish_configured, bind.
    destruct (cfg_status_config task_config) as [| | sc] eqn:Hs;
      [| reflexivity |];
      (destruct Hbad as [Hbad | Hbad]; [discriminate Hbad |]);
      rewrite Hbad; reflexivity.
Qed.


(** X7. An item whose role assignments are not valid is reported with the
    message of the validation; nothing is queued, no source path is built
    and no file is touched. *)
Theorem invalid_role_assignment_is_reported
    (t : task) (entity_data : entity) (task_config : transition_config)
    (sc : gmap string (gmap string string)) (m : gmap string string)
    (msg : string) (s : Publish.pstate W) :
  last (Publish.find_entity ctx t) = Some entity_data ->
  last (matching_configs (Publish.task_config_data ctx) t) = Some task_config ->
  Publish.reaches_status_check ctx t task_config sc m ->
  str_in (task_step t) (client_qc_steps (Publish.config_data ctx)) = true
  \/ is_Some (Publish.override_status_config (is_techfix_name (task_name t))
                (cfg_qc_process task_config) m !! task_status t) ->
  Publish.validate_role_assignments ctx t (valid_roles (Publish.config_data ctx))
    = inr (false, msg) ->
  Publish.publish_item os ctx t s
  = ({| Publish.fs := Publish.fs s;
        Publish.report_list :=
          Publish.report_list s
          ++ [ {| row_label := ref_name (task_link t); row_task := task_step t;
                  row_success := "NO"; row_reason := msg |} ];
        Publish.batch_data := Publish.batch_data s;
        Publish.publish_batch_data := Publish.publish_batch_data s;
        Publish.batch_calls := Publish.batch_calls s |}, inr tt).
Proof.
  intros He Hc Hreach Hpass Hval.
  rewrite (publish_item_at_config t entity_data task_config s He Hc).
  rewrite (publish_configured_status_check os ctx t entity_data task_config
             (Publish.initial_row t) sc m s Hreach).
  cbv zeta.
  assert (Hgate :
    negb (str_in (task_step t) (client_qc_steps (Publish.config_data ctx)))
    && negb (bool_decide (is_Some
         (Publish.override_status_config (is_techfix_name (task_name t))
            (cfg_qc_process task_config) m !! task_status t))) = false).
  { destruct Hpass as [H | H].
    - rewrite H. reflexivity.
    - rewrite (bool_decide_eq_true_2 _ H). apply andb_false_r. }
  rewrite Hgate. unfold Publish.publish_checked. rewrite Hval. reflexivity.
Qed.

End PublishGates.

(** ** Publish.publish: the loop over the slots *)

Section PublishSlots.
Context {W : Type} (os : OS W) (ctx : Publish.context).

(** X8. A slot without work-area template is skipped, and so is a slot that
    is not mandatory and whose source does not exist (or cannot be tested):
    the status and message of the item and the whole state stay as they
    were, no file is copied and no PublishedFile is prepared. *)
Theorem optional_slot_without_source_is_skipped
    (t : task) (entity_data : entity) (task_config : transition_config)
    (acc : bool * string) (each : string) (sl : slot)
    (template source : string) (s : Publish.pstate W) :
  truthy_str (slot_workarea sl) = false
  \/ (cfg_templates task_config !! slot_workarea sl = Some template
      /\ Publish.build_template_path ctx template
           (Publish.search_extension (slot_filter sl)) t entity_data = inr source
      /\ os_exists os source (world (Publish.fs s)) <> inr true
      /\ slot_mandatory sl = false) ->
  Publish.copy_slot os ctx t entity_data task_config acc (each, sl) s
  = (s, inr acc).
Proof.
  intros [Hw | (Htpl & Hsrc & Hex & Hman)]; unfold Publish.copy_slot.
  - rewrite Hw. reflexivity.
  - destruct (truthy_str (slot_workarea sl)); [| reflexivity].
    cbn [negb]. unfold Publish.template_of, bind. rewrite Htpl.
    unfold ret at 1. rewrite Hsrc. cbn [lift]. unfold ret at 1.
    unfold Publish.path_exists, Publish.on_fs.
    destruct s as [c rl bd pbd bc]. cbn [Publish.fs] in *.
    rewrite Hman.
    destruct (os_exists os source (world c)) as [e | [|]]; try congruence;
      reflexivity.
Qed.

Lemma copy_tag_stays_false (t : task) (entity_data : entity)
    (task_config : transition_config) (each : string) (sl : slot)
    (extension source : string) (msg : string) (each_tag : string)
    (s s' : Publish.pstate W) (st : bool) (m : string) :
  Publish.copy_tag os ctx t entity_data task_config each sl extension source
    (false, msg) each_tag s = (s', inr (st, m)) ->
  st = false.
Proof.
  unfold Publish.copy_tag, Publish.template_of, Publish.get_published_file_data,
    Publish.append_publish, Publish.path_isfile, Publish.on_fs, lift, modify,
    bind, ret, raise.
  intros H.
  repeat match type of H with
  | context [match ?x with _ => _ end] => destruct x eqn:?; cbn [negb andb] in H
  | context [if ?x then _ else _] => destruct x eqn:?; cbn [negb andb] in H
  end; congruence.
Qed.

Lemma for_fold_stays_false {S A} (body : bool * string -> A -> SE S (bool * string)) :
  (forall msg x s s' st m, body (false, msg) x s = (s', inr (st, m)) -> st = false) ->
  forall l msg s s' st m,
    for_fold l (false, msg) body s = (s', inr (st, m)) -> st = false.
Proof.
  intros Hb l. induction l as [| x rest IH]; intros msg s s' st m H; simpl in H.
  - inversion H. reflexivity.
  - unfold bind in H. destruct (body (false, msg) x s) as [s1 [e | [st1 m1]]] eqn:Hx;
      [discriminate |].
    apply Hb in Hx. subst st1. exact (IH _ _ _ _ _ H).
Qed.

Lemma copy_slot_stays_false (t : task) (entity_data : entity)
    (task_config : transition_config) (msg : string) (item : string * slot)
    (s s' : Publish.pstate W) (st : bool) (m : string) :
  Publish.copy_slot os ctx t entity_data task_config (false, msg) item s
    = (s', inr (st, m)) ->
  st = false.
Proof.
  destruct item as [each sl]. unfold Publish.copy_slot.
  destruct (negb (truthy_str (slot_workarea sl))); [intros H; inversion H; reflexivity |].
  unfold bind at 1.
  destruct (Publish.template_of _ _ _) as [s1 [e | template]]; [discriminate |].
  unfold bind at 1.
  destruct (lift _ s1) as [s2 [e | source]]; [discriminate |].
  unfold bind at 1.
  destruct (Publish.path_exists os source s2) as [s3 [e | ex]]; [discriminate |].
  destruct (negb ex && negb (slot_mandatory sl)); [intros H; inversion H; reflexivity |].
  apply for_fold_stays_false. intros msg0 x. apply copy_tag_stays_false.
Qed.

(** X9. The status of an item is a conjunction over the copies of all its
    slots and tags: once it is false, whatever the remaining slots do (skip,
    copy well, fail), it is false when the loop over the slots ends. *)
Theorem item_status_stays_false_after_a_failed_copy
    (t : task) (entity_data : entity) (task_config : transition_config)
    (slots : list (string * slot)) (msg : string)
    (s s' : Publish.pstate W) (st : bool) (m : string) :
  for_fold slots (false, msg)
    (Publish.copy_slot os ctx t entity_data task_config) s = (s', inr (st, m)) ->
  st = false.
Proof.
  revert slots msg s s' st m. apply for_fold_stays_false.
  intros msg x. apply copy_slot_stays_false.
Qed.

(** X16. When the file of a tag is copied and the query of the versions in
    [get_published_file_data] raises, the exception is swallowed there: the
    item status becomes false, the message gets the PublishedFile error text
    appended, no create request is prepared, and the file stays copied. *)
Theorem published_file_error_fails_the_item_after_the_copy
    (t : task) (entity_data : entity) (task_config : transition_config)
    (each : string) (sl : slot) (extension source : string)
    (overall_status : bool) (overall_msg each_tag tag_template template : string)
    (destination msg e : string) (c' : cstate W) (s : Publish.pstate W) :
  slot_tags sl !! each_tag = Some tag_template ->
  truthy_str tag_template = true ->
  cfg_templates task_config !! tag_template = Some template ->
  Publish.build_template_path ctx template extension t entity_data
    = inr destination ->
  copy os source
    (Publish.adjust_destination entity_data each_tag (task_step t) destination)
    (Some (if bool_decide (each = "Unreal Folder")
           then ignores (Publish.config_data ctx) else []))
    true true (Publish.fs s) = (c', inr (Some (true, msg))) ->
  Publish.find_versions ctx (ref_type (task_link t), ref_id (task_link t))
    (task_id t) = inl e ->
  Publish.copy_tag os ctx t entity_data task_config each sl extension source
    (overall_status, overall_msg) each_tag s
  = ({| Publish.fs := c';
        Publish.report_list := Publish.report_list s;
        Publish.batch_data := Publish.batch_data s;
        Publish.publish_batch_data := Publish.publish_batch_data s;
        Publish.batch_calls := Publish.batch_calls s |},
     inr (false,
          overall_msg +:+ "Error During creating PublishFile Record in ShotGrid; ")).
Proof.
  intros Htag Htruthy Htpl Hdst Hcopy Hver.
  unfold Publish.copy_tag, Publish.template_of, Publish.get_published_file_data.
  unfold lift, Publish.path_isfile, Publish.append_publish, Publish.on_fs.
  unfold bind, ret, raise, modify.
  rewrite Htag. cbv beta iota. rewrite Htruthy. cbn [negb]. cbv beta iota.
  rewrite Htpl. cbv beta iota. rewrite Hdst. cbv beta iota zeta.
  rewrite Hcopy. cbv beta iota. rewrite Hver. cbv beta iota.
  rewrite andb_true_r, andb_false_r. reflexivity.
Qed.

End PublishSlots.

(** ** Publish.publish: the report *)

Section PublishReport.
Context {W : Type} (os : OS W) (ctx : Publish.context).

Lemma keeps_report_on_fs {A} (m : SE (cstate W) A) :
  keeps Publish.report_list (Publish.on_fs m).
Proof. intros s. unfold Publish.on_fs. destruct (m (Publish.fs s)). reflexivity. Qed.

Lemma keeps_report_copy_slot t entity_data task_config acc item :
  keeps Publish.report_list
    (Publish.copy_slot os ctx t entity_data task_config acc item).
Proof.
  assert (He : forall op, keeps (@Publish.report_list W) (Publish.append_publish op))
    by (intros op s; reflexivity).
  unfold Publish.copy_slot, Publish.copy_tag, Publish.template_of,
    Publish.get_published_file_data, Publish.path_exists, Publish.path_isfile.
  repeat first [ apply keeps_report_on_fs | apply He | keeps_step ].
Qed.

Lemma techfix_cascade_rows (t : task) (update_data : string) (report_dict : row)
    (s s' : Publish.pstate W) (b : bool) :
  Publish.techfix_cascade ctx t update_data report_dict s = (s', inr b) ->
  if b then Publish.report_list s' = Publish.report_list s
  else exists reason,
         Publish.report_list s'
         = Publish.report_list s ++ [with_reason report_dict reason].
Proof.
  unfold Publish.techfix_cascade.
  destruct (last (get_entity_data (st_techfix _) _)) as [tech_data_entry |].
  - unfold bind at 1. cbn [Publish.extend_batch modify].
    destruct (tf_from tech_data_entry) as [tech_from_task |].
    + unfold bind at 1.
      destruct (last (get_entity_data (st_tasks _) _)) as [from_task |];
        [| discriminate].
      unfold ret at 1. unfold bind at 1.
      destruct (str_in (task_status from_task) ["tfhl"]);
        [destruct (negb (truthy_list _)) |];
        intros H; inversion H; reflexivity.
    + intros H. inversion H. eexists. reflexivity.
  - intros H. inversion H. eexists. reflexivity.
Qed.

Lemma asset_cascade_rows (t : task) (entity_data : entity) (next_status : string)
    (report_dict : row) (s s' : Publish.pstate W) (b : bool) :
  Publish.asset_cascade ctx t entity_data next_status report_dict s = (s', inr b) ->
  if b then Publish.report_list s' = Publish.report_list s
  else exists reason,
         Publish.report_list s'
         = Publish.report_list s ++ [with_reason report_dict reason].
Proof.
  unfold Publish.asset_cascade.
  destruct (negb (str_in (ent_type entity_data) ["Asset"]));
    [intros H; inversion H; reflexivity |].
  repeat match goal with
  | |- context [if ?c then _ else _] => destruct c
  | |- context [match last ?l with _ => _ end] => destruct (last l)
  end; intros H; inversion H; first [reflexivity | eexists; reflexivity].
Qed.

(** The row of an item: the label and the step of its task. *)
Lemma commit_item_one_row (t : task) (entity_data : entity) (is_techfix : bool)
    (next_status : string) (report_dict : row) (overall_status : bool)
    (overall_msg : string) (s s' : Publish.pstate W) (u : unit) :
  Publish.commit_item ctx t entity_data is_techfix next_status report_dict
    overall_status overall_msg s = (s', inr u) ->
  exists r, Publish.report_list s' = Publish.report_list s ++ [r]
            /\ row_label r = row_label report_dict
            /\ row_task r = row_task report_dict.
Proof.
  unfold Publish.commit_item.
  destruct overall_status;
    [| intros H; inversion H; eexists; split; [reflexivity | split; reflexivity]].
  unfold bind at 1.
  destruct ((if is_techfix
             then Publish.techfix_cascade ctx t next_status report_dict
             else ret true) s) as [s1 [e | go_on]] eqn:Htf; [discriminate |].
  assert (H1 : if go_on then Publish.report_list s1 = Publish.report_list s
               else exists reason,
                      Publish.report_list s1
                      = Publish.report_list s ++ [with_reason report_dict reason]).
  { destruct is_techfix.
    - exact (techfix_cascade_rows _ _ _ _ _ _ Htf).
    - inversion Htf. reflexivity. }
  destruct go_on; cbn [negb].
  - unfold bind at 1.
    destruct (Publish.asset_cascade ctx t entity_data next_status report_dict s1)
      as [s2 [e | go_on]] eqn:Ha; [discriminate |].
    apply asset_cascade_rows in Ha.
    destruct go_on; cbn [negb]; intros H; inversion H; subst; cbn.
    + rewrite Ha, H1. eexists. split; [reflexivity | split; reflexivity].
    + destruct Ha as [reason ->]. rewrite H1. eexists.
      split; [reflexivity | split; reflexivity].
  - intros H. inversion H. subst. destruct H1 as [reason ->].
    eexists. split; [reflexivity | split; reflexivity].
Qed.

Lemma publish_item_one_row (t : task) (s s' : Publish.pstate W) (u : unit) :
  Publish.publish_item os ctx t s = (s', inr u) ->
  exists r, Publish.report_list s' = Publish.report_list s ++ [r]
            /\ row_label r = ref_name (task_link t)
            /\ row_task r = task_step t.
Proof.
  assert (Hrow : forall reason (s0 s1 : Publish.pstate W) (u0 : unit),
    Publish.append_report (with_reason (Publish.initial_row t) reason) s0
      = (s1, inr u0) ->
    exists r, Publish.report_list s1 = Publish.report_list s0 ++ [r]
              /\ row_label r = ref_name (task_link t)
              /\ row_task r = task_step t).
  { intros reason s0 s1 u0 H. inversion H. eexists.
    split; [reflexivity | split; reflexivity]. }
  unfold Publish.publish_item.
  destruct (last (Publish.find_entity ctx t)) as [entity_data |]; [| apply Hrow].
  destruct (last (matching_configs _ t)) as [task_config |]; [| apply Hrow].
  unfold Publish.publish_configured.
  unfold bind at 1.
  destruct (Publish.literal_eval_if (cfg_status_config task_config) s)
    as [s1 [e | status_config]] eqn:H1; [discriminate |].
  unfold bind at 1.
  destruct (Publish.literal_eval_if (cfg_file_config task_config) s1)
    as [s2 [e | task_file_configs]] eqn:H2; [discriminate |].
  assert (s1 = s) by (destruct (cfg_status_config task_config); inversion H1; reflexivity).
  assert (s2 = s1) by (destruct (cfg_file_config task_config); inversion H2; reflexivity).
  subst s2 s1. clear H1 H2.
  match goal with |- context [if ?c then _ else _] => destruct c end; [apply Hrow |].
  unfold bind at 1.
  destruct (subscript status_config (Publish.action ctx) s)
    as [s1 [e | m]] eqn:H1; [discriminate |].
  assert (s1 = s).
  { unfold subscript in H1. destruct status_config as [d |]; [| inversion H1; reflexivity].
    destruct (d !! Publish.action ctx); inversion H1; reflexivity. }
  subst s1. clear H1.
  match goal with |- context [if ?c then _ else _] => destruct c end; [apply Hrow |].
  unfold Publish.publish_checked. unfold bind at 1.
  destruct (Publish.validate_role_assignments ctx t _) as [e | [valid vmsg]];
    cbn [lift]; [discriminate |].
  unfold ret at 1.
  destruct (negb valid); [apply Hrow |].
  unfold bind at 1.
  destruct (subscript (Some _) (task_status t) s) as [s1 [e | next_status]] eqn:H1;
    [discriminate |].
  assert (s1 = s).
  { unfold subscript in H1.
    match type of H1 with context [match ?x with _ => _ end] => destruct x end;
      inversion H1; reflexivity. }
  subst s1. clear H1.
  unfold Publish.publish_files. unfold bind at 1.
  destruct (Publish.file_configs_for _ _ _) as [slots |]; [| discriminate].
  unfold ret at 1. unfold bind at 1.
  pose proof (keeps_for_fold Publish.report_list slots (true, "")
                (Publish.copy_slot os ctx t entity_data task_config)
                (fun b x => keeps_report_copy_slot t entity_data task_config b x) s)
    as Hkeep.
  destruct (for_fold slots (true, "") _ s) as [s1 [e | [st msg]]];
    [discriminate |].
  cbn [fst] in Hkeep. intros H.
  apply commit_item_one_row in H. destruct H as (r & Hr & Hl & Ht).
  exists r. rewrite Hr, Hkeep. auto.
Qed.

Lemma publish_loop_rows (items : list task) (s s' : Publish.pstate W) (u : unit) :
  for_each items (Publish.publish_item os ctx) s = (s', inr u) ->
  exists rows,
    Publish.report_list s' = Publish.report_list s ++ rows
    /\ map row_label rows = map (fun t => ref_name (task_link t)) items
    /\ map row_task rows = map task_step items.
Proof.
  revert s. induction items as [| t rest IH]; intros s H; simpl in H.
  - inversion H. exists []. rewrite app_nil_r. auto.
  - unfold bind in H.
    destruct (Publish.publish_item os ctx t s) as [s1 [e | u1]] eqn:Ht;
      [discriminate |].
    apply publish_item_one_row in Ht. destruct Ht as (r & Hr & Hl & Hs).
    apply IH in H. destruct H as (rows & Hrows & Hls & Hss).
    exists (r :: rows). rewrite Hrows, Hr, <- app_assoc. simpl.
    rewrite Hl, Hs, Hls, Hss. auto.
Qed.

(** X10. [Publish.publish] always returns its report, and the report is
    decided by how the loop and the batch call end. When the loop over the
    selected tasks raises [e], the report is the single row of [e]. When the
    loop returns and the batch call is made (the batch is not empty) and
    raises [e], the report is the single row of [e]. In every other run the
    report has exactly one row per selected task, in the order of the
    selection, with the name of the linked Shot/Asset and the pipeline step
    of the task. *)
Theorem publish_reports_one_row_per_task (s : Publish.pstate W) :
  exists rows,
    snd (Publish.publish os ctx s) = inr rows
    /\ Publish.report_list (fst (Publish.publish os ctx s)) = rows
    /\ match Publish.publish_loop os ctx (fst (Publish.init_lists s)) with
       | (_, inl e) => rows = [fatal_row e]
       | (s1, inr _) =>
           match (if truthy_list (Publish.batch_data s1)
                  then Publish.batch_reply ctx (Publish.batch_data s1)
                  else None) with
           | Some e => rows = [fatal_row e]
           | None =>
               map row_label rows
               = map (fun t => ref_name (task_link t))
                     (Publish.selected_tasks_data ctx)
               /\ map row_task rows
                  = map task_step (Publish.selected_tasks_data ctx)
           end
       end.
Proof.
  unfold Publish.publish, Publish.publish_loop, Publish.flush, Publish.sg_batch,
    Publish.fatal, try_catch, bind, ret, get_state.
  cbn [Publish.init_lists modify fst].
  destruct (for_each _ _ _) as [s1 [e | u]] eqn:Hloop.
  - eexists. cbn. split; [reflexivity |]. split; reflexivity.
  - apply publish_loop_rows in Hloop. destruct Hloop as (rows & Hrows & Hl & Ht).
    cbn [Publish.report_list app] in Hrows.
    destruct (truthy_list (Publish.batch_data s1)).
    + destruct (Publish.batch_reply ctx (Publish.batch_data s1)) as [e |].
      * eexists. cbn. split; [reflexivity |]. split; reflexivity.
      * eexists. cbn. split; [reflexivity |]. split; [reflexivity |].
        rewrite Hrows. auto.
    + eexists. cbn. split; [reflexivity |]. split; [reflexivity |].
      rewrite Hrows. auto.
Qed.

End PublishReport.

(** ** Publish.publish: after the copies *)

Section PublishCommit.
Context {W : Type} (ctx : Publish.context).

(** X11. A techfix task whose TechFixData record has no originating task
    is reported as failed, but the update of the TechFixData record to the
    next status is already in the batch at that point and stays there; the
    task itself gets no update. *)
Theorem techfix_without_origin_keeps_its_record_update
    (t : task) (entity_data : entity) (next_status : string) (report_dict : row)
    (overall_msg : string) (tech_data_entry : techfix) (s : Publish.pstate W) :
  last (get_entity_data (st_techfix (Publish.sg ctx))
          [tf_task_is (task_id t); tf_project_is (Publish.project_id ctx)])
    = Some tech_data_entry ->
  tf_from tech_data_entry = None ->
  Publish.commit_item ctx t entity_data true next_status report_dict
    true overall_msg s
  = ({| Publish.fs := Publish.fs s;
        Publish.report_list :=
          Publish.report_list s
          ++ [with_reason report_dict
                ("Selected Task TechFixData Record is not having"
                 +:+ "Source Task Data to update as TechFix Done,"
                 +:+ "Please check with SG Team")];
        Publish.batch_data :=
          Publish.batch_data s
          ++ [Update "CustomEntity04" (tf_id tech_data_entry) (Some next_status)];
        Publish.publish_batch_data := Publish.publish_batch_data s;
        Publish.batch_calls := Publish.batch_calls s |}, inr tt).
Proof.
  intros Hrec Hfrom.
  unfold Publish.commit_item, Publish.techfix_cascade. rewrite Hrec.
  unfold bind, Publish.extend_batch, Publish.append_report, modify, ret.
  rewrite Hfrom. reflexivity.
Qed.


End PublishCommit.

(** ** Publish.publish: the choice of the configuration *)


(** X14. When several configuration records match a task, the last one in
    the order of the records is used: the chosen record matches the triple
    of the task and no record after it does. *)
Theorem last_matching_configuration_is_used
    (configs : list transition_config) (t : task) (task_config : transition_config) :
  last (matching_configs configs t) = Some task_config ->
  exists before after,
    configs = before ++ task_config :: after
    /\ cfg_entity_type task_config = ref_type (task_link t)
    /\ cfg_path_sheet_name task_config = task_step t
    /\ cfg_task_name task_config = config_task_name t
    /\ matching_configs after t = [].
Proof.
  unfold matching_configs.
  set (f := fun i : transition_config =>
    bool_decide (cfg_entity_type i = ref_type (task_link t)) &&
    bool_decide (cfg_path_sheet_name i = task_step t) &&
    bool_decide (cfg_task_name i = config_task_name t)).
  induction configs as [| c rest IH]; cbn; [discriminate |].
  destruct (f c) eqn:Hc.
  - destruct (List.filter f rest) as [| c' l] eqn:Hrest.
    + intros H. inversion H. subst c. exists [], rest.
      unfold f in Hc. apply andb_prop in Hc. destruct Hc as [Hc H3].
      apply andb_prop in Hc. destruct Hc as [H1 H2].
      apply bool_decide_eq_true_1 in H1, H2, H3. auto.
    + intros H. rewrite last_cons_cons in H. 
      destruct (IH H) as (before & after & -> & H1 & H2 & H3 & H4).
      exists (c :: before), after. auto.
  - intros H. destruct (IH H) as (before & after & -> & H1 & H2 & H3 & H4).
    exists (c :: before), after. auto.
Qed.

Lemma ends_with_app (suffix x : string) : ends_with suffix (x +:+ suffix) = true.
Proof.
  induction x as [| a x IH].
  - change ("" +:+ suffix) with suffix. unfold ends_with.
    destruct suffix; rewrite String.eqb_refl; reflexivity.
  - change (String.eqb suffix (String a (x +:+ suffix))
            || ends_with suffix (x +:+ suffix) = true).
    rewrite IH. apply orb_true_r.
Qed.

Lemma ends_with_chars (suffix s : string) (a : Ascii.ascii) :
  ends_with suffix s = true ->
  In a (list_ascii_of_string suffix) -> In a (list_ascii_of_string s).
Proof.
  induction s as [| b s IH]; intros H Ha.
  - cbn in H. rewrite orb_false_r in H. apply String.eqb_eq in H. subst. exact Ha.
  - cbn [ends_with] in H. apply orb_prop in H. destruct H as [H | H].
    + apply String.eqb_eq in H. subst. exact Ha.
    + right. exact (IH H Ha).
Qed.

Lemma split_first_cons (sep a : Ascii.ascii) (rest : string) :
  split_first sep (String a rest)
  = if Ascii.eqb a sep then EmptyString else String a (split_first sep rest).
Proof. reflexivity. Qed.

Lemma split_first_app (sep : Ascii.ascii) (x rest : string) :
  ~ In sep (list_ascii_of_string x) ->
  split_first sep (x +:+ String sep rest) = x /\ split_first sep x = x.
Proof.
  induction x as [| a x IH]; intros Hno.
  - change ("" +:+ String sep rest) with (String sep rest).
    rewrite split_first_cons, Ascii.eqb_refl. auto.
  - change (String a x +:+ String sep rest) with (String a (x +:+ String sep rest)).
    rewrite !split_first_cons.
    destruct (Ascii.eqb a sep) eqn:Ha.
    + apply Ascii.eqb_eq in Ha. subst a. exfalso. apply Hno. left. reflexivity.
    + destruct IH as [H1 H2]; [intros Hin; apply Hno; right; exact Hin |].
      rewrite H1, H2. auto.
Qed.

(** X15. The task-name key of a techfix task is the name of the task it
    fixes: for a task whose name [x] has no underscore, the task named
    [x_TechFix] is a techfix task and its configuration is looked up under
    [x], the key of the task named [x], whatever the split types are. *)
Theorem techfix_task_shares_the_configuration_of_its_task
    (t fix_task : task) :
  ~ In "_"%char (list_ascii_of_string (task_name t)) ->
  task_name fix_task = task_name t +:+ "_TechFix" ->
  is_techfix_name (task_name fix_task) = true
  /\ is_techfix_name (task_name t) = false
  /\ config_task_name fix_task = task_name t
  /\ config_task_name t = task_name t.
Proof.
  intros Hno Hname.
  destruct (split_first_app "_" (task_name t) "TechFix" Hno) as [Hfix Hself].
  assert (Hmark : is_techfix_name (task_name fix_task) = true).
  { unfold is_techfix_name. rewrite Hname. apply ends_with_app. }
  assert (Hplain : is_techfix_name (task_name t) = false).
  { unfold is_techfix_name.
    destruct (ends_with "_TechFix" (task_name t)) eqn:He; [| reflexivity].
    exfalso. apply Hno. apply (ends_with_chars _ _ _ He). left. reflexivity. }
  repeat split; try assumption.
  - unfold config_task_name. rewrite Hmark, Hname.
    change (task_name t +:+ "_TechFix") with (task_name t +:+ String "_" "TechFix").
    rewrite Hfix. destruct (bool_decide _); reflexivity.
  - unfold config_task_name. rewrite Hplain, Hself.
    destruct (bool_decide _); reflexivity.
Qed.

(** ** Review.update_version: the report and the updates *)

Section ReviewReport.
Context (ctx : Review.context).

(** X17. A version that passes the checks of the review gets the value
    that the status map of the action holds for the current status of its
    task, and the same value goes to the Task, to the Version and, for a
    techfix task, to its TechFixData record, in the order TechFixData, Task,
    Version; unlike [Publish.publish], no entry is merged into the map for a
    techfix task. *)
Theorem review_updates_task_and_version_alike
    (version_id : Z) (ver : version) (t : task)
    (m : gmap string string) (s : Review.rstate) :
  Review.reaches_authorization ctx ver t m ->
  Review.authorize ctx t (ver_status ver) = inr Review.Allowed ->
  let value := m !! task_status t in
  let records :=
    get_entity_data (st_techfix (Review.sg ctx))
      [tf_task_is (task_id t); tf_project_is (Review.project_id ctx)] in
  let updates :=
    [Update "Task" (task_id t) value; Update "Version" version_id value] in
  is_techfix_name (task_name t) = false
  \/ (exists record, last records = Some record) ->
  Review.review_item ctx (version_id, ver) s
  = ({| Review.report_list :=
          Review.report_list s
          ++ [ {| row_label := ver_name ver; row_task := task_step t;
                  row_success := "YES"; row_reason := "" |} ];
        Review.batch_data :=
          Review.batch_data s
          ++ (if is_techfix_name (task_name t)
              then match last records with
                   | Some record =>
                       [Update "CustomEntity04" (tf_id record) value]
                   | None => []
                   end
              else [])
          ++ updates;
        Review.batch_calls := Review.batch_calls s |}, inr tt).
Proof.
  intros Hreach Hauth value records updates Hrec.
  rewrite (review_item_at_authorization ctx version_id ver t m s Hreach).
  unfold Review.review_authorized, bind at 1, lift. rewrite Hauth.
  unfold raise, ret. cbv beta iota.
  unfold Review.review_commit. fold value. fold records.
  destruct (is_techfix_name (task_name t)).
  - destruct Hrec as [Hrec | [record Hrec]]; [discriminate |]. rewrite Hrec.
    unfold bind, ret, Review.extend_batch, Review.append_report, modify. simpl.
    rewrite <- !app_assoc. reflexivity.
  - unfold bind, ret, Review.extend_batch, Review.append_report, modify. simpl.
    rewrite <- !app_assoc. reflexivity.
Qed.

Lemma review_item_one_row (item : Z * version) (s s' : Review.rstate) (u : unit) :
  Review.review_item ctx item s = (s', inr u) ->
  exists r t,
    Review.report_list s' = Review.report_list s ++ [r]
    /\ Review.tasks ctx !! ver_task item.2 = Some t
    /\ row_label r = ver_name item.2
    /\ row_task r = task_step t.
Proof.
  destruct item as [version_id ver]. cbn [snd]. unfold Review.review_item.
  destruct (Review.tasks ctx !! ver_task ver) as [t |]; [| discriminate].
  assert (Hrow : forall reason (s0 s1 : Review.rstate) (u0 : unit),
    Review.append_report (with_reason (Review.initial_row ver t) reason) s0
      = (s1, inr u0) ->
    exists r t0,
      Review.report_list s1 = Review.report_list s0 ++ [r]
      /\ Some t = Some t0
      /\ row_label r = ver_name ver
      /\ row_task r = task_step t0).
  { intros reason s0 s1 u0 H. inversion H. eexists. exists t.
    split; [reflexivity | split; [reflexivity | split; reflexivity]]. }
  destruct (last (matching_configs _ t)) as [task_config |]; [| apply Hrow].
  unfold Review.review_configured.
  destruct (cfg_status_config task_config) as [| | sc]; try discriminate.
  unfold bind at 1, ret at 1.
  destruct (negb (truthy_dict (Some sc))); [apply Hrow |].
  unfold subscript.
  destruct (sc !! Review.action ctx) as [m |]; [| discriminate].
  unfold bind at 1, ret at 1.
  destruct (Review.validate_role_assignments ctx t _) as [e | [valid vmsg]];
    [discriminate |].
  unfold bind at 1. cbn [lift]. unfold ret at 1.
  destruct (negb valid); [apply Hrow |].
  unfold Review.review_authorized.
  destruct (Review.authorize ctx t (ver_status ver)) as [e | [| reason]];
    [discriminate | | apply Hrow].
  unfold bind at 1. cbn [lift]. unfold ret at 1.
  unfold Review.review_commit.
  destruct (is_techfix_name (task_name t));
    [destruct (last (get_entity_data _ _)) |];
    unfold bind, ret, Review.extend_batch, Review.append_report, modify;
    cbn; intros H; inversion H; eexists; exists t;
    (split; [reflexivity | split; [reflexivity | split; reflexivity]]).
Qed.

Lemma review_loop_rows (items : list (Z * version)) (s s' : Review.rstate) (u : unit) :
  for_each items (Review.review_item ctx) s = (s', inr u) ->
  exists rows,
    Review.report_list s' = Review.report_list s ++ rows
    /\ map row_label rows = map (fun item => ver_name item.2) items
    /\ map (fun r => Some (row_task r)) rows
       = map (fun item => task_step <$> (Review.tasks ctx !! ver_task item.2)) items.
Proof.
  revert s. induction items as [| item rest IH]; intros s H; simpl in H.
  - inversion H. exists []. rewrite app_nil_r. auto.
  - unfold bind in H.
    destruct (Review.review_item ctx item s) as [s1 [e | u1]] eqn:Ht;
      [discriminate |].
    apply review_item_one_row in Ht. destruct Ht as (r & t & Hr & Htask & Hl & Hs).
    apply IH in H. destruct H as (rows & Hrows & Hls & Hss).
    exists (r :: rows). rewrite Hrows, Hr, <- app_assoc. simpl.
    rewrite Hl, Hs, Hls, Hss, Htask. auto.
Qed.

(** X18. [Review.update_version] always returns its report, and the
    report is decided by how the loop and the batch call end. When the loop
    over the selected versions raises [e], the report is the single row of
    [e]. When the loop returns and the batch call is made (the batch is not
    empty) and raises [e], the report is the single row of [e]. In every
    other run the report has exactly one row per selected version, in the
    order of the selection, with the name of the version and the pipeline
    step of its task, so the task of every selected version was among the
    fetched tasks. *)
Theorem review_reports_one_row_per_version (s : Review.rstate) :
  exists rows,
    snd (Review.update_version ctx s) = inr rows
    /\ Review.report_list (fst (Review.update_version ctx s)) = rows
    /\ match Review.review_loop ctx
               (fst (Review.init_batch (fst (Review.init_report s)))) with
       | (_, inl e) => rows = [fatal_row e]
       | (s1, inr _) =>
           match (if truthy_list (Review.batch_data s1)
                  then Review.batch_reply ctx (Review.batch_data s1)
                  else None) with
           | Some e => rows = [fatal_row e]
           | None =>
               map row_label rows
               = map (fun item => ver_name item.2) (Review.versions ctx)
               /\ map (fun r => Some (row_task r)) rows
                  = map (fun item =>
                           task_step <$> (Review.tasks ctx !! ver_task item.2))
                        (Review.versions ctx)
           end
       end.
Proof.
  unfold Review.update_version, Review.review_loop, Review.flush, Review.sg_batch,
    Review.fatal, try_catch, bind, ret, get_state.
  cbn [Review.init_report Review.init_batch modify fst].
  destruct (for_each _ _ _) as [s1 [e | u]] eqn:Hloop.
  - eexists. cbn. split; [reflexivity |]. split; reflexivity.
  - apply review_loop_rows in Hloop. destruct Hloop as (rows & Hrows & Hl & Ht).
    cbn [Review.report_list app] in Hrows.
    destruct (truthy_list (Review.batch_data s1)).
    + destruct (Review.batch_reply ctx (Review.batch_data s1)) as [e |].
      * eexists. cbn. split; [reflexivity |]. split; reflexivity.
      * eexists. cbn. split; [reflexivity |]. split; [reflexivity |].
        rewrite Hrows. auto.
    + eexists. cbn. split; [reflexivity |]. split; [reflexivity |].
      rewrite Hrows. auto.
Qed.

End ReviewReport.

(** ** An exception in the loop *)

Lemma for_each_app {S A} (l1 l2 : list A) (body : A -> SE S unit) (s : S) :
  for_each (l1 ++ l2) body s
  = match for_each l1 body s with
    | (s1, inl e) => (s1, inl e)
    | (s1, inr _) => for_each l2 body s1
    end.
Proof.
  revert s. induction l1 as [| x l1 IH]; intros s; simpl.
  - reflexivity.
  - unfold bind. destruct (body x s) as [s1 [e | []]]; [reflexivity | apply IH].
Qed.

Lemma for_each_raises {S A} (done : list A) (x : A) (rest : list A)
    (body : A -> SE S unit) (s s1 s2 : S) (e : exn) :
  for_each done body s = (s1, inr tt) ->
  body x s1 = (s2, inl e) ->
  for_each (done ++ x :: rest) body s = (s2, inl e).
Proof.
  intros Hdone Hx. rewrite for_each_app, Hdone. simpl. unfold bind.
  rewrite Hx. reflexivity.
Qed.

(** X19. When the item of a task raises an exception in [Publish.publish],
    after the tasks before it were handled without one: the report is the
    single row of that exception, the rows of the earlier tasks are gone,
    the tasks after it are not looked at, the batch endpoint is not called
    although [batch_data] holds what the earlier tasks queued, and the files
    copied so far stay copied. *)
Theorem publish_exception_discards_the_earlier_rows
    {W} (os : OS W) (ctx : Publish.context) (done : list task) (t : task)
    (rest : list task) (s s1 s2 : Publish.pstate W) (e : exn) :
  Publish.selected_tasks_data ctx = done ++ t :: rest ->
  for_each done (Publish.publish_item os ctx) (fst (Publish.init_lists s))
    = (s1, inr tt) ->
  Publish.publish_item os ctx t s1 = (s2, inl e) ->
  Publish.publish os ctx s
  = ({| Publish.fs := Publish.fs s2;
        Publish.report_list := [fatal_row e];
        Publish.batch_data := Publish.batch_data s2;
        Publish.publish_batch_data := Publish.publish_batch_data s2;
        Publish.batch_calls := Publish.batch_calls s |}, inr [fatal_row e]).
Proof.
  intros Hsel Hdone Ht.
  pose proof (for_each_raises done t rest _ _ _ _ e Hdone Ht) as Hloop.
  pose proof (keeps_for_each Publish.batch_calls (done ++ t :: rest)
                (Publish.publish_item os ctx) (keeps_calls_publish_item os ctx)
                (fst (Publish.init_lists s))) as Hcalls.
  rewrite Hloop in Hcalls. cbn in Hcalls.
  unfold Publish.publish, Publish.publish_loop, try_catch, bind.
  rewrite Hsel. cbn [Publish.init_lists modify]. cbn [fst] in Hloop.
  cbn [Publish.init_lists modify fst] in Hloop. rewrite Hloop.
  unfold Publish.fatal, modify, get_state, ret. cbn. rewrite Hcalls. reflexivity.
Qed.

(** X20. The same for [Review.update_version]: an exception in the item of
    a version (its task was not fetched, its status configuration is not a
    dict literal or has no entry for the action, a lead or supervisor link
    is empty when it is read) leaves the single row of that exception as the
    report, and nothing is sent. *)
Theorem review_exception_discards_the_earlier_rows
    (ctx : Review.context) (done : list (Z * version)) (item : Z * version)
    (rest : list (Z * version)) (s s1 s2 : Review.rstate) (e : exn) :
  Review.versions ctx = done ++ item :: rest ->
  for_each done (Review.review_item ctx)
    (fst (Review.init_batch (fst (Review.init_report s)))) = (s1, inr tt) ->
  Review.review_item ctx item s1 = (s2, inl e) ->
  Review.update_version ctx s
  = ({| Review.report_list := [fatal_row e];
        Review.batch_data := Review.batch_data s2;
        Review.batch_calls := Review.batch_calls s |}, inr [fatal_row e]).
Proof.
  intros Hsel Hdone Ht.
  pose proof (for_each_raises done item rest _ _ _ _ e Hdone Ht) as Hloop.
  pose proof (keeps_for_each Review.batch_calls (done ++ item :: rest)
                (Review.review_item ctx) (keeps_calls_review_item ctx)
                (fst (Review.init_batch (fst (Review.init_report s))))) as Hcalls.
  rewrite Hloop in Hcalls. cbn in Hcalls.
  unfold Review.update_version, Review.review_loop, try_catch, bind.
  rewrite Hsel. cbn [Review.init_report Review.init_batch modify fst] in *.
  rewrite Hloop.
  unfold Review.fatal, modify, get_state, ret. cbn. rewrite Hcalls. reflexivity.
Qed.

(** ** sg_file_operations.convert_to_unc and delete_path *)

Section ConvertToUnc.
Context (WNetGetUniversalName : string -> exn + string)
        (join : string -> string -> string).

(** X21. A path that is not a mapped-drive path comes back as it was given,
    backslashes included, and the network is not asked: a path shorter than
    two characters (the [IndexError] is handled), a path whose second
    character is not the colon, and a path on one of the drives c, C, d,
    D. *)
Theorem unmapped_path_is_returned_unchanged (path : string) :
  String.get 1 path <> Some ":"%char
  \/ (exists first, String.get 0 path = Some first
                    /\ first ∈ Paths.local_drives) ->
  Paths.convert_to_unc WNetGetUniversalName join path = path.
Proof.
  intros H. unfold Paths.convert_to_unc, try_catch, Paths.convert_body,
    Paths.char_at, bind, get_state, ret, raise.
  destruct path as [| a [| b rest]]; try reflexivity.
  cbn [String.get]. cbv beta iota.
  destruct (Ascii.eqb b ":") eqn:Hb; [| reflexivity].
  apply Ascii.eqb_eq in Hb. subst b.
  destruct H as [H | (first & Hf & Hin)]; [exfalso; apply H; reflexivity |].
  cbn in Hf. inversion Hf. subst first.
  rewrite (bool_decide_eq_true_2 _ Hin). reflexivity.
Qed.

(** X22. A mapped-drive path [a:rest] has its backslashes turned into
    slashes before the network is asked for the share of [a:]. With the
    answer [unc] the result is [join(unc, tail)] with slashes, [tail]
    without leading slashes. When the network call raises, the result is
    the path with slashes, not the path as given, and for drive J the join
    of the fixed share and the tail. *)
Theorem mapped_path_is_resolved_or_falls_back (a : Ascii.ascii) (rest : string) :
  a ∉ Paths.local_drives ->
  let path := String a (String ":" rest) in
  let slashed := Paths.replace_char "\" "/" path in
  let tail := Paths.lstrip "/" (Paths.replace_char "\" "/" rest) in
  Paths.convert_to_unc WNetGetUniversalName join path
  = match WNetGetUniversalName (fst (Paths.splitdrive slashed)) with
    | inr unc =>
        Paths.replace_char "\" "/" (join (Paths.replace_char "\" "/" unc) tail)
    | inl _ =>
        if bool_decide (a = "J"%char)
        then Paths.replace_char "\" "/" (join Paths.fallback_share tail)
        else slashed
    end.
Proof.
  intros Hin path slashed tail.
  unfold Paths.convert_to_unc, try_catch, Paths.convert_body, Paths.char_at,
    bind, get_state, ret, raise, modify.
  subst path. cbn [String.get]. cbv beta iota.
  rewrite Ascii.eqb_refl. cbv beta iota.
  rewrite (bool_decide_eq_false_2 _ Hin). cbn [negb]. cbv beta iota.
  subst slashed. cbn [Paths.replace_char].
  change (Ascii.eqb ":" "\") with false. cbv iota.
  set (a' := if Ascii.eqb a "\" then "/"%char else a).
  cbn [Paths.splitdrive fst]. unfold truthy_str.
  rewrite bool_decide_eq_false_2 by discriminate. cbn [negb]. cbv beta iota.
  destruct (WNetGetUniversalName (String a' ":")) as [e | unc]; cbn [Shotgrid.lift].
  - unfold raise, Paths.convert_handler, bind, get_state, ret, modify.
    cbn [Paths.splitdrive]. cbv beta iota.
    assert (Hj : bool_decide (String a' ":" = "J:") = bool_decide (a = "J"%char)).
    { apply bool_decide_ext. subst a'. split.
      - intros H. inversion H as [H1].
        destruct (Ascii.eqb a "\"); [discriminate | reflexivity].
      - intros ->. reflexivity. }
    rewrite Hj. destruct (bool_decide (a = "J"%char)); reflexivity.
  - reflexivity.
Qed.

End ConvertToUnc.

Section DeletePath.
Context {W : Type} (os : OS W)
        (os_is_dir : string -> W -> exn + bool)
        (os_unlink : string -> W -> W * option exn).

Lemma delete_path_unfold (path : string) (s : cstate W) :
  Paths.delete_path os os_is_dir os_unlink path s
  = (fst (Paths.delete_body os os_is_dir os_unlink path (entered s)),
     inr (Some (status (fr (fst (Paths.delete_body os os_is_dir os_unlink path
                                   (entered s))))))).
Proof.
  unfold Paths.delete_path, impersonate, Paths.delete_path_undecorated,
    try_catch, get_frame, set_frame, modify, get_state, bind, ret, entered.
  simpl.
  destruct (Paths.delete_body _ _ _ _ _) as [s1 [e | []]]; reflexivity.
Qed.

(** X23. [delete_path] never raises and returns its status. The status is
    [True] only when the path was a regular file and its [unlink] returned,
    or was not a regular file but a directory and its [rmtree] returned, and
    the file system is then the one that call left. With status [False] the
    file system is as it was, or as the one delete call that raised left
    it. *)
Theorem delete_path_reports_completed_deletions (path : string) (s : cstate W) :
  let r := Paths.delete_path os os_is_dir os_unlink path s in
  exists b,
    snd r = inr (Some b)
    /\ if b then
         exists p,
           os_unc os path (world s) = inr p
           /\ ((os_is_file os p (world s) = inr true
                /\ os_unlink p (world s) = (world (fst r), None))
               \/ (os_is_file os p (world s) = inr false
                   /\ os_is_dir p (world s) = inr true
                   /\ os_rmtree os p (world s) = (world (fst r), None)))
       else
         world (fst r) = world s
         \/ exists p e,
              os_unlink p (world s) = (world (fst r), Some e)
              \/ os_rmtree os p (world s) = (world (fst r), Some e).
Proof.
  rewrite delete_path_unfold. cbn zeta. cbn [fst snd].
  unfold Paths.delete_body, Paths.change, query, set_status, set_frame, modify,
    bind, ret, entered. cbn [world].
  destruct (os_unc os path (world s)) as [e | p] eqn:Hunc; cbn;
    [exists false; split; [reflexivity | left; reflexivity] |].
  destruct (os_is_file os p (world s)) as [e | [|]] eqn:Hfile; cbn;
    [exists false; split; [reflexivity | left; reflexivity] | |].
  - destruct (os_unlink p (world s)) as [w' [e |]] eqn:Hun; cbn.
    + exists false. split; [reflexivity |]. right. exists p, e. left. exact Hun.
    + exists true. split; [reflexivity |]. exists p. split; [reflexivity |].
      left. rewrite Hun. auto.
  - destruct (os_is_dir p (world s)) as [e | [|]] eqn:Hdir; cbn;
      [exists false; split; [reflexivity | left; reflexivity] | |
       exists false; split; [reflexivity | left; reflexivity]].
    destruct (os_rmtree os p (world s)) as [w' [e |]] eqn:Hrm; cbn.
    + exists false. split; [reflexivity |]. right. exists p, e. right. exact Hrm.
    + exists true. split; [reflexivity |]. exists p. split; [reflexivity |].
      right. rewrite Hrm. auto.
Qed.

End DeletePath.

(** ** ShotgunAction._parse_url *)

Section ParseUrl.
Context (unquote : string -> string).

(** The values that the arguments give to a key, in the order of the
    arguments. *)
Lemma parse_args_lookup (args : list string) (pairs : list (string * string))
    (p0 : gmap string ActionMenu.param) (cols names : list string) :
  Forall2 (fun arg kv => ActionMenu.split_once "=" arg = Some kv) args pairs ->
  p0 !! "cols" = Some (ActionMenu.PList cols) ->
  p0 !! "column_display_names" = Some (ActionMenu.PList names) ->
  let values key :=
    map (fun kv => unquote kv.2)
        (List.filter (fun kv => bool_decide (unquote kv.1 = key)) pairs) in
  exists p,
    for_each args (ActionMenu.parse_arg unquote) p0 = (p, inr tt)
    /\ p !! "cols" = Some (ActionMenu.PList (cols ++ values "cols"))
    /\ p !! "column_display_names"
       = Some (ActionMenu.PList (names ++ values "column_display_names"))
    /\ forall key, key <> "cols" -> key <> "column_display_names" ->
         p !! key = match last (values key) with
                    | Some value => Some (ActionMenu.PStr value)
                    | None => p0 !! key
                    end.
Proof.
  intros Hargs. revert p0 cols names.
  induction Hargs as [| arg [k v] args pairs Harg Hrest IH];
    intros p0 cols names Hcols Hnames values.
  - exists p0. subst values. cbn. rewrite !app_nil_r. auto.
  - cbn [for_each]. unfold bind. unfold ActionMenu.parse_arg at 1.
    rewrite Harg. unfold str_in, ActionMenu.column_keys.
    subst values. cbn [List.filter fst snd].
    destruct (decide (unquote k = "cols")) as [Hk | Hk].
    + rewrite bool_decide_eq_true_2
        by (rewrite Hk; apply list_elem_of_further, list_elem_of_here).
      unfold bind, get_state, modify. rewrite Hk, Hcols.
      destruct (IH (<["cols" := ActionMenu.PList (cols ++ [unquote v])]> p0)
                   (cols ++ [unquote v]) names) as (p & Hp & Hc & Hn & Ho).
      { apply lookup_insert_eq. }
      { rewrite lookup_insert_ne by discriminate. exact Hnames. }
      exists p. split; [exact Hp |].
      rewrite (bool_decide_eq_true_2 ("cols" = "cols")) by reflexivity.
      rewrite (bool_decide_eq_false_2 ("cols" = "column_display_names"))
        by discriminate.
      cbn [map]. rewrite <- app_assoc in Hc. split; [exact Hc |].
      split; [exact Hn |].
      intros key H1 H2. rewrite (Ho key H1 H2).
      rewrite (bool_decide_eq_false_2 ("cols" = key)) by congruence.
      rewrite lookup_insert_ne by congruence. reflexivity.
    + destruct (decide (unquote k = "column_display_names")) as [Hk' | Hk'].
      * rewrite bool_decide_eq_true_2 by (rewrite Hk'; apply list_elem_of_here).
        unfold bind, get_state, modify. rewrite Hk', Hnames.
        destruct (IH (<["column_display_names"
                        := ActionMenu.PList (names ++ [unquote v])]> p0)
                     cols (names ++ [unquote v])) as (p & Hp & Hc & Hn & Ho).
        { rewrite lookup_insert_ne by discriminate. exact Hcols. }
        { apply lookup_insert_eq. }
        exists p. split; [exact Hp |].
        rewrite (bool_decide_eq_false_2 ("column_display_names" = "cols"))
          by discriminate.
        rewrite (bool_decide_eq_true_2
                   ("column_display_names" = "column_display_names"))
          by reflexivity.
        cbn [map]. rewrite <- app_assoc in Hn. split; [exact Hc |].
        split; [exact Hn |].
        intros key H1 H2. rewrite (Ho key H1 H2).
        rewrite (bool_decide_eq_false_2 ("column_display_names" = key))
          by congruence.
        rewrite lookup_insert_ne by congruence. reflexivity.
      * rewrite bool_decide_eq_false_2
          by (rewrite !not_elem_of_cons; repeat split; auto using not_elem_of_nil).
        unfold modify.
        destruct (IH (<[unquote k := ActionMenu.PStr (unquote v)]> p0) cols names)
          as (p & Hp & Hc & Hn & Ho).
        { rewrite lookup_insert_ne by congruence. exact Hcols. }
        { rewrite lookup_insert_ne by congruence. exact Hnames. }
        exists p. split; [exact Hp |].
        rewrite (bool_decide_eq_false_2 (unquote k = "cols")) by assumption.
        rewrite (bool_decide_eq_false_2 (unquote k = "column_display_names"))
          by assumption.
        split; [exact Hc |]. split; [exact Hn |].
        intros key H1 H2. rewrite (Ho key H1 H2).
        destruct (decide (unquote k = key)) as [-> | Hne].
        -- rewrite bool_decide_eq_true_2 by reflexivity. cbn [map].
           rewrite lookup_insert_eq, last_cons.
           destruct (last _); reflexivity.
        -- rewrite bool_decide_eq_false_2 by assumption.
           rewrite lookup_insert_ne by assumption. reflexivity.
Qed.

(** X24. The parameters of an Action Menu URL [protocol:action?query] whose
    arguments all hold an equals sign: the protocol is the text before the
    first colon, the action is the text up to the first question mark
    without its leading and trailing slashes, the keys "cols" and
    "column_display_names" hold the list of all their (unquoted) values in
    the order of the arguments, and every other key that occurs holds the
    value of its last occurrence; a key that does not occur is absent. *)
Theorem parse_url_collects_columns_and_keeps_the_last_value
    (url protocol path action query : string) (pairs : list (string * string)) :
  ActionMenu.split_once ":" url = Some (protocol, path) ->
  ActionMenu.split_once "?" path = Some (action, query) ->
  Forall2 (fun arg kv => ActionMenu.split_once "=" arg = Some kv)
    (ActionMenu.split "&" query) pairs ->
  let values key :=
    map (fun kv => unquote kv.2)
        (List.filter (fun kv => bool_decide (unquote kv.1 = key)) pairs) in
  exists p,
    ActionMenu._parse_url unquote url
      = inr (protocol, ActionMenu.strip "/" action, p)
    /\ p !! "cols" = Some (ActionMenu.PList (values "cols"))
    /\ p !! "column_display_names"
       = Some (ActionMenu.PList (values "column_display_names"))
    /\ forall key, key <> "cols" -> key <> "column_display_names" ->
         p !! key = ActionMenu.PStr <$> last (values key).
Proof.
  intros Hurl Hpath Hargs values.
  destruct (parse_args_lookup _ _ ActionMenu.initial_params [] []
              Hargs eq_refl eq_refl) as (p & Hp & Hc & Hn & Ho).
  exists p. unfold ActionMenu._parse_url. rewrite Hurl, Hpath, Hp.
  split; [reflexivity |]. split; [exact Hc |]. split; [exact Hn |].
  intros key H1 H2. rewrite (Ho key H1 H2).
  subst values. cbv beta. destruct (last _); [reflexivity |].
  unfold ActionMenu.initial_params.
  rewrite lookup_insert_ne by congruence.
  rewrite lookup_singleton_ne by congruence. reflexivity.
Qed.

(** The loop over the arguments stops at the first argument without an
    equals sign. *)
Lemma parse_args_stop (args : list string) (p0 : gmap string ActionMenu.param)
    (cols names : list string) :
  p0 !! "cols" = Some (ActionMenu.PList cols) ->
  p0 !! "column_display_names" = Some (ActionMenu.PList names) ->
  Exists (fun arg => ActionMenu.split_once "=" arg = None) args ->
  exists p,
    for_each args (ActionMenu.parse_arg unquote) p0
    = (p, inl ActionMenu.not_enough_values).
Proof.
  intros Hcols Hnames Hex. revert p0 cols names Hcols Hnames.
  induction args as [| arg args IH]; intros p0 cols names Hcols Hnames;
    [inversion Hex |].
  cbn [for_each]. unfold bind.
  destruct (ActionMenu.split_once "=" arg) as [[k v] |] eqn:Harg.
  - assert (Hrest : Exists (fun arg => ActionMenu.split_once "=" arg = None) args).
    { inversion Hex as [? ? H | ? ? H]; subst; [congruence | exact H]. }
    destruct (parse_args_lookup [arg] [(k, v)] p0 cols names) as (p & Hp & Hc & Hn & _);
      [constructor; [exact Harg | constructor] | exact Hcols | exact Hnames |].
    cbn [for_each] in Hp. unfold bind in Hp.
    destruct (ActionMenu.parse_arg unquote arg p0) as [p1 [e | []]];
      [discriminate |].
    inversion Hp. subst p1.
    exact (IH Hrest p _ _ Hc Hn).
  - exists p0. unfold ActionMenu.parse_arg. rewrite Harg. reflexivity.
Qed.

(** X25. [_parse_url] returns for exactly the URLs that hold a colon, a
    question mark after it, and an equals sign in every argument of the
    query; for every other URL (also one whose query is empty or ends in an
    ampersand) it raises the [ValueError] of the failed unpacking, and no
    other exception. *)
Theorem parse_url_raises_only_for_a_missing_separator (url : string) :
  match ActionMenu._parse_url unquote url with
  | inr (protocol, action, _) =>
      exists path raw_action query,
        ActionMenu.split_once ":" url = Some (protocol, path)
        /\ ActionMenu.split_once "?" path = Some (raw_action, query)
        /\ action = ActionMenu.strip "/" raw_action
        /\ Forall (fun arg => ActionMenu.split_once "=" arg <> None)
                  (ActionMenu.split "&" query)
  | inl e =>
      e = ActionMenu.not_enough_values
      /\ (ActionMenu.split_once ":" url = None
          \/ exists protocol path,
               ActionMenu.split_once ":" url = Some (protocol, path)
               /\ (ActionMenu.split_once "?" path = None
                   \/ exists raw_action query,
                        ActionMenu.split_once "?" path = Some (raw_action, query)
                        /\ Exists (fun arg => ActionMenu.split_once "=" arg = None)
                                  (ActionMenu.split "&" query)))
  end.
Proof.
  unfold ActionMenu._parse_url.
  destruct (ActionMenu.split_once ":" url) as [[protocol path] |] eqn:Hurl;
    [| split; [reflexivity | left; reflexivity]].
  destruct (ActionMenu.split_once "?" path) as [[raw_action query] |] eqn:Hpath;
    [| split; [reflexivity |]; right; exists protocol, path; auto].
  destruct (decide (Exists (fun arg => ActionMenu.split_once "=" arg = None)
                      (ActionMenu.split "&" query))) as [Hex | Hall].
  - destruct (parse_args_stop _ ActionMenu.initial_params [] [] eq_refl eq_refl Hex)
      as [p Hp].
    rewrite Hp. split; [reflexivity |]. right. exists protocol, path.
    split; [reflexivity |]. right. exists raw_action, query. auto.
  - apply not_Exists_Forall in Hall; [| intros arg; apply _].
    assert (Hpairs : exists pairs,
      Forall2 (fun arg kv => ActionMenu.split_once "=" arg = Some kv)
        (ActionMenu.split "&" query) pairs).
    { clear -Hall. induction Hall as [| arg args Harg _ IH].
      - exists []. constructor.
      - destruct IH as [pairs IH]. cbn in Harg.
        destruct (ActionMenu.split_once "=" arg) as [kv |] eqn:Hkv; [| congruence].
        exists (kv :: pairs). constructor; assumption. }
    destruct Hpairs as [pairs Hpairs].
    destruct (parse_args_lookup _ _ ActionMenu.initial_params [] []
                Hpairs eq_refl eq_refl) as (p & Hp & _).
    rewrite Hp. exists path, raw_action, query.
    split; [reflexivity |]. split; [exact Hpath |]. split; [reflexivity |].
    eapply Forall_impl; [exact Hall |]. intros arg H. exact H.
Qed.

End ParseUrl.

(** ** The properties above at concrete inputs *)

Lemma empty_configuration_is_reported_witness :
  let ctx := Scenario.publish_context [Scenario.task_layout]
               [Cases.unfiled_config] (Scenario.the_store [] []) in
  let bad := Scenario.publish_context [Scenario.task_layout]
               [Cases.malformed_file_config] (Scenario.the_store [] []) in
  Publish.publish_item mini_os ctx Scenario.task_layout
    (Publish.start Scenario.work_area)
  = ({| Publish.fs := start Scenario.work_area;
        Publish.report_list :=
          [ {| row_label := "sh010"; row_task := "Layout"; row_success := "NO";
               row_reason :=
                 "Shotgrid Config is Empty for this Task, Please check with SG Team" |} ];
        Publish.batch_data := []; Publish.publish_batch_data := [];
        Publish.batch_calls := [] |}, inr tt)
  /\ Publish.publish_item mini_os bad Scenario.task_layout
       (Publish.start Scenario.work_area)
     = (Publish.start Scenario.work_area,
        inl "ValueError: malformed node or string").
Proof.
  intros ctx bad. split.
  - refine (proj1 (empty_configuration_is_reported mini_os ctx Scenario.task_layout
              (Scenario.shot 20 "sh010") Cases.unfiled_config
              (Publish.start Scenario.work_area) eq_refl eq_refl)
              eq_refl _ _ _).
    + discriminate.
    + discriminate.
    + right. reflexivity.
  - refine (proj2 (empty_configuration_is_reported mini_os bad Scenario.task_layout
              (Scenario.shot 20 "sh010") Cases.malformed_file_config
              (Publish.start Scenario.work_area) eq_refl eq_refl) _).
    right. reflexivity.
Defined.


Lemma invalid_role_assignment_is_reported_witness :
  let ctx := Cases.refusing_context [Scenario.task_b] [Scenario.anim_config]
               (Scenario.the_store [] []) in
  Publish.publish_item mini_os ctx Scenario.task_b
    (Publish.start Scenario.work_area)
  = ({| Publish.fs := start Scenario.work_area;
        Publish.report_list :=
          [ {| row_label := "sh020"; row_task := "Animation"; row_success := "NO";
               row_reason := "Artist is not assigned to the task" |} ];
        Publish.batch_data := []; Publish.publish_batch_data := [];
        Publish.batch_calls := [] |}, inr tt).
Proof.
  intros ctx.
  refine (invalid_role_assignment_is_reported mini_os ctx Scenario.task_b
            (Scenario.shot 21 "sh020") Scenario.anim_config
            (<["publish" := {["apr" := "pub"]}]> {["approve" := {["apr" := "pub"]}]})
            {["apr" := "pub"]} "Artist is not assigned to the task"
            (Publish.start Scenario.work_area) eq_refl eq_refl _ _ eq_refl).
  - repeat split; try reflexivity. discriminate.
  - right. exists "pub". reflexivity.
Defined.

Lemma optional_slot_without_source_is_skipped_witness :
  let ctx := Scenario.publish_context [Scenario.task_a] [Scenario.anim_config]
               (Scenario.the_store [] []) in
  Publish.copy_slot mini_os ctx Scenario.task_a (Scenario.shot 20 "sh010")
    Scenario.anim_config (true, "") ("Mov File", Cases.optional_mov_slot)
    (Publish.start Scenario.work_area)
  = (Publish.start Scenario.work_area, inr (true, "")).
Proof.
  intros ctx.
  refine (optional_slot_without_source_is_skipped mini_os ctx Scenario.task_a
            (Scenario.shot 20 "sh010") Scenario.anim_config (true, "") "Mov File"
            Cases.optional_mov_slot "/work/mov" "/work/mov/sh010.mov"
            (Publish.start Scenario.work_area) _).
  right. repeat split; try reflexivity. vm_compute. discriminate.
Defined.

Lemma item_status_stays_false_after_a_failed_copy_witness :
  let ctx := Scenario.publish_context [Scenario.task_a] [Scenario.anim_config]
               (Scenario.the_store [] []) in
  let body := Publish.copy_slot mini_os ctx Scenario.task_a
                (Scenario.shot 20 "sh010") Scenario.anim_config in
  let failed := body (true, "") ("Mov File", Scenario.mov_slot)
                  (Publish.start Scenario.work_area) in
  let r := for_fold [("Maya File", Scenario.maya_slot)]
             (false, "Source path does not exist.") body (fst failed) in
  snd failed = inr (false, "Source path does not exist.")
  /\ world (Publish.fs (fst r)) !! "/pub/maya/sh010.ma"
     = Some (File 438 "scene 010")
  /\ Publish.publish_batch_data (fst r)
     = [Create (Scenario.published 101 20 "sh010" "Maya File" "maya" "ma")]
  /\ match snd r with
     | inr (overall_status, _) => overall_status = false
     | inl _ => False
     end.
Proof.
  intros ctx body failed r.
  split; [vm_compute; reflexivity |].
  split; [vm_compute; reflexivity |].
  split; [vm_compute; reflexivity |].
  destruct r as [s' [e | [overall_status overall_msg]]] eqn:Hr; cbn [snd].
  - vm_compute in Hr. discriminate Hr.
  - exact (item_status_stays_false_after_a_failed_copy mini_os ctx Scenario.task_a
             (Scenario.shot 20 "sh010") Scenario.anim_config
             [("Maya File", Scenario.maya_slot)] "Source path does not exist."
             (fst failed) s' overall_status overall_msg Hr).
Defined.

Lemma techfix_without_origin_keeps_its_record_update_witness :
  let ctx := Scenario.publish_context [Scenario.task_fix]
               [Scenario.lead_review_config]
               (Scenario.the_store [Cases.orphan_record] []) in
  Publish.batch_data
    (fst (Publish.commit_item ctx Scenario.task_fix (Scenario.shot 21 "sh020")
            true "pub" (Publish.initial_row Scenario.task_fix) true ""
            (Publish.start Scenario.work_area)))
  = [Update "CustomEntity04" 530 (Some "pub")].
Proof.
  intros ctx.
  rewrite (techfix_without_origin_keeps_its_record_update ctx Scenario.task_fix
             (Scenario.shot 21 "sh020") "pub"
             (Publish.initial_row Scenario.task_fix) "" Cases.orphan_record
             (Publish.start Scenario.work_area) eq_refl eq_refl).
  reflexivity.
Defined.



Lemma last_matching_configuration_is_used_witness :
  exists before after,
    [Scenario.anim_config; Scenario.lead_review_config]
    = before ++ Scenario.lead_review_config :: after
    /\ cfg_entity_type Scenario.lead_review_config
       = ref_type (task_link Scenario.task_b)
    /\ cfg_path_sheet_name Scenario.lead_review_config = task_step Scenario.task_b
    /\ cfg_task_name Scenario.lead_review_config = config_task_name Scenario.task_b
    /\ matching_configs after Scenario.task_b = [].
Proof.
  exact (last_matching_configuration_is_used
           [Scenario.anim_config; Scenario.lead_review_config] Scenario.task_b
           Scenario.lead_review_config eq_refl).
Defined.

Lemma techfix_task_shares_the_configuration_of_its_task_witness :
  is_techfix_name (task_name Scenario.task_fix) = true
  /\ is_techfix_name (task_name Scenario.task_b) = false
  /\ config_task_name Scenario.task_fix = "Animation"
  /\ config_task_name Scenario.task_b = "Animation".
Proof.
  refine (techfix_task_shares_the_configuration_of_its_task Scenario.task_b
            Scenario.task_fix _ eq_refl).
  simpl. intuition discriminate.
Defined.

Lemma published_file_error_fails_the_item_after_the_copy_witness :
  let ctx := Cases.offline_context [Scenario.task_b] [Scenario.anim_config]
               (Scenario.the_store [] []) in
  let r := Publish.copy_tag mini_os ctx Scenario.task_b (Scenario.shot 21 "sh020")
             Scenario.anim_config "Maya File" Scenario.maya_slot "ma"
             "/work/maya/sh020.ma" (true, "") "server"
             (Publish.start Scenario.work_area) in
  snd r = inr (false, "Error During creating PublishFile Record in ShotGrid; ")
  /\ world (Publish.fs (fst r)) !! "/pub/maya/sh020.ma"
     = Some (File 438 "scene 020")
  /\ Publish.publish_batch_data (fst r) = [].
Proof.
  intros ctx r. subst r.
  rewrite (published_file_error_fails_the_item_after_the_copy mini_os ctx
             Scenario.task_b (Scenario.shot 21 "sh020") Scenario.anim_config
             "Maya File" Scenario.maya_slot "ma" "/work/maya/sh020.ma"
             true "" "server" "mayaPublish" "/pub/maya" "/pub/maya/sh020.ma" ""
             "Fault: connection lost"
             (fst (copy mini_os "/work/maya/sh020.ma" "/pub/maya/sh020.ma"
                     (Some []) true true (start Scenario.work_area)))
             (Publish.start Scenario.work_area)
             eq_refl eq_refl eq_refl eq_refl eq_refl eq_refl).
  split; [reflexivity |]. split; [| reflexivity]. vm_compute. reflexivity.
Defined.

Lemma review_updates_task_and_version_alike_witness :
  let ver := Scenario.version_of 1 109 "rev" in
  let ctx := Scenario.review_context [(1, ver)] [Scenario.task_in_review]
               [Cases.review_config] (Scenario.the_store [] [])
               Scenario.the_lead in
  Review.review_item ctx (1, ver) Review.start
  = ({| Review.report_list :=
          [ {| row_label := "v1"; row_task := "Animation"; row_success := "YES";
               row_reason := "" |} ];
        Review.batch_data :=
          [Update "Task" 109 (Some "tlapr"); Update "Version" 1 (Some "tlapr")];
        Review.batch_calls := [] |}, inr tt).
Proof.
  intros ver ctx.
  refine (review_updates_task_and_version_alike ctx 1 ver
            Scenario.task_in_review {["rev" := "tlapr"]} Review.start
            _ eq_refl (or_introl eq_refl)).
  split; [reflexivity |].
  exists Cases.review_config,
    (<["publish" := {["rev" := "tlapr"]}]> {["approve" := {["rev" := "tlapr"]}]}), "".
  repeat split; reflexivity.
Defined.

Lemma publish_exception_discards_the_earlier_rows_witness :
  let ctx := Scenario.publish_context [Scenario.task_b; Scenario.task_layout]
               [Scenario.anim_config; Scenario.broken_config]
               (Scenario.the_store [] []) in
  let r := Publish.publish mini_os ctx (Publish.start Scenario.work_area) in
  snd r = inr [fatal_row "ValueError: malformed node or string"]
  /\ Publish.batch_calls (fst r) = []
  /\ world (Publish.fs (fst r)) !! "/pub/maya/sh020.ma"
     = Some (File 438 "scene 020").
Proof.
  intros ctx r. subst r.
  set (s0 := Publish.start Scenario.work_area).
  set (s1 := fst (for_each [Scenario.task_b] (Publish.publish_item mini_os ctx)
                    (fst (Publish.init_lists s0)))).
  rewrite (publish_exception_discards_the_earlier_rows mini_os ctx
             [Scenario.task_b] Scenario.task_layout [] s0 s1 s1
             "ValueError: malformed node or string" eq_refl).
  - split; [reflexivity |]. split; [reflexivity |]. vm_compute. reflexivity.
  - vm_compute. reflexivity.
  - vm_compute. reflexivity.
Defined.

Lemma review_exception_discards_the_earlier_rows_witness :
  let ver := Scenario.version_of 1 109 "rev" in
  let lost := Scenario.version_of 2 999 "rev" in
  let ctx := Scenario.review_context [(1, ver); (2, lost)]
               [Scenario.task_in_review] [Cases.review_config]
               (Scenario.the_store [] []) Scenario.the_lead in
  Review.update_version ctx Review.start
  = ({| Review.report_list :=
          [fatal_row "TypeError: 'NoneType' object is not subscriptable"];
        Review.batch_data :=
          [Update "Task" 109 (Some "tlapr"); Update "Version" 1 (Some "tlapr")];
        Review.batch_calls := [] |},
     inr [fatal_row "TypeError: 'NoneType' object is not subscriptable"]).
Proof.
  intros ver lost ctx.
  set (s1 := fst (Review.review_item ctx (1, ver) Review.start)).
  rewrite (review_exception_discards_the_earlier_rows ctx [(1, ver)] (2, lost) []
             Review.start s1 s1
             "TypeError: 'NoneType' object is not subscriptable" eq_refl).
  - reflexivity.
  - vm_compute. reflexivity.
  - vm_compute. reflexivity.
Defined.

Lemma unmapped_path_is_returned_unchanged_witness :
  Paths.convert_to_unc Cases.no_network Cases.join_slash "C:\work\a.ma"
  = "C:\work\a.ma".
Proof.
  apply unmapped_path_is_returned_unchanged.
  right. exists "C"%char. split; [reflexivity |].
  apply list_elem_of_further, list_elem_of_here.
Defined.

Lemma mapped_path_is_resolved_or_falls_back_witness :
  Paths.convert_to_unc Cases.no_network Cases.join_slash "J:\shots\a.ma"
  = "//saffstorage03/saffstoran/Disney/MMCH/shots/a.ma"
  /\ Paths.convert_to_unc Cases.no_network Cases.join_slash "K:\shots\a.ma"
     = "K:/shots/a.ma".
Proof.
  split.
  - rewrite (mapped_path_is_resolved_or_falls_back Cases.no_network
               Cases.join_slash "J" "\shots\a.ma");
      [reflexivity |
       unfold Paths.local_drives; rewrite !not_elem_of_cons; repeat split; try discriminate;
       apply not_elem_of_nil].
  - rewrite (mapped_path_is_resolved_or_falls_back Cases.no_network
               Cases.join_slash "K" "\shots\a.ma");
      [reflexivity |
       unfold Paths.local_drives; rewrite !not_elem_of_cons; repeat split; try discriminate;
       apply not_elem_of_nil].
Defined.

Lemma parse_url_collects_columns_and_keeps_the_last_value_witness :
  exists p,
    ActionMenu._parse_url (fun s => s)
      "shotgrid://publish/?cols=code&user_id=7&cols=status&user_id=8"
    = inr ("shotgrid", "publish", p)
    /\ p !! "cols" = Some (ActionMenu.PList ["code"; "status"])
    /\ p !! "column_display_names" = Some (ActionMenu.PList [])
    /\ p !! "user_id" = Some (ActionMenu.PStr "8")
    /\ p !! "ids" = None.
Proof.
  assert (Hargs :
    Forall2 (fun arg kv => ActionMenu.split_once "=" arg = Some kv)
      (ActionMenu.split "&" "cols=code&user_id=7&cols=status&user_id=8")
      [("cols", "code"); ("user_id", "7"); ("cols", "status"); ("user_id", "8")]).
  { change (ActionMenu.split "&" "cols=code&user_id=7&cols=status&user_id=8")
      with ["cols=code"; "user_id=7"; "cols=status"; "user_id=8"].
    constructor; [reflexivity |].
    constructor; [reflexivity |].
    constructor; [reflexivity |].
    constructor; [reflexivity |].
    constructor. }
  destruct (parse_url_collects_columns_and_keeps_the_last_value (fun s => s)
              "shotgrid://publish/?cols=code&user_id=7&cols=status&user_id=8"
              "shotgrid" "//publish/?cols=code&user_id=7&cols=status&user_id=8"
              "//publish/" "cols=code&user_id=7&cols=status&user_id=8"
              [("cols", "code"); ("user_id", "7"); ("cols", "status");
               ("user_id", "8")]
              eq_refl eq_refl Hargs)
    as (p & Hp & Hc & Hn & Ho).
  exists p. split; [exact Hp |]. split; [exact Hc |]. split; [exact Hn |].
  split.
  - exact (Ho "user_id" ltac:(discriminate) ltac:(discriminate)).
  - exact (Ho "ids" ltac:(discriminate) ltac:(discriminate)).
Defined.
